(** * AfundiOS agents: the workflow planner and the orchestrator

    A shallow embedding of [backend/core/agents/planner.py] and
    [backend/core/agents/orchestrator.py], with the properties of the
    task / workflow life cycle proved over it.

    Modelling conventions.
    - Python [str] values are Rocq strings; [lower] is modelled on the ASCII
      letters, the other characters are left as they are.
    - A Python [dict] whose iteration order is observed (a workflow's task
      map) is an association list in insertion order; dictionaries that are
      only looked up (the planner's workflow map, the execution map, the
      handler registry) are [gmap]s.
    - [Workflow] objects are mutable and shared between the planner's map and
      its callers, so they live in a heap (a list indexed by reference); the
      [Task] objects are owned by their workflow and stored in it by value.
    - [datetime.now()] reads an external clock: the n-th reading is
      [wall_clock n], and the state counts the readings.
    - An exception is a value of [Outcome]; state changes made before the
      exception was raised are kept, as in Python.
    - The fields of a class carry its prefix ([task_], [wf_], [er_]), since
      the fields of all records share one name space. *)

From Stdlib Require Import ZArith QArith Ascii.
From stdpp Require Import base option list sorting relations gmap strings pretty.

Set Warnings "-register-all".

Open Scope string_scope.
Open Scope list_scope.

(** ** Python values, exceptions *)

(** The values found in parameter and result dictionaries. *)
Inductive PyVal : Type :=
| PyNone
| PyBool (b : bool)
| PyInt (z : Z)
| PyStr (s : string)
| PyList (items : list PyVal)
| PyDict (entries : list (string * PyVal)).

(** A dictionary with string keys, in insertion order. *)
Abbreviation Dict V := (list (string * V)).

Fixpoint dict_get {V} (k : string) (d : Dict V) : option V :=
  match d with
  | [] => None
  | (k', v) :: d' => if String.eqb k' k then Some v else dict_get k d'
  end.

(** [d[k] = v]: an existing key keeps its position, a new one goes last. *)
Fixpoint dict_set {V} (k : string) (v : V) (d : Dict V) : Dict V :=
  match d with
  | [] => [(k, v)]
  | (k', v') :: d' =>
      if String.eqb k' k then (k', v) :: d' else (k', v') :: dict_set k v d'
  end.

Definition dict_values {V} (d : Dict V) : list V := map snd d.
Definition dict_keys {V} (d : Dict V) : list string := map fst d.

(** In-place mutation of the object stored under [k]. *)
Fixpoint dict_modify {V} (k : string) (f : V -> V) (d : Dict V) : Dict V :=
  match d with
  | [] => []
  | (k', v) :: d' =>
      if String.eqb k' k then (k', f v) :: d' else (k', v) :: dict_modify k f d'
  end.

(** Python truthiness. *)
Definition truthy (v : PyVal) : bool :=
  match v with
  | PyNone => false
  | PyBool b => b
  | PyInt z => negb (Z.eqb z 0)
  | PyStr s => negb (String.eqb s EmptyString)
  | PyList l => match l with [] => false | _ => true end
  | PyDict d => match d with [] => false | _ => true end
  end.

Inductive Exn : Type :=
| RuntimeError (msg : string)
| KeyError (key : string)
| TypeError (msg : string)
| HandlerError (msg : string).

(** [str(e)]; a [KeyError] prints the repr of its key. *)
Definition exn_str (e : Exn) : string :=
  match e with
  | RuntimeError m => m
  | KeyError k => "'" +:+ k +:+ "'"
  | TypeError m => m
  | HandlerError m => m
  end.

Inductive Outcome (A : Type) : Type :=
| Returned (a : A)
| Raised (e : Exn).
Arguments Returned {A} a.
Arguments Raised {A} e.

(** [len(v)]. *)
Definition py_len (v : PyVal) : Outcome nat :=
  match v with
  | PyStr s => Returned (String.length s)
  | PyList l => Returned (length l)
  | PyDict d => Returned (length d)
  | PyNone => Raised (TypeError "object of type 'NoneType' has no len()")
  | PyBool _ => Raised (TypeError "object of type 'bool' has no len()")
  | PyInt _ => Raised (TypeError "object of type 'int' has no len()")
  end.

(** ** Strings *)

Definition lower_ascii (c : ascii) : ascii :=
  let n := nat_of_ascii c in
  if (65 <=? n)%nat && (n <=? 90)%nat then ascii_of_nat (n + 32) else c.

Fixpoint lower (s : string) : string :=
  match s with
  | EmptyString => EmptyString
  | String c s' => String (lower_ascii c) (lower s')
  end.

(** [sub in s]. *)
Fixpoint contains (sub s : string) : bool :=
  String.prefix sub s ||
  match s with
  | EmptyString => false
  | String _ s' => contains sub s'
  end.

(** ** planner.py: the data model *)

Inductive TaskStatus : Set :=
| PENDING | READY | IN_PROGRESS | COMPLETED | FAILED | BLOCKED.

Inductive TaskPriority : Set :=
| LOW | MEDIUM | HIGH | CRITICAL.

Global Instance TaskStatus_eq_dec : EqDecision TaskStatus.
Proof. solve_decision. Defined.

Global Instance TaskPriority_eq_dec : EqDecision TaskPriority.
Proof. solve_decision. Defined.

(** A point in time, in microseconds. *)
Abbreviation datetime := Z.

Record Task : Type := mkTask {
  task_id : string;
  task_name : string;
  task_description : string;
  task_objective : string;
  task_action : string;
  task_parameters : Dict PyVal;
  task_priority : TaskPriority;
  task_dependencies : list string;
  task_status : TaskStatus;
  task_estimated_duration_seconds : Z;
  task_created_at : datetime;
  task_started_at : option datetime;
  task_completed_at : option datetime;
  task_result : option (Dict PyVal);
  task_error : option string
}.

Definition set_task_status (s : TaskStatus) (t : Task) : Task :=
  mkTask (task_id t) (task_name t) (task_description t) (task_objective t)
    (task_action t) (task_parameters t) (task_priority t)
    (task_dependencies t) s (task_estimated_duration_seconds t)
    (task_created_at t) (task_started_at t) (task_completed_at t)
    (task_result t) (task_error t).

Definition set_task_started_at (x : option datetime) (t : Task) : Task :=
  mkTask (task_id t) (task_name t) (task_description t) (task_objective t)
    (task_action t) (task_parameters t) (task_priority t)
    (task_dependencies t) (task_status t) (task_estimated_duration_seconds t)
    (task_created_at t) x (task_completed_at t)
    (task_result t) (task_error t).

Definition set_task_completed_at (x : option datetime) (t : Task) : Task :=
  mkTask (task_id t) (task_name t) (task_description t) (task_objective t)
    (task_action t) (task_parameters t) (task_priority t)
    (task_dependencies t) (task_status t) (task_estimated_duration_seconds t)
    (task_created_at t) (task_started_at t) x
    (task_result t) (task_error t).

Definition set_task_result (x : option (Dict PyVal)) (t : Task) : Task :=
  mkTask (task_id t) (task_name t) (task_description t) (task_objective t)
    (task_action t) (task_parameters t) (task_priority t)
    (task_dependencies t) (task_status t) (task_estimated_duration_seconds t)
    (task_created_at t) (task_started_at t) (task_completed_at t)
    x (task_error t).

Definition set_task_error (x : option string) (t : Task) : Task :=
  mkTask (task_id t) (task_name t) (task_description t) (task_objective t)
    (task_action t) (task_parameters t) (task_priority t)
    (task_dependencies t) (task_status t) (task_estimated_duration_seconds t)
    (task_created_at t) (task_started_at t) (task_completed_at t)
    (task_result t) x.

Definition set_task_dependencies (x : list string) (t : Task) : Task :=
  mkTask (task_id t) (task_name t) (task_description t) (task_objective t)
    (task_action t) (task_parameters t) (task_priority t)
    x (task_status t) (task_estimated_duration_seconds t)
    (task_created_at t) (task_started_at t) (task_completed_at t)
    (task_result t) (task_error t).

Record Workflow : Type := mkWorkflow {
  wf_id : string;
  wf_goal : string;
  wf_description : string;
  wf_tasks : Dict Task;
  wf_task_order : list string;
  wf_status : string;
  wf_created_at : datetime;
  wf_started_at : option datetime;
  wf_completed_at : option datetime;
  wf_estimated_total_duration : Z;
  wf_actual_duration : option Z;
  wf_metadata : Dict PyVal
}.

Definition set_wf_tasks (x : Dict Task) (w : Workflow) : Workflow :=
  mkWorkflow (wf_id w) (wf_goal w) (wf_description w) x (wf_task_order w)
    (wf_status w) (wf_created_at w) (wf_started_at w) (wf_completed_at w)
    (wf_estimated_total_duration w) (wf_actual_duration w) (wf_metadata w).

Definition set_wf_task_order (x : list string) (w : Workflow) : Workflow :=
  mkWorkflow (wf_id w) (wf_goal w) (wf_description w) (wf_tasks w) x
    (wf_status w) (wf_created_at w) (wf_started_at w) (wf_completed_at w)
    (wf_estimated_total_duration w) (wf_actual_duration w) (wf_metadata w).

Definition set_wf_status (x : string) (w : Workflow) : Workflow :=
  mkWorkflow (wf_id w) (wf_goal w) (wf_description w) (wf_tasks w)
    (wf_task_order w) x (wf_created_at w) (wf_started_at w)
    (wf_completed_at w) (wf_estimated_total_duration w)
    (wf_actual_duration w) (wf_metadata w).

Definition set_wf_estimated_total_duration (x : Z) (w : Workflow) : Workflow :=
  mkWorkflow (wf_id w) (wf_goal w) (wf_description w) (wf_tasks w)
    (wf_task_order w) (wf_status w) (wf_created_at w) (wf_started_at w)
    (wf_completed_at w) x (wf_actual_duration w) (wf_metadata w).

(** ** Workflow: derived behaviour *)

(** [Workflow.get_task] *)
Definition get_task (w : Workflow) (tid : string) : option Task :=
  dict_get tid (wf_tasks w).

(** The generator handed to [all(...)] in [get_ready_tasks]: [self.tasks[dep]]
    raises [KeyError] for a missing key, and [all] stops at the first
    dependency that is not completed. *)
Fixpoint deps_met (tasks : Dict Task) (deps : list string) : Outcome bool :=
  match deps with
  | [] => Returned true
  | dep_id :: deps' =>
      match dict_get dep_id tasks with
      | None => Raised (KeyError dep_id)
      | Some d =>
          if bool_decide (task_status d = COMPLETED)
          then deps_met tasks deps'
          else Returned false
      end
  end.

(** The loop of [get_ready_tasks] over [self.tasks.values()]. *)
Fixpoint collect_ready (tasks : Dict Task) (vals : list Task)
  : Outcome (list Task) :=
  match vals with
  | [] => Returned []
  | t :: vals' =>
      if bool_decide (task_status t = READY) || bool_decide (task_status t = PENDING)
      then
        match deps_met tasks (task_dependencies t) with
        | Raised e => Raised e
        | Returned ok =>
            match collect_ready tasks vals' with
            | Raised e => Raised e
            | Returned r => Returned (if ok then t :: r else r)
            end
        end
      else collect_ready tasks vals'
  end.

Definition priority_order (p : TaskPriority) : nat :=
  match p with
  | CRITICAL => 0
  | HIGH => 1
  | MEDIUM => 2
  | LOW => 3
  end.

(** [sorted(xs, key=...)]: Python's sort is stable; so is this insertion
    sort, which puts an element before the first one with a key that is not
    smaller. *)
Fixpoint insert_by {A} (key : A -> nat) (x : A) (l : list A) : list A :=
  match l with
  | [] => [x]
  | y :: l' =>
      if (key x <=? key y)%nat then x :: y :: l' else y :: insert_by key x l'
  end.

Fixpoint sorted {A} (key : A -> nat) (l : list A) : list A :=
  match l with
  | [] => []
  | x :: l' => insert_by key x (sorted key l')
  end.

(** [Workflow.get_ready_tasks] *)
Definition get_ready_tasks (w : Workflow) : Outcome (list Task) :=
  match collect_ready (wf_tasks w) (dict_values (wf_tasks w)) with
  | Raised e => Raised e
  | Returned ready =>
      Returned (sorted (fun t => priority_order (task_priority t)) ready)
  end.

Record Progress : Type := mkProgress {
  pr_total : nat;
  pr_completed : nat;
  pr_failed : nat;
  pr_in_progress : nat;
  pr_blocked : nat;
  pr_pending : Z;
  pr_completion_percentage : Q
}.

Definition count_status (s : TaskStatus) (w : Workflow) : nat :=
  length (filter (fun t => task_status t = s) (dict_values (wf_tasks w))).

(** [Workflow.get_progress]; the percentage is the exact value of the
    floating-point expression. *)
Definition get_progress (w : Workflow) : Progress :=
  let total := length (wf_tasks w) in
  let completed := count_status COMPLETED w in
  let failed := count_status FAILED w in
  let in_progress := count_status IN_PROGRESS w in
  let blocked := count_status BLOCKED w in
  mkProgress total completed failed in_progress blocked
    (Z.of_nat total - Z.of_nat completed - Z.of_nat failed
     - Z.of_nat in_progress - Z.of_nat blocked)
    (if (0 <? total)%nat
     then Qmake (Z.of_nat completed * 100) (Pos.of_nat total)
     else 0%Q).

(** ** orchestrator.py: the data model *)

Inductive WorkflowMode : Set :=
| SEQUENTIAL | PARALLEL | HYBRID.

Record AgentExecutionConfig : Type := mkConfig {
  mode : WorkflowMode;
  max_retries : Z;
  timeout_seconds : Z;
  enable_criticism : bool;
  enable_summarization : bool;
  auto_approve_quality_score : Q;
  log_execution : bool
}.

(** What the orchestrator keeps of the critic's and the summarizer's
    answers. *)
Record ReviewResult : Type := mkReview {
  rv_content_id : string;
  rv_is_approved : bool;
  rv_review_summary : string
}.

Record SummaryResult : Type := mkSummary {
  sm_content_id : string;
  sm_summary_text : string
}.

Record ExecutionResult : Type := mkResult {
  er_workflow_id : string;
  er_success : bool;
  er_status : string;
  er_started_at : datetime;
  er_completed_at : option datetime;
  er_duration_seconds : Z;
  er_tasks_completed : nat;
  er_tasks_failed : nat;
  er_tasks_total : nat;
  er_results : Dict (Dict PyVal);
  er_errors : list string;
  er_reviews : Dict ReviewResult;
  er_summaries : Dict SummaryResult
}.

Definition set_er_success (x : bool) (r : ExecutionResult) : ExecutionResult :=
  mkResult (er_workflow_id r) x (er_status r) (er_started_at r)
    (er_completed_at r) (er_duration_seconds r) (er_tasks_completed r)
    (er_tasks_failed r) (er_tasks_total r) (er_results r) (er_errors r)
    (er_reviews r) (er_summaries r).

Definition set_er_status (x : string) (r : ExecutionResult) : ExecutionResult :=
  mkResult (er_workflow_id r) (er_success r) x (er_started_at r)
    (er_completed_at r) (er_duration_seconds r) (er_tasks_completed r)
    (er_tasks_failed r) (er_tasks_total r) (er_results r) (er_errors r)
    (er_reviews r) (er_summaries r).

Definition set_er_completed_at (x : option datetime) (r : ExecutionResult)
  : ExecutionResult :=
  mkResult (er_workflow_id r) (er_success r) (er_status r) (er_started_at r)
    x (er_duration_seconds r) (er_tasks_completed r)
    (er_tasks_failed r) (er_tasks_total r) (er_results r) (er_errors r)
    (er_reviews r) (er_summaries r).

Definition set_er_duration_seconds (x : Z) (r : ExecutionResult)
  : ExecutionResult :=
  mkResult (er_workflow_id r) (er_success r) (er_status r) (er_started_at r)
    (er_completed_at r) x (er_tasks_completed r)
    (er_tasks_failed r) (er_tasks_total r) (er_results r) (er_errors r)
    (er_reviews r) (er_summaries r).

Definition set_er_tasks_completed (x : nat) (r : ExecutionResult)
  : ExecutionResult :=
  mkResult (er_workflow_id r) (er_success r) (er_status r) (er_started_at r)
    (er_completed_at r) (er_duration_seconds r) x
    (er_tasks_failed r) (er_tasks_total r) (er_results r) (er_errors r)
    (er_reviews r) (er_summaries r).

Definition set_er_tasks_failed (x : nat) (r : ExecutionResult)
  : ExecutionResult :=
  mkResult (er_workflow_id r) (er_success r) (er_status r) (er_started_at r)
    (er_completed_at r) (er_duration_seconds r) (er_tasks_completed r)
    x (er_tasks_total r) (er_results r) (er_errors r)
    (er_reviews r) (er_summaries r).

Definition set_er_results (x : Dict (Dict PyVal)) (r : ExecutionResult)
  : ExecutionResult :=
  mkResult (er_workflow_id r) (er_success r) (er_status r) (er_started_at r)
    (er_completed_at r) (er_duration_seconds r) (er_tasks_completed r)
    (er_tasks_failed r) (er_tasks_total r) x (er_errors r)
    (er_reviews r) (er_summaries r).

Definition set_er_errors (x : list string) (r : ExecutionResult)
  : ExecutionResult :=
  mkResult (er_workflow_id r) (er_success r) (er_status r) (er_started_at r)
    (er_completed_at r) (er_duration_seconds r) (er_tasks_completed r)
    (er_tasks_failed r) (er_tasks_total r) (er_results r) x
    (er_reviews r) (er_summaries r).

Definition set_er_reviews (x : Dict ReviewResult) (r : ExecutionResult)
  : ExecutionResult :=
  mkResult (er_workflow_id r) (er_success r) (er_status r) (er_started_at r)
    (er_completed_at r) (er_duration_seconds r) (er_tasks_completed r)
    (er_tasks_failed r) (er_tasks_total r) (er_results r) (er_errors r)
    x (er_summaries r).

Definition set_er_summaries (x : Dict SummaryResult) (r : ExecutionResult)
  : ExecutionResult :=
  mkResult (er_workflow_id r) (er_success r) (er_status r) (er_started_at r)
    (er_completed_at r) (er_duration_seconds r) (er_tasks_completed r)
    (er_tasks_failed r) (er_tasks_total r) (er_results r) (er_errors r)
    (er_reviews r) x.

(** An action handler: [(parameters) -> result map], or an exception. *)
Abbreviation Handler := (Dict PyVal -> Outcome (Dict PyVal)).

(** A reference to a [Workflow] object. *)
Abbreviation loc := nat.

(** ** The state of one orchestrator with its planner

    [workflows] and [_task_counter] are the attributes of the
    [PlannerAgent]; [config], [executions] and [_action_handlers] those of
    the [AgentOrchestrator]. [critic_calls] and [summarizer_calls] count the
    calls made to the two collaborators. [dispatched] is a ghost field: the
    ids of the tasks handed to [_execute_task], latest first. *)
Record Core : Type := mkCore {
  clock_reads : nat;
  heap : list Workflow;
  workflows : gmap string loc;
  _task_counter : nat;
  config : AgentExecutionConfig;
  executions : gmap string ExecutionResult;
  _action_handlers : gmap string Handler;
  critic_calls : nat;
  summarizer_calls : nat;
  dispatched : list string
}.

Definition set_clock_reads (x : nat) (st : Core) : Core :=
  mkCore x (heap st) (workflows st) (_task_counter st) (config st)
    (executions st) (_action_handlers st) (critic_calls st)
    (summarizer_calls st) (dispatched st).

Definition set_heap (x : list Workflow) (st : Core) : Core :=
  mkCore (clock_reads st) x (workflows st) (_task_counter st) (config st)
    (executions st) (_action_handlers st) (critic_calls st)
    (summarizer_calls st) (dispatched st).

Definition set_workflows (x : gmap string loc) (st : Core) : Core :=
  mkCore (clock_reads st) (heap st) x (_task_counter st) (config st)
    (executions st) (_action_handlers st) (critic_calls st)
    (summarizer_calls st) (dispatched st).

Definition set_task_counter (x : nat) (st : Core) : Core :=
  mkCore (clock_reads st) (heap st) (workflows st) x (config st)
    (executions st) (_action_handlers st) (critic_calls st)
    (summarizer_calls st) (dispatched st).

Definition set_executions (x : gmap string ExecutionResult) (st : Core) : Core :=
  mkCore (clock_reads st) (heap st) (workflows st) (_task_counter st)
    (config st) x (_action_handlers st) (critic_calls st)
    (summarizer_calls st) (dispatched st).

Definition set_critic_calls (x : nat) (st : Core) : Core :=
  mkCore (clock_reads st) (heap st) (workflows st) (_task_counter st)
    (config st) (executions st) (_action_handlers st) x
    (summarizer_calls st) (dispatched st).

Definition set_summarizer_calls (x : nat) (st : Core) : Core :=
  mkCore (clock_reads st) (heap st) (workflows st) (_task_counter st)
    (config st) (executions st) (_action_handlers st) (critic_calls st)
    x (dispatched st).

Definition set_dispatched (x : list string) (st : Core) : Core :=
  mkCore (clock_reads st) (heap st) (workflows st) (_task_counter st)
    (config st) (executions st) (_action_handlers st) (critic_calls st)
    (summarizer_calls st) x.

(** What the core takes from outside: the clock, the formatting of a time
    stamp by [strftime("%Y%m%d%H%M%S")], and the two collaborators, whose
    answer may depend on how many calls they have served. *)
Record Env : Type := mkEnv {
  wall_clock : nat -> datetime;
  strftime : datetime -> string;
  critic_review : nat -> PyVal -> string -> string -> Outcome ReviewResult;
  summarizer_summarize : nat -> PyVal -> Outcome SummaryResult
}.

(** Computations that read and change the state and always return. *)
Definition M (A : Type) : Type := Core -> Core * A.

Definition ret {A} (a : A) : M A := fun st => (st, a).

Definition bind {A B} (m : M A) (k : A -> M B) : M B :=
  fun st => let (st', a) := m st in k a st'.

Notation "x <- m ;; k" := (bind m (fun x => k))
  (at level 100, m at next level, right associativity).

Section Planner.

Variable E : Env.

(** [datetime.now()] *)
Definition now : M datetime :=
  fun st => (set_clock_reads (S (clock_reads st)) st, wall_clock E (clock_reads st)).

(** [f"task_{n}"] *)
Definition task_label (n : nat) : string := "task_" +:+ pretty n.

(** [PlannerAgent._next_task_id] *)
Definition _next_task_id : M string :=
  fun st =>
    let n := S (_task_counter st) in
    (set_task_counter n st, task_label n).

(** [PlannerAgent._generate_workflow_id] *)
Definition _generate_workflow_id : M string :=
  timestamp <- now ;;
  fun st =>
    (st, "workflow_" +:+ strftime E timestamp +:+ "_"
           +:+ pretty (size (workflows st) + 1)%nat).

(** [Task(id=self._next_task_id(), ...)]: the id is computed first, then the
    constructor reads the clock for [created_at]. *)
Definition new_task (name description objective action : string)
    (parameters : Dict PyVal) (priority : TaskPriority)
    (estimated_duration_seconds : Z) : M Task :=
  id <- _next_task_id ;;
  created <- now ;;
  ret (mkTask id name description objective action parameters priority []
         PENDING estimated_duration_seconds created None None None None).

Definition _create_briefing_tasks : M (list Task) :=
  t1 <- new_task "Retrieve Documents" "Fetch relevant documents and chunks"
          "Gather source material for briefing" "query_docs"
          [("query_type", PyStr "broad"); ("limit", PyInt 20)] HIGH 10 ;;
  t2 <- new_task "Extract Key Points" "Identify and extract key information"
          "Distill content into main points" "extract_key_points"
          [("method", PyStr "semantic"); ("max_points", PyInt 10)] HIGH 15 ;;
  t3 <- new_task "Synthesize Summary" "Generate comprehensive summary"
          "Create cohesive briefing text" "synthesize"
          [("style", PyStr "professional"); ("length", PyStr "medium")] HIGH 20 ;;
  t4 <- new_task "Format Output" "Structure briefing for presentation"
          "Prepare formatted briefing" "format"
          [("format", PyStr "markdown")] MEDIUM 10 ;;
  ret [t1; t2; t3; t4].

Definition _create_analysis_tasks : M (list Task) :=
  t1 <- new_task "Gather Data" "Collect relevant information"
          "Assemble analysis source material" "query_docs"
          [("query_type", PyStr "specific"); ("limit", PyInt 30)] HIGH 15 ;;
  t2 <- new_task "Identify Patterns" "Find patterns and relationships"
          "Discover key insights" "analyze_patterns"
          [("method", PyStr "graph_analysis")] HIGH 25 ;;
  t3 <- new_task "Generate Insights" "Create analytical summary"
          "Produce actionable insights" "synthesize"
          [("style", PyStr "analytical"); ("include_recommendations", PyBool true)]
          MEDIUM 20 ;;
  ret [t1; t2; t3].

Definition _create_retrieval_tasks : M (list Task) :=
  t1 <- new_task "Search Documents" "Query document collection"
          "Find matching documents" "query_docs"
          [("enable_rerank", PyBool true); ("limit", PyInt 10)] HIGH 10 ;;
  t2 <- new_task "Rank Results" "Rank by relevance"
          "Order results by importance" "rerank"
          [("method", PyStr "cross_encoder")] MEDIUM 5 ;;
  t3 <- new_task "Format Results" "Prepare results for output"
          "Create formatted result set" "format"
          [("format", PyStr "json")] LOW 5 ;;
  ret [t1; t2; t3].

Definition _create_generation_tasks : M (list Task) :=
  t1 <- new_task "Plan Content" "Outline content structure"
          "Create content plan" "plan"
          [("elements", PyList [PyStr "intro"; PyStr "body"; PyStr "conclusion"])]
          HIGH 10 ;;
  t2 <- new_task "Generate Content" "Create content using LLM"
          "Produce text content" "synthesize"
          [("style", PyStr "professional"); ("include_examples", PyBool true)]
          HIGH 20 ;;
  t3 <- new_task "Review Content" "QA and refinement"
          "Ensure quality output" "review"
          [("check_quality", PyBool true)] MEDIUM 15 ;;
  ret [t1; t2; t3].

Definition _create_update_tasks : M (list Task) :=
  t1 <- new_task "Check Updates" "Scan for new information"
          "Identify changed content" "check_updates"
          [("check_type", PyStr "new_documents")] HIGH 10 ;;
  t2 <- new_task "Process Updates" "Incorporate new information"
          "Update knowledge base" "process_updates"
          [("merge_strategy", PyStr "append")] HIGH 20 ;;
  t3 <- new_task "Verify Changes" "Validate update integrity"
          "Ensure consistency" "verify"
          [("verify_type", PyStr "consistency")] MEDIUM 10 ;;
  ret [t1; t2; t3].

Definition _create_default_tasks (goal : string) : M (list Task) :=
  t1 <- new_task "Analyze Goal" ("Break down: " +:+ goal)
          "Understand requirements" "analyze"
          [("goal", PyStr goal)] HIGH 5 ;;
  t2 <- new_task "Execute" "Perform main action"
          "Accomplish goal" "execute"
          [("goal", PyStr goal)] HIGH 30 ;;
  t3 <- new_task "Validate Results" "Check execution success"
          "Ensure goal achieved" "validate"
          [("goal", PyStr goal)] MEDIUM 10 ;;
  ret [t1; t2; t3].

(** [any(word in goal_lower for word in words)] *)
Definition any_word_in (words : list string) (goal_lower : string) : bool :=
  existsb (fun word => contains word goal_lower) words.

(** [tasks.extend(...)] under its [if]. *)
Definition extend_if (c : bool) (more : M (list Task)) (tasks : list Task)
  : M (list Task) :=
  if c then (new <- more ;; ret (tasks ++ new)) else ret tasks.

(** [PlannerAgent._decompose_goal] *)
Definition _decompose_goal (goal description : string) (context : Dict PyVal)
  : M (list Task) :=
  let goal_lower := lower goal in
  tasks <- extend_if (any_word_in ["briefing"; "summary"; "report"] goal_lower)
             _create_briefing_tasks [] ;;
  tasks <- extend_if (any_word_in ["analyze"; "analysis"; "examine"] goal_lower)
             _create_analysis_tasks tasks ;;
  tasks <- extend_if (any_word_in ["search"; "find"; "retrieve"; "query"] goal_lower)
             _create_retrieval_tasks tasks ;;
  tasks <- extend_if (any_word_in ["generate"; "create"; "write"] goal_lower)
             _create_generation_tasks tasks ;;
  tasks <- extend_if (any_word_in ["update"; "refresh"; "sync"] goal_lower)
             _create_update_tasks tasks ;;
  match tasks with
  | [] => _create_default_tasks goal
  | _ => ret tasks
  end.

Definition action_sequences : Dict (list string) :=
  [ ("query_docs", ["rerank"; "format"]);
    ("extract_key_points", ["synthesize"]);
    ("analyze_patterns", ["synthesize"]);
    ("plan", ["synthesize"]);
    ("generate_content", ["review"]);
    ("check_updates", ["process_updates"]);
    ("process_updates", ["verify"]) ].

(** [x in xs] for a list of strings. *)
Definition str_in (x : string) (xs : list string) : bool :=
  existsb (String.eqb x) xs.

(** The body of the inner loop of [_resolve_dependencies], for the producing
    task [task] and one [other_task]. *)
Definition add_dependency (task : Task) (dependent_actions : list string)
    (other_task : Task) : Task :=
  if str_in (task_action other_task) dependent_actions
     && negb (String.eqb (task_id other_task) (task_id task))
  then
    if str_in (task_id task) (task_dependencies other_task)
    then other_task
    else set_task_dependencies (task_dependencies other_task ++ [task_id task])
           other_task
  else other_task.

(** One round of the outer loop. The outer loop reads only the id and the
    action of [task], which the inner loop never changes. *)
Definition resolve_for (tasks : Dict Task) (task : Task) : Dict Task :=
  match dict_get (task_action task) action_sequences with
  | Some dependent_actions =>
      map (fun kv => (fst kv, add_dependency task dependent_actions (snd kv))) tasks
  | None => tasks
  end.

(** [PlannerAgent._resolve_dependencies] *)
Definition _resolve_dependencies (w : Workflow) : Workflow :=
  set_wf_tasks (foldl resolve_for (wf_tasks w) (dict_values (wf_tasks w))) w.

(** [PlannerAgent._calculate_duration] *)
Definition _calculate_duration (w : Workflow) : Z :=
  match wf_tasks w with
  | [] => 0
  | _ => foldr Z.add 0 (map task_estimated_duration_seconds (dict_values (wf_tasks w)))
  end%Z.

(** The loop of [plan_workflow] that files the tasks into the workflow. *)
Definition add_task (w : Workflow) (task : Task) : Workflow :=
  set_wf_task_order (wf_task_order w ++ [task_id task])
    (set_wf_tasks (dict_set (task_id task) task (wf_tasks w)) w).

(** [self.workflows[workflow_id] = workflow]: the object gets its place in
    the heap here, where it first becomes visible to others. *)
Definition store_workflow (workflow_id : string) (w : Workflow) : M loc :=
  fun st =>
    let l := length (heap st) in
    (set_workflows (<[workflow_id := l]> (workflows st))
       (set_heap (heap st ++ [w]) st), l).

(** [PlannerAgent.plan_workflow]; returns the reference to the new
    workflow. *)
Definition plan_workflow (goal description : string)
    (context : option (Dict PyVal)) : M loc :=
  workflow_id <- _generate_workflow_id ;;
  created <- now ;;
  let workflow :=
    mkWorkflow workflow_id goal description [] [] "planning" created None None
      0 None [("initial_context", PyDict (default [] context))] in
  tasks <- _decompose_goal goal description (default [] context) ;;
  let workflow := foldl add_task workflow tasks in
  let workflow := _resolve_dependencies workflow in
  let workflow :=
    set_wf_estimated_total_duration (_calculate_duration workflow) workflow in
  let workflow := set_wf_status "ready" workflow in
  store_workflow workflow_id workflow.

(** [PlannerAgent.get_workflow]: a reference, or [None]. *)
Definition get_workflow (st : Core) (workflow_id : string) : option loc :=
  workflows st !! workflow_id.

(** The object behind [self.workflows.get(workflow_id)]. Every reference in
    the planner's map points into the heap; one that did not would count as
    missing. *)
Definition find_workflow (st : Core) (workflow_id : string)
  : option (loc * Workflow) :=
  match get_workflow st workflow_id with
  | Some l =>
      match heap st !! l with
      | Some w => Some (l, w)
      | None => None
      end
  | None => None
  end.

(** Mutation of the task stored under [task_id] in the workflow at [l]. *)
Definition modify_task (l : loc) (w : Workflow) (task_id : string)
    (f : Task -> Task) (st : Core) : Core :=
  set_heap (<[l := set_wf_tasks (dict_modify task_id f (wf_tasks w)) w]> (heap st)) st.

(** [PlannerAgent.update_task_status] *)
Definition update_task_status (workflow_id task_id : string)
    (status : TaskStatus) (result : option (Dict PyVal))
    (error : option string) : M bool :=
  fun st =>
    match find_workflow st workflow_id with
    | None => (st, false)
    | Some (l, workflow) =>
        match dict_get task_id (wf_tasks workflow) with
        | None => (st, false)
        | Some _ =>
            match status with
            | IN_PROGRESS =>
                let (st1, t) := now st in
                (modify_task l workflow task_id
                   (fun task => set_task_started_at (Some t)
                                  (set_task_status status task)) st1, true)
            | COMPLETED =>
                let (st1, t) := now st in
                (modify_task l workflow task_id
                   (fun task => set_task_result result
                                  (set_task_completed_at (Some t)
                                     (set_task_status status task))) st1, true)
            | FAILED =>
                let (st1, t) := now st in
                (modify_task l workflow task_id
                   (fun task => set_task_completed_at (Some t)
                                  (set_task_error error
                                     (set_task_status status task))) st1, true)
            | _ =>
                (modify_task l workflow task_id (set_task_status status) st, true)
            end
        end
    end.

(** [PlannerAgent.get_next_tasks] *)
Definition get_next_tasks (st : Core) (workflow_id : string)
  : Outcome (list Task) :=
  match find_workflow st workflow_id with
  | None => Returned []
  | Some (_, workflow) => get_ready_tasks workflow
  end.

(** [PlannerAgent.get_workflow_progress] *)
Definition get_workflow_progress (st : Core) (workflow_id : string)
  : option Progress :=
  match find_workflow st workflow_id with
  | None => None
  | Some (_, workflow) => Some (get_progress workflow)
  end.

End Planner.

(** ** orchestrator.py: execution *)

Section Orchestrator.

Variable E : Env.

(** [AgentOrchestrator._default_handler] *)
Definition _default_handler : Handler :=
  fun params =>
    Returned [("action", PyStr "unknown"); ("output", PyStr "Action executed");
              ("parameters", PyDict params)].

(** The review of the output, inside the [try] of [_execute_task]. *)
Definition review_output (task : Task) (output : PyVal)
    (st : Core) (result : ExecutionResult)
  : Core * ExecutionResult * option Exn :=
  if enable_criticism (config st) && truthy output then
    let st1 := set_critic_calls (S (critic_calls st)) st in
    match critic_review E (critic_calls st) output (task_action task)
            (task_name task) with
    | Raised e => (st1, result, Some e)
    | Returned review =>
        (st1, set_er_reviews (dict_set (task_id task) review (er_reviews result))
                result, None)
    end
  else (st, result, None).

(** The summary of the output, inside the [try] of [_execute_task]. *)
Definition summarize_output (task : Task) (output : PyVal)
    (st : Core) (result : ExecutionResult)
  : Core * ExecutionResult * option Exn :=
  if enable_summarization (config st) && truthy output then
    match py_len output with
    | Raised e => (st, result, Some e)
    | Returned n =>
        if (200 <? n)%nat then
          let st1 := set_summarizer_calls (S (summarizer_calls st)) st in
          match summarizer_summarize E (summarizer_calls st) output with
          | Raised e => (st1, result, Some e)
          | Returned summary =>
              (st1, set_er_summaries
                      (dict_set (task_id task) summary (er_summaries result))
                      result, None)
          end
        else (st, result, None)
    end
  else (st, result, None).

(** The [try] block of [_execute_task]: the state and the result as it
    leaves them, and the exception if it was left by one. *)
Definition try_task (workflow_id : string) (task : Task)
    (st : Core) (result : ExecutionResult)
  : Core * ExecutionResult * option Exn :=
  let handler := default _default_handler (_action_handlers st !! task_action task) in
  match handler (task_parameters task) with
  | Raised e => (st, result, Some e)
  | Returned task_result =>
      let st1 :=
        fst (update_task_status E workflow_id (task_id task) COMPLETED
               (Some task_result) None st) in
      let result1 :=
        set_er_results (dict_set (task_id task) task_result (er_results result))
          result in
      let output := default PyNone (dict_get "output" task_result) in
      match review_output task output st1 result1 with
      | (st2, result2, Some e) => (st2, result2, Some e)
      | (st2, result2, None) => summarize_output task output st2 result2
      end
  end.

(** [AgentOrchestrator._execute_task] *)
Definition _execute_task (st : Core) (workflow : loc) (task : Task)
    (result : ExecutionResult) : option (Core * ExecutionResult * bool) :=
  w ← heap st !! workflow;
  let st0 := set_dispatched (task_id task :: dispatched st) st in
  let st1 :=
    fst (update_task_status E (wf_id w) (task_id task) IN_PROGRESS None None st0) in
  match try_task (wf_id w) task st1 result with
  | (st2, result2, None) => Some (st2, result2, true)
  | (st2, result2, Some e) =>
      let error_msg := "Task " +:+ task_id task +:+ " failed: " +:+ exn_str e in
      let result3 := set_er_errors (er_errors result2 ++ [error_msg]) result2 in
      let st3 :=
        fst (update_task_status E (wf_id w) (task_id task) FAILED None
               (Some error_msg) st2) in
      Some (st3, result3, false)
  end.

(** The [for task in ready_not_executed] loop of [_execute_sequential]. *)
Fixpoint run_ready_sequential (st : Core) (workflow : loc) (tasks : list Task)
    (result : ExecutionResult) (executed : gset string)
  : option (Core * ExecutionResult * gset string) :=
  match tasks with
  | [] => Some (st, result, executed)
  | task :: tasks' =>
      '(st1, result1, success) ← _execute_task st workflow task result;
      let executed1 := {[task_id task]} ∪ executed in
      let result2 :=
        if success : bool
        then set_er_tasks_completed (er_tasks_completed result1 + 1) result1
        else set_er_tasks_failed (er_tasks_failed result1 + 1) result1 in
      run_ready_sequential st1 workflow tasks' result2 executed1
  end.

(** The [while] loop of [_execute_sequential]; [fuel] bounds the number of
    times the loop condition is evaluated. The answer carries the exception
    that ended the loop, if one did. *)
Fixpoint loop_sequential (fuel : nat) (st : Core) (workflow : loc)
    (result : ExecutionResult) (executed : gset string)
  : option (Core * ExecutionResult * option Exn) :=
  match fuel with
  | O => None
  | S fuel' =>
      w ← heap st !! workflow;
      if (size executed <? length (wf_tasks w))%nat then
        match get_ready_tasks w with
        | Raised e => Some (st, result, Some e)
        | Returned ready_tasks =>
            let ready_not_executed :=
              filter (fun t => task_id t ∉ executed) ready_tasks in
            match ready_not_executed with
            | [] =>
                if bool_decide (executed = ∅)
                then Some (st, result,
                           Some (RuntimeError "No ready tasks and nothing executed"))
                else Some (st, result, None)
            | _ =>
                '(st1, result1, executed1) ←
                  run_ready_sequential st workflow ready_not_executed result executed;
                loop_sequential fuel' st1 workflow result1 executed1
            end
        end
      else Some (st, result, None)
  end.

(** [AgentOrchestrator._execute_sequential]. Every round of the loop but the
    last executes a task that was not executed before, so the condition is
    evaluated at most [len(workflow.tasks) + 1] times. *)
Definition _execute_sequential (st : Core) (workflow : loc)
    (result : ExecutionResult) : option (Core * ExecutionResult * option Exn) :=
  w ← heap st !! workflow;
  loop_sequential (S (length (wf_tasks w))) st workflow result ∅.

(** The [for] loop of [_execute_parallel]. *)
Fixpoint run_ready_parallel (st : Core) (workflow : loc) (tasks : list Task)
    (result : ExecutionResult) (executed : gset string)
  : option (Core * ExecutionResult * gset string) :=
  match tasks with
  | [] => Some (st, result, executed)
  | task :: tasks' =>
      '(st1, result1, success) ← _execute_task st workflow task result;
      let executed1 := {[task_id task]} ∪ executed in
      let result2 :=
        if success : bool
        then set_er_tasks_completed (er_tasks_completed result1 + 1) result1
        else set_er_tasks_failed (er_tasks_failed result1 + 1) result1 in
      run_ready_parallel st1 workflow tasks' result2 executed1
  end.

(** The [while] loop of [_execute_parallel]. *)
Fixpoint loop_parallel (fuel : nat) (st : Core) (workflow : loc)
    (result : ExecutionResult) (executed : gset string)
  : option (Core * ExecutionResult * option Exn) :=
  match fuel with
  | O => None
  | S fuel' =>
      w ← heap st !! workflow;
      if (size executed <? length (wf_tasks w))%nat then
        match get_ready_tasks w with
        | Raised e => Some (st, result, Some e)
        | Returned ready_tasks =>
            let ready_not_executed :=
              filter (fun t => task_id t ∉ executed) ready_tasks in
            match ready_not_executed with
            | [] =>
                if bool_decide (executed = ∅)
                then Some (st, result,
                           Some (RuntimeError "No ready tasks and nothing executed"))
                else Some (st, result, None)
            | _ =>
                '(st1, result1, executed1) ←
                  run_ready_parallel st workflow ready_not_executed result executed;
                loop_parallel fuel' st1 workflow result1 executed1
            end
        end
      else Some (st, result, None)
  end.

(** [AgentOrchestrator._execute_parallel] *)
Definition _execute_parallel (st : Core) (workflow : loc)
    (result : ExecutionResult) : option (Core * ExecutionResult * option Exn) :=
  w ← heap st !! workflow;
  loop_parallel (S (length (wf_tasks w))) st workflow result ∅.

(** [AgentOrchestrator._execute_hybrid] *)
Definition _execute_hybrid (st : Core) (workflow : loc)
    (result : ExecutionResult) : option (Core * ExecutionResult * option Exn) :=
  _execute_sequential st workflow result.

(** [int((completed_at - started_at).total_seconds())]: whole seconds,
    rounded towards zero. *)
Definition seconds_between (started completed : datetime) : Z :=
  ((completed - started) ÷ 1000000)%Z.

(** The dispatch on [self.config.mode]. *)
Definition run_strategy (st : Core) (workflow : loc) (result : ExecutionResult)
  : option (Core * ExecutionResult * option Exn) :=
  match mode (config st) with
  | SEQUENTIAL => _execute_sequential st workflow result
  | PARALLEL => _execute_parallel st workflow result
  | HYBRID => _execute_hybrid st workflow result
  end.

(** What follows the strategy in the [try] of [_execute_workflow_tasks], and
    the [except] clause. *)
Definition conclude (result : ExecutionResult) (raised : option Exn)
  : ExecutionResult :=
  match raised with
  | None =>
      let success := (er_tasks_failed result =? 0)%nat in
      set_er_status (if success then "completed" else "completed_with_errors")
        (set_er_success success result)
  | Some e =>
      set_er_success false
        (set_er_status "failed"
           (set_er_errors (er_errors result ++ [exn_str e]) result))
  end.

(** The [finally] clause. *)
Definition stamp (result : ExecutionResult) : M ExecutionResult :=
  t <- now E ;;
  ret (set_er_duration_seconds (seconds_between (er_started_at result) t)
         (set_er_completed_at (Some t) result)).

(** [AgentOrchestrator._execute_workflow_tasks] *)
Definition _execute_workflow_tasks (st : Core) (workflow : loc)
  : option (Core * ExecutionResult) :=
  w ← heap st !! workflow;
  let (st0, started) := now E st in
  let result :=
    mkResult (wf_id w) false "running" started None 0 0 0 (length (wf_tasks w))
      [] [] [] [] in
  match wf_tasks w with
  | [] =>
      let (st1, t) := now E st0 in
      Some (st1, set_er_completed_at (Some t)
                   (set_er_success true (set_er_status "completed" result)))
  | _ =>
      '(st1, result1, raised) ← run_strategy st0 workflow result;
      Some (stamp (conclude result1 raised) st1)
  end.

(** [AgentOrchestrator.execute_workflow] *)
Definition execute_workflow (st : Core) (goal description : string)
    (context : option (Dict PyVal)) : option (Core * ExecutionResult) :=
  let (st0, workflow) := plan_workflow E goal description context st in
  '(st1, result) ← _execute_workflow_tasks st0 workflow;
  Some (set_executions (<[er_workflow_id result := result]> (executions st1)) st1,
        result).

(** [AgentOrchestrator.get_execution] *)
Definition get_execution (st : Core) (workflow_id : string)
  : option ExecutionResult :=
  executions st !! workflow_id.

Record WorkflowStatus : Type := mkWorkflowStatus {
  ws_workflow_id : string;
  ws_goal : string;
  ws_status : string;
  ws_progress : Progress;
  ws_tasks_completed : nat;
  ws_tasks_failed : nat;
  ws_duration_seconds : Z;
  ws_success : bool
}.

(** [AgentOrchestrator.get_workflow_status] *)
Definition get_workflow_status (st : Core) (workflow_id : string)
  : option WorkflowStatus :=
  match executions st !! workflow_id with
  | None => None
  | Some execution =>
      match find_workflow st workflow_id with
      | None => None
      | Some (_, workflow) =>
          Some (mkWorkflowStatus workflow_id (wf_goal workflow)
                  (er_status execution) (get_progress workflow)
                  (er_tasks_completed execution) (er_tasks_failed execution)
                  (er_duration_seconds execution) (er_success execution))
      end
  end.

(** The body of the loop of [cancel_workflow]. *)
Definition cancel_task (task : Task) : Task :=
  if bool_decide (task_status task = PENDING) || bool_decide (task_status task = READY)
  then set_task_status BLOCKED task
  else task.

(** [AgentOrchestrator.cancel_workflow] *)
Definition cancel_workflow (workflow_id : string) : M bool :=
  fun st =>
    match find_workflow st workflow_id with
    | None => (st, false)
    | Some (l, workflow) =>
        (set_heap
           (<[l := set_wf_tasks
                     (map (fun kv => (fst kv, cancel_task (snd kv)))
                        (wf_tasks workflow)) workflow]> (heap st)) st,
         true)
    end.

(** [AgentOrchestrator.retry_failed_task] *)
Definition retry_failed_task (workflow_id task_id : string) : M bool :=
  fun st =>
    match find_workflow st workflow_id with
    | None => (st, false)
    | Some (l, workflow) =>
        match get_task workflow task_id with
        | None => (st, false)
        | Some task =>
            if bool_decide (task_status task ≠ FAILED)
            then (st, false)
            else (modify_task l workflow task_id (set_task_status PENDING) st, true)
        end
    end.

End Orchestrator.

(** ** The handler registry *)

(** [repr(v)], without the escapes inside a string. *)
Fixpoint py_repr (v : PyVal) : string :=
  match v with
  | PyNone => "None"
  | PyBool b => if b then "True" else "False"
  | PyInt z => pretty z
  | PyStr s => "'" +:+ s +:+ "'"
  | PyList l =>
      "[" +:+
      (fix items (l : list PyVal) : string :=
         match l with
         | [] => EmptyString
         | [x] => py_repr x
         | x :: l' => py_repr x +:+ ", " +:+ items l'
         end) l +:+ "]"
  | PyDict d =>
      "{" +:+
      (fix entries (d : list (string * PyVal)) : string :=
         match d with
         | [] => EmptyString
         | [(k, x)] => "'" +:+ k +:+ "': " +:+ py_repr x
         | (k, x) :: d' => "'" +:+ k +:+ "': " +:+ py_repr x +:+ ", " +:+ entries d'
         end) d +:+ "}"
  end.

(** [str(v)], as an f-string formats it. *)
Definition py_str (v : PyVal) : string :=
  match v with
  | PyStr s => s
  | _ => py_repr v
  end.

(** [params.get(key, dflt)] *)
Definition param (params : Dict PyVal) (key : string) (dflt : PyVal) : PyVal :=
  default dflt (dict_get key params).

Definition _handle_query_docs : Handler := fun params =>
  Returned [("action", PyStr "query_docs");
            ("output", PyStr ("Queried " +:+ py_str (param params "limit" (PyInt 10))
                              +:+ " documents"));
            ("documents_found", param params "limit" (PyInt 10))].

Definition _handle_extract_key_points : Handler := fun params =>
  Returned [("action", PyStr "extract_key_points");
            ("output", PyStr "Extracted key points from content");
            ("points_count", param params "max_points" (PyInt 10))].

Definition _handle_synthesize : Handler := fun params =>
  Returned [("action", PyStr "synthesize");
            ("output", PyStr "Generated synthesis from context");
            ("style", param params "style" (PyStr "professional"))].

Definition _handle_analyze_patterns : Handler := fun params =>
  Returned [("action", PyStr "analyze_patterns");
            ("output", PyStr "Analyzed patterns in content");
            ("method", param params "method" (PyStr "default"))].

Definition _handle_format : Handler := fun params =>
  Returned [("action", PyStr "format");
            ("output", PyStr "Formatted content");
            ("format", param params "format" (PyStr "text"))].

Definition _handle_rerank : Handler := fun params =>
  Returned [("action", PyStr "rerank");
            ("output", PyStr "Reranked results");
            ("method", param params "method" (PyStr "default"))].

Definition _handle_plan : Handler := fun params =>
  Returned [("action", PyStr "plan");
            ("output", PyStr "Created plan");
            ("elements", param params "elements" (PyList []))].

Definition _handle_review : Handler := fun params =>
  Returned [("action", PyStr "review");
            ("output", PyStr "Completed review");
            ("check_quality", param params "check_quality" (PyBool false))].

Definition _handle_analyze : Handler := fun params =>
  Returned [("action", PyStr "analyze");
            ("output", PyStr "Analysis complete");
            ("goal", param params "goal" (PyStr EmptyString))].

Definition _handle_execute : Handler := fun params =>
  Returned [("action", PyStr "execute");
            ("output", PyStr "Execution complete");
            ("goal", param params "goal" (PyStr EmptyString))].

Definition _handle_validate : Handler := fun params =>
  Returned [("action", PyStr "validate");
            ("output", PyStr "Validation complete");
            ("goal", param params "goal" (PyStr EmptyString));
            ("success", PyBool true)].

Definition _handle_check_updates : Handler := fun params =>
  Returned [("action", PyStr "check_updates");
            ("output", PyStr "Checked for updates");
            ("check_type", param params "check_type" (PyStr "default"));
            ("updates_found", PyInt 0)].

Definition _handle_process_updates : Handler := fun params =>
  Returned [("action", PyStr "process_updates");
            ("output", PyStr "Processed updates");
            ("merge_strategy", param params "merge_strategy" (PyStr "default"))].

Definition _handle_verify : Handler := fun params =>
  Returned [("action", PyStr "verify");
            ("output", PyStr "Verification complete");
            ("verify_type", param params "verify_type" (PyStr "default"));
            ("success", PyBool true)].

(** [AgentOrchestrator._register_action_handlers] *)
Definition _register_action_handlers : gmap string Handler :=
  list_to_map
    [ ("query_docs", _handle_query_docs);
      ("extract_key_points", _handle_extract_key_points);
      ("synthesize", _handle_synthesize);
      ("analyze_patterns", _handle_analyze_patterns);
      ("format", _handle_format);
      ("rerank", _handle_rerank);
      ("plan", _handle_plan);
      ("review", _handle_review);
      ("analyze", _handle_analyze);
      ("execute", _handle_execute);
      ("validate", _handle_validate);
      ("check_updates", _handle_check_updates);
      ("process_updates", _handle_process_updates);
      ("verify", _handle_verify) ].

(** The state right after [AgentOrchestrator(config)], with the handler
    registry given: the registry is an attribute that callers may replace.
    No workflow exists yet; [clock] is the number of clock readings made
    before. *)
Definition new_orchestrator (cfg : AgentExecutionConfig)
    (handlers : gmap string Handler) (clock : nat) : Core :=
  mkCore clock [] ∅ 0 cfg ∅ handlers 0 0 [].

(** [AgentOrchestrator(config)] *)
Definition AgentOrchestrator (cfg : AgentExecutionConfig) (clock : nat) : Core :=
  new_orchestrator cfg _register_action_handlers clock.

(** [AgentExecutionConfig()] *)
Definition default_config : AgentExecutionConfig :=
  mkConfig SEQUENTIAL 3 300 true true (8 # 10) true.

(** ** Sequences of calls *)

(** The calls a client can make on the core. [OpExecuteTasks] runs
    [_execute_workflow_tasks] on an existing workflow object. *)
Inductive Op : Type :=
| OpPlan (goal description : string) (context : option (Dict PyVal))
| OpExecute (goal description : string) (context : option (Dict PyVal))
| OpExecuteTasks (workflow : loc)
| OpUpdate (workflow_id task_id : string) (status : TaskStatus)
    (result : option (Dict PyVal)) (error : option string)
| OpCancel (workflow_id : string)
| OpRetry (workflow_id task_id : string).

Definition apply_op (E : Env) (op : Op) (st : Core) : option Core :=
  match op with
  | OpPlan g d c => Some (fst (plan_workflow E g d c st))
  | OpExecute g d c => fst <$> execute_workflow E st g d c
  | OpExecuteTasks l => fst <$> _execute_workflow_tasks E st l
  | OpUpdate w t s r e => Some (fst (update_task_status E w t s r e st))
  | OpCancel w => Some (fst (cancel_workflow w st))
  | OpRetry w t => Some (fst (retry_failed_task w t st))
  end.

Fixpoint run_ops (E : Env) (ops : list Op) (st : Core) : option Core :=
  match ops with
  | [] => Some st
  | op :: ops' => st' ← apply_op E op st; run_ops E ops' st'
  end.

(** The calls of the public surface named by the life-cycle property. *)
Definition public_op (op : Op) : Prop :=
  match op with
  | OpExecuteTasks _ => False
  | _ => True
  end.


(** ** Properties of tasks and states *)

Definition is_set {A} (x : option A) : Prop := x <> None.




(** Readiness in the words of the specification: the status is PENDING or
    READY and every dependency names a task whose status is COMPLETED. *)
Definition dep_completed (tasks : Dict Task) (dep_id : string) : bool :=
  match dict_get dep_id tasks with
  | Some d => bool_decide (task_status d = COMPLETED)
  | None => false
  end.

Definition ready_by_spec (tasks : Dict Task) (t : Task) : bool :=
  (bool_decide (task_status t = PENDING) || bool_decide (task_status t = READY))
  && forallb (dep_completed tasks) (task_dependencies t).

(** Every dependency of every task names a task of the workflow. *)
Definition deps_closed (w : Workflow) : Prop :=
  forall k t dep_id,
    (k, t) ∈ wf_tasks w -> dep_id ∈ task_dependencies t ->
    dict_get dep_id (wf_tasks w) <> None.

Definition by_priority (a b : Task) : Prop :=
  priority_order (task_priority a) <= priority_order (task_priority b).

(** ** The state changes made while a workflow is executed *)

(** What [update_task_status] does to the task, given the time it reads. *)
Definition stamp_status (status : TaskStatus) (result : option (Dict PyVal))
    (error : option string) (t : datetime) (task : Task) : Task :=
  match status with
  | IN_PROGRESS => set_task_started_at (Some t) (set_task_status status task)
  | COMPLETED =>
      set_task_result result
        (set_task_completed_at (Some t) (set_task_status status task))
  | FAILED =>
      set_task_completed_at (Some t)
        (set_task_error error (set_task_status status task))
  | _ => set_task_status status task
  end.

Definition reads_clock (status : TaskStatus) : bool :=
  match status with
  | IN_PROGRESS | COMPLETED | FAILED => true
  | _ => false
  end.

(** The single state changes that [_execute_task] is made of. *)
Inductive exec_step (E : Env) : Core -> Core -> Prop :=
| step_dispatch st tid :
    exec_step E st (set_dispatched (tid :: dispatched st) st)
| step_in_progress st wid tid :
    exec_step E st (fst (update_task_status E wid tid IN_PROGRESS None None st))
| step_completed st wid tid r :
    exec_step E st (fst (update_task_status E wid tid COMPLETED (Some r) None st))
| step_failed st wid tid e :
    exec_step E st (fst (update_task_status E wid tid FAILED None (Some e) st))
| step_critic st n :
    exec_step E st (set_critic_calls n st)
| step_summarizer st n :
    exec_step E st (set_summarizer_calls n st)
| step_clock st :
    exec_step E st (fst (now E st)).

(** [w'] is [w] with other task objects under the same keys. *)
Definition workflow_frame (w w' : Workflow) : Prop :=
  exists tasks', w' = set_wf_tasks tasks' w /\
                 dict_keys tasks' = dict_keys (wf_tasks w).

(** Between [st] and [st'] only clocks, counters and the tasks inside the
    existing workflow objects have changed. *)
Definition core_frame (st st' : Core) : Prop :=
  (length (heap st') = length (heap st) /\
   forall l w, heap st !! l = Some w ->
               exists w', heap st' !! l = Some w' /\ workflow_frame w w') /\
  workflows st' = workflows st /\
  _task_counter st' = _task_counter st /\
  config st' = config st /\
  executions st' = executions st /\
  _action_handlers st' = _action_handlers st.

(** The same orchestrator, configured with another mode. *)
Definition with_mode (m : WorkflowMode) (st : Core) : Core :=
  mkCore (clock_reads st) (heap st) (workflows st) (_task_counter st)
    (mkConfig m (max_retries (config st)) (timeout_seconds (config st))
       (enable_criticism (config st)) (enable_summarization (config st))
       (auto_approve_quality_score (config st)) (log_execution (config st)))
    (executions st) (_action_handlers st) (critic_calls st)
    (summarizer_calls st) (dispatched st).

Definition relabel3 {A B} (m : WorkflowMode) (x : Core * A * B) : Core * A * B :=
  let '(st, a, b) := x in (with_mode m st, a, b).

(** [t'] is [t] in every field but the status. *)
Definition same_but_status (t t' : Task) : Prop :=
  task_id t' = task_id t /\
  task_name t' = task_name t /\
  task_description t' = task_description t /\
  task_objective t' = task_objective t /\
  task_action t' = task_action t /\
  task_parameters t' = task_parameters t /\
  task_priority t' = task_priority t /\
  task_dependencies t' = task_dependencies t /\
  task_estimated_duration_seconds t' = task_estimated_duration_seconds t /\
  task_created_at t' = task_created_at t /\
  task_started_at t' = task_started_at t /\
  task_completed_at t' = task_completed_at t /\
  task_result t' = task_result t /\
  task_error t' = task_error t.

(** [w'] is [w] in every field but the task map. *)
Definition same_but_tasks (w w' : Workflow) : Prop :=
  wf_id w' = wf_id w /\
  wf_goal w' = wf_goal w /\
  wf_description w' = wf_description w /\
  wf_task_order w' = wf_task_order w /\
  wf_status w' = wf_status w /\
  wf_created_at w' = wf_created_at w /\
  wf_started_at w' = wf_started_at w /\
  wf_completed_at w' = wf_completed_at w /\
  wf_estimated_total_duration w' = wf_estimated_total_duration w /\
  wf_actual_duration w' = wf_actual_duration w /\
  wf_metadata w' = wf_metadata w.

(** [st'] is [st] but for the workflow object at [l], which is now [w']. *)
Definition only_workflow_changed (l : loc) (w' : Workflow) (st st' : Core) : Prop :=
  heap st' = <[l := w']> (heap st) /\
  clock_reads st' = clock_reads st /\
  workflows st' = workflows st /\
  _task_counter st' = _task_counter st /\
  config st' = config st /\
  executions st' = executions st /\
  _action_handlers st' = _action_handlers st /\
  critic_calls st' = critic_calls st /\
  summarizer_calls st' = summarizer_calls st /\
  dispatched st' = dispatched st.

(** Every workflow object of [st] is still there in [st'], with the same
    fields but for the tasks stored under its keys. *)
Definition heap_frame (st st' : Core) : Prop :=
  forall l w, heap st !! l = Some w ->
              exists w', heap st' !! l = Some w' /\ workflow_frame w w'.

(** A task as the planner creates it. *)
Definition fresh_task (t : Task) : Prop :=
  task_status t = PENDING /\ task_started_at t = None /\
  task_completed_at t = None /\ task_result t = None /\ task_error t = None.

(** A planner computation that reads the clock, draws task ids and returns
    new tasks, and changes nothing else. *)
Definition makes_fresh_tasks (m : M (list Task)) : Prop :=
  forall st, exists n k,
    fst (m st) = set_task_counter k (set_clock_reads n st) /\
    Forall fresh_task (snd (m st)).

(** A workflow as [plan_workflow] leaves it. *)
Definition planned (w : Workflow) : Prop :=
  wf_status w = "ready" /\ wf_started_at w = None /\
  wf_completed_at w = None /\ wf_actual_duration w = None.


(** ** The plan for a briefing that is to be created *)

(** Key, id, action and dependencies of every task, in the order of the task
    map. *)
Definition task_wiring (w : Workflow) : list (string * string * string * list string) :=
  map (fun kv => (fst kv, task_id (snd kv), task_action (snd kv),
                  task_dependencies (snd kv))) (wf_tasks w).

Definition planned_task (id name description objective action : string)
    (parameters : Dict PyVal) (priority : TaskPriority) (duration : Z)
    (created : datetime) : Task :=
  mkTask id name description objective action parameters priority []
    PENDING duration created None None None None.

(** The tasks planned for a goal of the briefing and the generation
    families, with the ids [lab 1 .. lab 7] and the creation times
    [at 1 .. at 7]. *)
Definition briefing_generation_tasks (lab : nat -> string)
    (created : nat -> datetime) : list Task :=
  [ planned_task (lab 1) "Retrieve Documents" "Fetch relevant documents and chunks"
      "Gather source material for briefing" "query_docs"
      [("query_type", PyStr "broad"); ("limit", PyInt 20)] HIGH 10 (created 1);
    planned_task (lab 2) "Extract Key Points" "Identify and extract key information"
      "Distill content into main points" "extract_key_points"
      [("method", PyStr "semantic"); ("max_points", PyInt 10)] HIGH 15 (created 2);
    planned_task (lab 3) "Synthesize Summary" "Generate comprehensive summary"
      "Create cohesive briefing text" "synthesize"
      [("style", PyStr "professional"); ("length", PyStr "medium")] HIGH 20
      (created 3);
    planned_task (lab 4) "Format Output" "Structure briefing for presentation"
      "Prepare formatted briefing" "format"
      [("format", PyStr "markdown")] MEDIUM 10 (created 4);
    planned_task (lab 5) "Plan Content" "Outline content structure"
      "Create content plan" "plan"
      [("elements", PyList [PyStr "intro"; PyStr "body"; PyStr "conclusion"])]
      HIGH 10 (created 5);
    planned_task (lab 6) "Generate Content" "Create content using LLM"
      "Produce text content" "synthesize"
      [("style", PyStr "professional"); ("include_examples", PyBool true)]
      HIGH 20 (created 6);
    planned_task (lab 7) "Review Content" "QA and refinement"
      "Ensure quality output" "review"
      [("check_quality", PyBool true)] MEDIUM 15 (created 7) ].

(** ** Sample inputs *)

(** A clock that advances one second per reading, a fixed time stamp, and
    collaborators that approve and summarize everything. *)
Definition sample_env : Env :=
  mkEnv (fun n => Z.of_nat n * 1000000)%Z
        (fun _ => "20240101120000")
        (fun _ _ _ _ => Returned (mkReview "review_1" true "approved"))
        (fun _ _ => Returned (mkSummary "summary_1" "summary")).

Definition sample_task (id action : string) (priority : TaskPriority)
    (dependencies : list string) (status : TaskStatus) : Task :=
  mkTask id id "description" "objective" action [] priority dependencies
    status 30 0 None None None None.

(** A handler that raises, registered for the action "explode". *)
Definition raising_handler : Handler :=
  fun _ => Raised (HandlerError "handler failed").

Definition sample_handlers : gmap string Handler :=
  <["explode" := raising_handler]> _register_action_handlers.

(** Scenario C: task b depends on task a, whose handler raises. *)
Definition workflow_ab : Workflow :=
  mkWorkflow "wf_ab" "goal" "description"
    [("a", sample_task "a" "explode" MEDIUM [] PENDING);
     ("b", sample_task "b" "format" MEDIUM ["a"] PENDING)]
    ["a"; "b"] "ready" 0 None None 60 None [].

(** The workflow is the object that the planner holds under "wf_ab". *)
Definition core_ab_stored : Core :=
  mkCore 0 [workflow_ab] {["wf_ab" := 0]} 0 default_config ∅ sample_handlers
    0 0 [].

(** The workflow is an object of which the orchestrator's planner knows
    nothing, as when it was planned by another planner. *)
Definition core_ab_detached : Core :=
  mkCore 0 [workflow_ab] ∅ 0 default_config ∅ sample_handlers 0 0 [].

(** Scenario D: one COMPLETED task and one PENDING task. *)
Definition workflow_cd : Workflow :=
  mkWorkflow "wf_cd" "goal" "description"
    [("c", mkTask "c" "c" "description" "objective" "format" [] MEDIUM []
             COMPLETED 30 0 (Some 1%Z) (Some 2%Z)
             (Some [("output", PyStr "Formatted content")]) None);
     ("d", sample_task "d" "format" MEDIUM ["c"] PENDING)]
    ["c"; "d"] "ready" 0 None None 60 None [].

Definition core_cd : Core :=
  mkCore 0 [workflow_cd] {["wf_cd" := 0]} 0 default_config ∅
    _register_action_handlers 0 0 [].

(** A FAILED task with the traces of its attempt. *)
Definition workflow_failed : Workflow :=
  mkWorkflow "wf_f" "goal" "description"
    [("f", mkTask "f" "f" "description" "objective" "explode" [] MEDIUM []
             FAILED 30 0 (Some 1%Z) (Some 2%Z) None
             (Some "Task f failed: handler failed"));
     ("g", sample_task "g" "format" LOW [] PENDING)]
    ["f"; "g"] "ready" 0 None None 60 None [].

Definition core_failed : Core :=
  mkCore 0 [workflow_failed] {["wf_f" := 0]} 0 default_config ∅
    sample_handlers 0 0 [].

(** Five tasks of several priorities; "t4" is COMPLETED, "t6" waits for
    "t1". *)
Definition workflow_priorities : Workflow :=
  mkWorkflow "wf_p" "goal" "description"
    [("t1", sample_task "t1" "format" LOW [] PENDING);
     ("t2", sample_task "t2" "format" CRITICAL ["t4"] PENDING);
     ("t3", sample_task "t3" "format" HIGH [] READY);
     ("t4", sample_task "t4" "format" MEDIUM [] COMPLETED);
     ("t5", sample_task "t5" "format" HIGH ["t4"] PENDING);
     ("t6", sample_task "t6" "format" CRITICAL ["t1"] PENDING)]
    ["t1"; "t2"; "t3"; "t4"; "t5"; "t6"] "ready" 0 None None 180 None [].

(** Decision of [deps_closed]. *)
Definition deps_closedb (w : Workflow) : bool :=
  forallb
    (fun t => forallb
                (fun dep_id => match dict_get dep_id (wf_tasks w) with
                               | Some _ => true
                               | None => false
                               end)
                (task_dependencies t))
    (dict_values (wf_tasks w)).

(** Scenario A as the specification words it, for a planned workflow [w]:
    exactly the four tasks of the briefing template, [extract_key_points]
    and [format] depending, directly or through other tasks, on
    [query_docs], [synthesize] depending on [extract_key_points], and an
    estimated total duration of 55. *)
Definition depends_directly (a b : Task) : Prop :=
  task_id b ∈ task_dependencies a.

Definition scenario_A (w : Workflow) : Prop :=
  exists q k s f,
    dict_values (wf_tasks w) = [q; k; s; f] /\
    task_action q = "query_docs" /\
    task_action k = "extract_key_points" /\
    task_action s = "synthesize" /\
    task_action f = "format" /\
    tc depends_directly k q /\
    tc depends_directly f q /\
    tc depends_directly s k /\
    wf_estimated_total_duration w = 55%Z.

(** * Further definitions *)

(** ** Planned workflows *)

(** The tasks of [w] are filed under their own ids, one task per key. *)
Definition well_keyed (w : Workflow) : Prop :=
  NoDup (dict_keys (wf_tasks w)) /\
  forall k t, (k, t) ∈ wf_tasks w -> task_id t = k.

(** The test of the inner loop of [_resolve_dependencies]: the action of
    [p] has an entry in [action_sequences] that lists the action of [t],
    and [t] is another task than [p]. *)
Definition feeds (p t : Task) : bool :=
  match dict_get (task_action p) action_sequences with
  | Some dependent_actions =>
      str_in (task_action t) dependent_actions
      && negb (String.eqb (task_id t) (task_id p))
  | None => false
  end.

(** The ids [task_{c+1}], ..., [task_{c+n}]. *)
Definition task_labels (c n : nat) : list string :=
  map task_label (seq (S c) n).

(** [tasks] were made between [st0] and [st]: one id and one reading of
    the clock each, nothing else touched, and each task new. *)
Definition issued (st0 st : Core) (tasks : list Task) : Prop :=
  st = set_task_counter (length tasks + _task_counter st0)
         (set_clock_reads (length tasks + clock_reads st0) st0) /\
  map task_id tasks = task_labels (_task_counter st0) (length tasks) /\
  Forall (fun t => task_dependencies t = [] /\ fresh_task t) tasks.

(** The position of an action in the chains of [action_sequences]. *)
Definition action_rank (action : string) : nat :=
  if str_in action ["verify"] then 2
  else if str_in action ["rerank"; "format"; "synthesize"; "review";
                         "process_updates"] then 1
  else 0.

(** One round of the inner loop of [_resolve_dependencies] on [other],
    for the producing task [p]. *)
Definition add_producer (p other : Task) : Task :=
  if feeds p other then
    if str_in (task_id p) (task_dependencies other) then other
    else set_task_dependencies (task_dependencies other ++ [task_id p]) other
  else other.

(** [t] with the ids of the tasks of [tasks] that feed it appended to its
    dependencies. *)
Definition with_producers (tasks : list Task) (t : Task) : Task :=
  set_task_dependencies
    (task_dependencies t ++ map task_id (filter (fun p => feeds p t) tasks)) t.

(** The sum of [_calculate_duration]. *)
Definition total_duration (tasks : list Task) : Z :=
  foldr Z.add 0%Z (map task_estimated_duration_seconds tasks).

(** A computation that makes between [lo] and [hi] new tasks. *)
Definition makes (m : M (list Task)) (lo hi : nat) : Prop :=
  forall st, issued st (fst (m st)) (snd (m st)) /\
             lo <= length (snd (m st)) <= hi.

(** ** Running the tasks of a workflow that the planner holds *)

(** The workflow object at [l] is the one that the planner holds under the
    object's id. *)
Definition registered (st : Core) (l : loc) (w : Workflow) : Prop :=
  heap st !! l = Some w /\ workflows st !! wf_id w = Some l.

(** The fields of a task that execution never writes. *)
Definition same_static (t t' : Task) : Prop :=
  task_id t' = task_id t /\
  task_name t' = task_name t /\
  task_description t' = task_description t /\
  task_objective t' = task_objective t /\
  task_action t' = task_action t /\
  task_parameters t' = task_parameters t /\
  task_priority t' = task_priority t /\
  task_dependencies t' = task_dependencies t /\
  task_estimated_duration_seconds t' = task_estimated_duration_seconds t /\
  task_created_at t' = task_created_at t.

(** [t'] is what a call of [_execute_task] that answered [success] has
    made of [t]. *)
Definition settled (success : bool) (t t' : Task) : Prop :=
  task_status t' = (if success then COMPLETED else FAILED) /\
  same_static t t' /\
  is_set (task_started_at t') /\
  is_set (task_completed_at t') /\
  (if success then is_set (task_result t') else is_set (task_error t')).

(** The attributes of planner and orchestrator other than the workflow
    objects, the clock and the counters of calls. *)
Definition same_setup (st st' : Core) : Prop :=
  workflows st' = workflows st /\
  _task_counter st' = _task_counter st /\
  config st' = config st /\
  executions st' = executions st /\
  _action_handlers st' = _action_handlers st.

(** The bookkeeping fields of a result that [_execute_task] leaves to its
    caller. *)
Definition same_tally (r r' : ExecutionResult) : Prop :=
  er_workflow_id r' = er_workflow_id r /\
  er_started_at r' = er_started_at r /\
  er_tasks_completed r' = er_tasks_completed r /\
  er_tasks_failed r' = er_tasks_failed r /\
  er_tasks_total r' = er_tasks_total r.

(** The handler that [_execute_task] picks for an action. *)
Definition handler_for (st : Core) (action : string) : Handler :=
  default _default_handler (_action_handlers st !! action).

(** The output of a handler's answer can be measured by [len] when it is
    truthy. *)
Definition measurable_output (r : Dict PyVal) : Prop :=
  let output := default PyNone (dict_get "output" r) in
  truthy output = true -> exists n, py_len output = Returned n.

(** The handler of every task of [w] returns, with an output that [len]
    accepts. *)
Definition handlers_return (st : Core) (w : Workflow) : Prop :=
  forall k t, (k, t) ∈ wf_tasks w ->
    exists r, handler_for st (task_action t) (task_parameters t) = Returned r /\
              measurable_output r.

(** Critic and summarizer never raise. *)
Definition collaborators_return (E : Env) : Prop :=
  (forall n output action name,
     exists review, critic_review E n output action name = Returned review) /\
  (forall n output,
     exists summary, summarizer_summarize E n output = Returned summary).

(** The number of tasks of a task map that have the status [s]. *)
Definition count_in (s : TaskStatus) (d : Dict Task) : nat :=
  length (filter (fun t => task_status t = s) (dict_values d)).

(** How the task map [d] of a workflow under execution stands to the map
    [d0] with which the run began, when the tasks with the ids in
    [executed] have been handed to [_execute_task]: those tasks were PENDING
    or READY, are now COMPLETED or FAILED (COMPLETED if [clean] holds), and
    all their dependencies are COMPLETED; every other task is as it was. *)
Definition run_rel (clean : Prop) (executed : gset string) (d0 d : Dict Task)
  : Prop :=
  dict_keys d = dict_keys d0 /\
  (forall k, k ∈ executed -> k ∈ dict_keys d0) /\
  forall k t0, dict_get k d0 = Some t0 ->
    exists t, dict_get k d = Some t /\ same_static t0 t /\
      (k ∉ executed -> t = t0) /\
      (k ∈ executed ->
         (task_status t0 = PENDING \/ task_status t0 = READY) /\
         (exists success, settled success t0 t) /\
         (clean -> task_status t = COMPLETED) /\
         forall dep_id, dep_id ∈ task_dependencies t0 ->
                        dep_completed d dep_id = true).

(** The state [st] and the result [result] in the middle of a run on the
    workflow [w0] at [l] that began in [st0] with [result0]; [order] lists
    the ids handed to [_execute_task] so far, latest first. *)
Definition run_state (clean : Prop) (st0 : Core) (l : loc) (w0 : Workflow)
    (result0 : ExecutionResult) (st : Core) (result : ExecutionResult)
    (executed : gset string) (order : list string) : Prop :=
  exists d,
    heap st = <[l := set_wf_tasks d w0]> (heap st0) /\
    same_setup st0 st /\
    dispatched st = order ++ dispatched st0 /\
    NoDup order /\ executed = list_to_set order /\
    run_rel clean executed (wf_tasks w0) d /\
    er_workflow_id result = er_workflow_id result0 /\
    er_started_at result = er_started_at result0 /\
    er_tasks_total result = er_tasks_total result0 /\
    er_tasks_completed result + count_in COMPLETED (wf_tasks w0)
      = er_tasks_completed result0 + count_in COMPLETED d /\
    er_tasks_failed result + count_in FAILED (wf_tasks w0)
      = er_tasks_failed result0 + count_in FAILED d /\
    er_tasks_completed result + er_tasks_failed result
      = er_tasks_completed result0 + er_tasks_failed result0 + length order /\
    length (er_errors result) + er_tasks_failed result0
      = length (er_errors result0) + er_tasks_failed result /\
    (clean -> er_tasks_failed result = er_tasks_failed result0).

(** The dependencies of [w] are acyclic: [rank] decreases along each of
    them. *)
Definition ranked (rank : string -> nat) (w : Workflow) : Prop :=
  forall k t dep_id,
    (k, t) ∈ wf_tasks w -> dep_id ∈ task_dependencies t -> rank dep_id < rank k.

(** The rank of the action of the task filed under [k]. *)
Definition rank_in (w : Workflow) (k : string) : nat :=
  match dict_get k (wf_tasks w) with
  | Some t => action_rank (task_action t)
  | None => 0
  end.

(** A goal that contains none of the key words of [_decompose_goal]. *)
Definition plain_goal (goal : string) : Prop :=
  let goal_lower := lower goal in
  any_word_in ["briefing"; "summary"; "report"] goal_lower = false /\
  any_word_in ["analyze"; "analysis"; "examine"] goal_lower = false /\
  any_word_in ["search"; "find"; "retrieve"; "query"] goal_lower = false /\
  any_word_in ["generate"; "create"; "write"] goal_lower = false /\
  any_word_in ["update"; "refresh"; "sync"] goal_lower = false.

(** ** The states that an orchestrator can reach *)

Fixpoint has_underscore (s : string) : bool :=
  match s with
  | EmptyString => false
  | String c s' => Ascii.eqb c "_" || has_underscore s'
  end.

(** The part of [s] behind its last underscore. *)
Fixpoint last_field (s : string) : string :=
  match s with
  | EmptyString => EmptyString
  | String c s' =>
      if has_underscore s' then last_field s'
      else if Ascii.eqb c "_" then s' else String c s'
  end.

(** [w'] is [w] with tasks that differ from the tasks of [w] only in the
    fields that execution writes. *)
Definition static_frame (w w' : Workflow) : Prop :=
  same_but_tasks w w' /\
  dict_keys (wf_tasks w') = dict_keys (wf_tasks w) /\
  forall k t', (k, t') ∈ wf_tasks w' ->
    exists t, (k, t) ∈ wf_tasks w /\ same_static t t'.

Definition heap_static (st st' : Core) : Prop :=
  length (heap st') = length (heap st) /\
  forall l w, heap st !! l = Some w ->
    exists w', heap st' !! l = Some w' /\ static_frame w w'.

(** Planner and workflow objects are in step: the planner holds every
    workflow object under the object's id and nothing else, the ids end in
    the numbers up to the number of workflows, and every workflow has one
    task per key, filed under the task's id, with dependencies that name
    tasks of the workflow and are acyclic. *)
Definition planner_sound (st : Core) : Prop :=
  length (heap st) = size (workflows st) /\
  (forall wid l, workflows st !! wid = Some l ->
     exists w, heap st !! l = Some w /\ wf_id w = wid) /\
  (forall l w, heap st !! l = Some w -> workflows st !! wf_id w = Some l) /\
  (forall wid l, workflows st !! wid = Some l ->
     exists j, 1 <= j <= size (workflows st) /\ last_field wid = pretty j) /\
  (forall l w, heap st !! l = Some w ->
     well_keyed w /\ deps_closed w /\ ranked (rank_in w) w).

(** ** More sample inputs *)

(** An environment whose critic is out of order. *)
Definition strict_env : Env :=
  mkEnv (fun n => Z.of_nat n * 1000000)%Z
        (fun _ => "20240101120000")
        (fun _ _ _ _ => Raised (RuntimeError "critic unavailable"))
        (fun _ _ => Returned (mkSummary "summary_1" "summary")).

(** A task that waits for a task that does not exist. *)
Definition workflow_dangling : Workflow :=
  mkWorkflow "wf_x" "goal" "description"
    [("x", sample_task "x" "format" MEDIUM ["ghost"] PENDING)]
    ["x"] "ready" 0 None None 30 None [].

Definition core_dangling : Core :=
  mkCore 0 [workflow_dangling] {["wf_x" := 0]} 0 default_config ∅
    _register_action_handlers 0 0 [].

(** Decision of [well_keyed]. *)
Fixpoint distinct (keys : list string) : bool :=
  match keys with
  | [] => true
  | k :: keys' => negb (str_in k keys') && distinct keys'
  end.

Definition well_keyedb (w : Workflow) : bool :=
  distinct (dict_keys (wf_tasks w))
  && forallb (fun kv => String.eqb (task_id (snd kv)) (fst kv)) (wf_tasks w).

(** Decision of [ranked]. *)
Definition rankedb (rank : string -> nat) (w : Workflow) : bool :=
  forallb
    (fun kv => forallb (fun dep_id => (rank dep_id <? rank (fst kv))%nat)
                 (task_dependencies (snd kv)))
    (wf_tasks w).

(** Task d after task c. *)
Definition rank_cd (k : string) : nat := if String.eqb k "d" then 1 else 0.

(** A workflow whose only task is COMPLETED. *)
Definition workflow_done : Workflow :=
  mkWorkflow "wf_done" "goal" "description"
    [("c", mkTask "c" "c" "description" "objective" "format" [] MEDIUM []
             COMPLETED 30 0 (Some 1%Z) (Some 2%Z)
             (Some [("output", PyStr "Formatted content")]) None)]
    ["c"] "ready" 0 None None 30 None [].

Definition core_done : Core :=
  mkCore 0 [workflow_done] {["wf_done" := 0]} 0 default_config ∅
    _register_action_handlers 0 0 [].

(** * Properties *)

(** ** Association lists *)

Lemma dict_get_Some_elem {V} (k : string) (v : V) (d : Dict V) :
  dict_get k d = Some v -> (k, v) ∈ d.
Proof.
  induction d as [|[k' v'] d IH]; simpl; [discriminate|].
  destruct (String.eqb k' k) eqn:Hk.
  - apply String.eqb_eq in Hk. intros [= ->]. subst. left.
  - intros H. right. auto.
Qed.

Lemma dict_get_modify_eq {V} (k : string) (f : V -> V) (d : Dict V) :
  dict_get k (dict_modify k f d) = f <$> dict_get k d.
Proof.
  induction d as [|[k' v'] d IH]; simpl; [done|].
  destruct (String.eqb k' k) eqn:Hk; simpl; rewrite Hk; done.
Qed.

Lemma dict_get_modify_ne {V} (k k0 : string) (f : V -> V) (d : Dict V) :
  k <> k0 -> dict_get k0 (dict_modify k f d) = dict_get k0 d.
Proof.
  intros Hne. induction d as [|[k' v'] d IH]; simpl; [done|].
  destruct (String.eqb k' k) eqn:Hk; simpl.
  - apply String.eqb_eq in Hk. subst k'.
    destruct (String.eqb k k0) eqn:Hk0; [|done].
    apply String.eqb_eq in Hk0. contradiction.
  - destruct (String.eqb k' k0); done.
Qed.

Lemma dict_keys_modify {V} (k : string) (f : V -> V) (d : Dict V) :
  dict_keys (dict_modify k f d) = dict_keys d.
Proof.
  induction d as [|[k' v'] d IH]; simpl; [done|].
  destruct (String.eqb k' k); simpl; [done|]. by rewrite IH.
Qed.

Lemma length_dict_modify {V} (k : string) (f : V -> V) (d : Dict V) :
  length (dict_modify k f d) = length d.
Proof.
  rewrite <- (length_map fst (dict_modify k f d)), <- (length_map fst d).
  change (length (dict_keys (dict_modify k f d)) = length (dict_keys d)).
  by rewrite dict_keys_modify.
Qed.

(** Every entry of a modified dictionary is an old entry, or the image of
    one. *)
Lemma elem_of_dict_modify {V} (k k0 : string) (f : V -> V) (v : V) (d : Dict V) :
  (k0, v) ∈ dict_modify k f d ->
  (k0, v) ∈ d \/ exists v0, (k0, v0) ∈ d /\ v = f v0.
Proof.
  induction d as [|[k' v'] d IH]; simpl; [intros H; by left|].
  destruct (String.eqb k' k).
  - intros [[= -> ->]|H]%elem_of_cons.
    + right. exists v'. split; [left|done].
    + left. by right.
  - intros [[= -> ->]|H]%elem_of_cons.
    + left. left.
    + destruct (IH H) as [H1|(v0 & H1 & H2)].
      * left. by right.
      * right. exists v0. split; [by right|done].
Qed.

(** ** The stable sort *)

Section Sorting.

Context {A : Type} (key : A -> nat).

Lemma insert_by_perm (x : A) (l : list A) : insert_by key x l ≡ₚ x :: l.
Proof.
  induction l as [|y l IH]; simpl; [done|].
  destruct (key x <=? key y)%nat; [done|].
  rewrite IH. apply Permutation_swap.
Qed.

Lemma sorted_perm (l : list A) : sorted key l ≡ₚ l.
Proof.
  induction l as [|x l IH]; simpl; [done|].
  by rewrite insert_by_perm, IH.
Qed.

Lemma insert_by_sorted (x : A) (l : list A) :
  StronglySorted (fun a b => key a <= key b) l ->
  StronglySorted (fun a b => key a <= key b) (insert_by key x l).
Proof.
  induction 1 as [|y l Hl IH Hy]; simpl.
  - repeat constructor.
  - destruct (Nat.leb_spec (key x) (key y)) as [Hxy|Hxy].
    + constructor; [by constructor|].
      constructor; [done|].
      eapply Forall_impl; [exact Hy|]. simpl. intros; lia.
    + constructor; [done|].
      rewrite insert_by_perm. constructor; [lia|done].
Qed.

Lemma sorted_sorted (l : list A) :
  StronglySorted (fun a b => key a <= key b) (sorted key l).
Proof.
  induction l as [|x l IH]; simpl; [constructor|].
  by apply insert_by_sorted.
Qed.

(** Stability: the elements of one key keep their order. *)
Lemma insert_by_filter (n : nat) (x : A) (l : list A) :
  filter (fun a => key a = n) (insert_by key x l)
  = filter (fun a => key a = n) (x :: l).
Proof.
  induction l as [|y l IH]; simpl; [done|].
  destruct (Nat.leb_spec (key x) (key y)) as [Hxy|Hxy]; [done|].
  rewrite filter_cons, IH.
  rewrite !filter_cons.
  destruct (decide (key y = n)), (decide (key x = n)); try done.
  lia.
Qed.

Lemma sorted_filter (n : nat) (l : list A) :
  filter (fun a => key a = n) (sorted key l) = filter (fun a => key a = n) l.
Proof.
  induction l as [|x l IH]; simpl; [done|].
  rewrite insert_by_filter, !filter_cons, IH. done.
Qed.

End Sorting.

(** ** Readiness *)

Lemma deps_met_closed (tasks : Dict Task) (deps : list string) :
  (forall dep_id, dep_id ∈ deps -> dict_get dep_id tasks <> None) ->
  deps_met tasks deps = Returned (forallb (dep_completed tasks) deps).
Proof.
  induction deps as [|dep_id deps IH]; intros Hclosed; simpl; [done|].
  unfold dep_completed at 1.
  destruct (dict_get dep_id tasks) as [d|] eqn:Hd.
  - destruct (bool_decide (task_status d = COMPLETED)); simpl; [|done].
    apply IH. intros x Hx. apply Hclosed. by right.
  - exfalso. apply (Hclosed dep_id); [left|done].
Qed.

Lemma collect_ready_closed (tasks : Dict Task) (vals : list Task) :
  (forall t dep_id, t ∈ vals -> dep_id ∈ task_dependencies t ->
                    dict_get dep_id tasks <> None) ->
  collect_ready tasks vals = Returned (filter (fun t => ready_by_spec tasks t) vals).
Proof.
  induction vals as [|t vals IH]; intros Hclosed; simpl; [done|].
  assert (IH' : collect_ready tasks vals
                = Returned (filter (fun t => ready_by_spec tasks t) vals)).
  { apply IH. intros t' d Ht' Hd. apply (Hclosed t' d); [by right|done]. }
  rewrite filter_cons.
  destruct (decide (ready_by_spec tasks t)) as [Hy|Hn];
    unfold ready_by_spec in *;
    destruct (bool_decide (task_status t = READY)),
             (bool_decide (task_status t = PENDING)); simpl in *;
    try done;
    rewrite ?deps_met_closed by (intros d Hd; apply (Hclosed t d); [left|done]);
    rewrite IH';
    destruct (forallb (dep_completed tasks) (task_dependencies t)); simpl in *;
    done.
Qed.

Lemma elem_of_dict_values {V} (v : V) (d : Dict V) :
  v ∈ dict_values d <-> exists k, (k, v) ∈ d.
Proof.
  unfold dict_values. rewrite list_elem_of_fmap. split.
  - intros ([k v'] & -> & H). by exists k.
  - intros (k & H). by exists (k, v).
Qed.

(** C3. On a workflow whose dependency lists name only tasks of its task
    map, [get_ready_tasks] returns, without raising, exactly the tasks that
    are PENDING or READY with every dependency COMPLETED: within each
    priority they appear as in the task map, the list is ordered CRITICAL,
    HIGH, MEDIUM, LOW, and no returned task has a dependency that is not
    COMPLETED. *)
Theorem get_ready_tasks_sorted_ready (w : Workflow) :
  deps_closed w ->
  exists ready,
    get_ready_tasks w = Returned ready /\
    (forall t, t ∈ ready <->
               t ∈ dict_values (wf_tasks w) /\ ready_by_spec (wf_tasks w) t = true) /\
    (forall p, filter (fun t => task_priority t = p) ready
               = filter (fun t => task_priority t = p)
                   (filter (fun t => ready_by_spec (wf_tasks w) t)
                      (dict_values (wf_tasks w)))) /\
    StronglySorted by_priority ready /\
    (priority_order CRITICAL < priority_order HIGH
     /\ priority_order HIGH < priority_order MEDIUM
     /\ priority_order MEDIUM < priority_order LOW) /\
    (forall t dep_id, t ∈ ready -> dep_id ∈ task_dependencies t ->
       exists d, dict_get dep_id (wf_tasks w) = Some d /\ task_status d = COMPLETED).
Proof.
  intros Hclosed.
  set (key := fun t => priority_order (task_priority t)).
  set (cand := filter (fun t => ready_by_spec (wf_tasks w) t) (dict_values (wf_tasks w))).
  assert (Hrun : get_ready_tasks w = Returned (sorted key cand)).
  { unfold get_ready_tasks. rewrite collect_ready_closed; [done|].
    intros t d [k Hk]%elem_of_dict_values Hd. by apply (Hclosed k t d). }
  assert (Hmem : forall t, t ∈ sorted key cand <->
            t ∈ dict_values (wf_tasks w) /\ ready_by_spec (wf_tasks w) t = true).
  { intros t. rewrite (sorted_perm key cand). unfold cand.
    rewrite list_elem_of_filter. rewrite Is_true_true. tauto. }
  exists (sorted key cand). split; [done|]. split; [done|].
  split; [|split; [|split]].
  - intros p.
    assert (Hp : forall l : list Task,
               filter (fun t => task_priority t = p) l
               = filter (fun t => key t = priority_order p) l).
    { intros l. apply list_filter_iff. intros t. unfold key.
      split; [by intros ->|]. by destruct (task_priority t), p. }
    rewrite !Hp. apply sorted_filter.
  - apply (sorted_sorted key).
  - simpl. lia.
  - intros t dep_id [_ Hready]%Hmem Hdep.
    unfold ready_by_spec in Hready.
    apply andb_true_iff in Hready as [_ Hall].
    rewrite forallb_forall in Hall.
    specialize (Hall dep_id). rewrite <- list_elem_of_In in Hall.
    specialize (Hall Hdep). unfold dep_completed in Hall.
    destruct (dict_get dep_id (wf_tasks w)) as [d|]; [|done].
    exists d. split; [done|]. by apply bool_decide_eq_true in Hall.
Qed.

(** ** [update_task_status] *)

Lemma find_workflow_Some (st : Core) (wid : string) (l : loc) (w : Workflow) :
  find_workflow st wid = Some (l, w) ->
  workflows st !! wid = Some l /\ heap st !! l = Some w.
Proof.
  unfold find_workflow, get_workflow.
  destruct (workflows st !! wid) as [l'|]; [|done].
  destruct (heap st !! l') as [w'|] eqn:Hw; [|done].
  by intros [= <- <-].
Qed.

Lemma find_workflow_intro (st : Core) (wid : string) (l : loc) (w : Workflow) :
  workflows st !! wid = Some l -> heap st !! l = Some w ->
  find_workflow st wid = Some (l, w).
Proof. unfold find_workflow, get_workflow. by intros -> ->. Qed.

(** [update_task_status] in one piece. *)
Lemma update_task_status_eq (E : Env) (wid tid : string) (s : TaskStatus)
    (r : option (Dict PyVal)) (e : option string) (st : Core) :
  update_task_status E wid tid s r e st =
  match find_workflow st wid with
  | None => (st, false)
  | Some (l, w) =>
      match dict_get tid (wf_tasks w) with
      | None => (st, false)
      | Some _ =>
          (modify_task l w tid (stamp_status s r e (wall_clock E (clock_reads st)))
             (if reads_clock s then set_clock_reads (S (clock_reads st)) st else st),
           true)
      end
  end.
Proof.
  unfold update_task_status.
  destruct (find_workflow st wid) as [[l w]|]; [|done].
  destruct (dict_get tid (wf_tasks w)); [|done].
  by destruct s.
Qed.

Lemma workflow_frame_refl (w : Workflow) : workflow_frame w w.
Proof. exists (wf_tasks w). by destruct w. Qed.

Lemma workflow_frame_trans (w1 w2 w3 : Workflow) :
  workflow_frame w1 w2 -> workflow_frame w2 w3 -> workflow_frame w1 w3.
Proof.
  intros (t2 & -> & Hk2) (t3 & -> & Hk3). exists t3. split; [done|].
  simpl in Hk3. congruence.
Qed.

Lemma core_frame_refl (st : Core) : core_frame st st.
Proof.
  split; [|done]. split; [done|].
  intros l w Hl. exists w. split; [done|apply workflow_frame_refl].
Qed.

Lemma core_frame_trans (st1 st2 st3 : Core) :
  core_frame st1 st2 -> core_frame st2 st3 -> core_frame st1 st3.
Proof.
  intros ([Hn1 Hh1] & ? & ? & ? & ? & ?) ([Hn2 Hh2] & ? & ? & ? & ? & ?).
  split; [|repeat split; congruence].
  split; [congruence|].
  intros l w Hl.
  destruct (Hh1 l w Hl) as (w2 & Hl2 & Hf2).
  destruct (Hh2 l w2 Hl2) as (w3 & Hl3 & Hf3).
  exists w3. split; [done|]. by eapply workflow_frame_trans.
Qed.

Lemma core_frame_modify_task (l : loc) (w : Workflow) (tid : string)
    (f : Task -> Task) (st : Core) :
  heap st !! l = Some w -> core_frame st (modify_task l w tid f st).
Proof.
  intros Hl. split; [|done]. simpl.
  split; [by rewrite length_insert|].
  intros i x Hx.
  destruct (decide (i = l)) as [->|Hne].
  - rewrite list_lookup_insert_eq by (by eapply lookup_lt_Some).
    rewrite Hl in Hx. injection Hx as <-.
    eexists. split; [done|].
    eexists. split; [done|]. apply dict_keys_modify.
  - rewrite list_lookup_insert_ne by done.
    exists x. split; [done|apply workflow_frame_refl].
Qed.

Lemma core_frame_update (E : Env) (wid tid : string) (s : TaskStatus)
    (r : option (Dict PyVal)) (e : option string) (st : Core) :
  core_frame st (fst (update_task_status E wid tid s r e st)).
Proof.
  rewrite update_task_status_eq.
  destruct (find_workflow st wid) as [[l w]|] eqn:Hf; [|apply core_frame_refl].
  destruct (dict_get tid (wf_tasks w)); [|apply core_frame_refl].
  apply find_workflow_Some in Hf as [_ Hl]. simpl.
  eapply core_frame_trans; [|apply core_frame_modify_task].
  - destruct (reads_clock s); [|apply core_frame_refl].
    split; [|done]. apply (core_frame_refl st).
  - by destruct (reads_clock s).
Qed.

Lemma exec_step_frame (E : Env) (st st' : Core) :
  exec_step E st st' -> core_frame st st'.
Proof.
  destruct 1; try apply core_frame_update;
    (split; [|done]; apply (core_frame_refl st)).
Qed.

Lemma exec_steps_frame (E : Env) (st st' : Core) :
  rtc (exec_step E) st st' -> core_frame st st'.
Proof.
  induction 1 as [|st1 st2 st3 H12 _ IH]; [apply core_frame_refl|].
  eapply core_frame_trans; [by eapply exec_step_frame|done].
Qed.

(** A frame keeps every reference valid and the number of tasks behind
    it. *)
Lemma core_frame_lookup (st st' : Core) (l : loc) (w : Workflow) :
  core_frame st st' -> heap st !! l = Some w ->
  exists w', heap st' !! l = Some w' /\ workflow_frame w w'.
Proof. intros [[_ Hh] _] Hl. by apply Hh. Qed.

Lemma workflow_frame_length (w w' : Workflow) :
  workflow_frame w w' -> length (wf_tasks w') = length (wf_tasks w).
Proof.
  intros (t' & -> & Hk). simpl.
  rewrite <- (length_map fst t'), <- (length_map fst (wf_tasks w)).
  exact (f_equal length Hk).
Qed.

(** ** Execution is a sequence of single state changes *)

Section Execution.

Variable E : Env.

Lemma review_output_steps task output st result st' result' raised :
  review_output E task output st result = (st', result', raised) ->
  rtc (exec_step E) st st'.
Proof.
  unfold review_output.
  destruct (enable_criticism (config st) && truthy output).
  - destruct (critic_review E _ _ _ _); intros [= <- _ _];
      apply rtc_once, step_critic.
  - by intros [= <- _ _].
Qed.

Lemma summarize_output_steps task output st result st' result' raised :
  summarize_output E task output st result = (st', result', raised) ->
  rtc (exec_step E) st st'.
Proof.
  unfold summarize_output.
  destruct (enable_summarization (config st) && truthy output);
    [|by intros [= <- _ _]].
  destruct (py_len output) as [n|]; [|by intros [= <- _ _]].
  destruct (200 <? n)%nat; [|by intros [= <- _ _]].
  destruct (summarizer_summarize E _ _); intros [= <- _ _];
    apply rtc_once, step_summarizer.
Qed.

Lemma try_task_steps wid task st result st' result' raised :
  try_task E wid task st result = (st', result', raised) ->
  rtc (exec_step E) st st'.
Proof.
  unfold try_task.
  destruct (default _default_handler _ _) as [task_result|e];
    [|by intros [= <- _ _]].
  destruct (review_output _ _ _ _ _) as [[st2 result2] raised2] eqn:Hrev.
  apply review_output_steps in Hrev.
  assert (Hpre : rtc (exec_step E) st st2).
  { eapply rtc_l; [apply step_completed|exact Hrev]. }
  destruct raised2.
  - by intros [= <- _ _].
  - intros Hsum%summarize_output_steps. by eapply rtc_trans.
Qed.

Lemma _execute_task_steps st l task result st' result' success :
  _execute_task E st l task result = Some (st', result', success) ->
  rtc (exec_step E) st st'.
Proof.
  unfold _execute_task.
  destruct (heap st !! l) as [w|]; [simpl|done].
  destruct (try_task _ _ _ _ _) as [[st2 result2] raised] eqn:Htry.
  apply try_task_steps in Htry.
  assert (Hpre : rtc (exec_step E) st st2).
  { eapply rtc_l; [apply (step_dispatch E st (task_id task))|].
    eapply rtc_l; [apply step_in_progress|exact Htry]. }
  destruct raised; intros [= <- _ _]; [|done].
  eapply rtc_r; [exact Hpre|apply step_failed].
Qed.

Lemma _execute_task_total st l w task result :
  heap st !! l = Some w ->
  exists st' result' success,
    _execute_task E st l task result = Some (st', result', success).
Proof.
  intros Hl. unfold _execute_task. rewrite Hl. simpl.
  destruct (try_task _ _ _ _ _) as [[st2 result2] [e|]]; eauto.
Qed.

(** The [for] loop: it returns, it is made of execution steps, and
    afterwards every task of the list counts as executed. *)
Lemma run_ready_sequential_spec tasks : forall st l w result executed,
  heap st !! l = Some w ->
  exists st' result' executed',
    run_ready_sequential E st l tasks result executed
      = Some (st', result', executed') /\
    rtc (exec_step E) st st' /\
    executed ⊆ executed' /\
    (forall t, t ∈ tasks -> task_id t ∈ executed').
Proof.
  induction tasks as [|task tasks IH]; intros st l w result executed Hl; simpl.
  - exists st, result, executed. repeat split; [done|done|].
    intros t Ht. by apply elem_of_nil in Ht.
  - destruct (_execute_task_total st l w task result Hl)
      as (st1 & result1 & success & Hrun).
    rewrite Hrun. simpl.
    pose proof (_execute_task_steps _ _ _ _ _ _ _ Hrun) as Hsteps.
    destruct (core_frame_lookup _ _ _ _ (exec_steps_frame _ _ _ Hsteps) Hl)
      as (w1 & Hl1 & _).
    edestruct (IH st1 l w1) as (st' & result' & executed' & -> & Hs & Hsub & Hall);
      [exact Hl1|].
    exists st', result', executed'. split; [done|].
    split; [by eapply rtc_trans|].
    split; [set_solver|].
    intros t [->|Ht]%elem_of_cons; [set_solver|by apply Hall].
Qed.

Local Ltac loop_ends :=
  eexists _, _, _; split; [reflexivity|apply rtc_refl].

(** The [while] loop returns when the fuel covers the tasks that have not
    been executed yet. *)
Lemma loop_sequential_spec fuel : forall st l w result executed,
  heap st !! l = Some w ->
  0 < fuel ->
  length (wf_tasks w) < fuel + size executed ->
  exists st' result' raised,
    loop_sequential E fuel st l result executed = Some (st', result', raised) /\
    rtc (exec_step E) st st'.
Proof.
  induction fuel as [|fuel IH]; intros st l w result executed Hl Hpos Hfuel.
  - lia.
  - simpl. rewrite Hl. simpl.
    destruct (Nat.ltb_spec (size executed) (length (wf_tasks w))) as [Hlt|Hge];
      [|loop_ends].
    destruct (get_ready_tasks w) as [ready_tasks|e]; [|loop_ends].
    destruct (filter _ ready_tasks) as [|task rest] eqn:Hfilter.
    { destruct (bool_decide (executed = ∅)); loop_ends. }
    assert (Hfresh : task_id task ∉ executed).
    { assert (Hin : task ∈ filter (fun t => task_id t ∉ executed) ready_tasks)
        by (rewrite Hfilter; left).
      by apply list_elem_of_filter in Hin as [? _]. }
    destruct (run_ready_sequential_spec (task :: rest) st l w result executed Hl)
      as (st1 & result1 & executed1 & Hrun & Hsteps & Hsub & Hall).
    rewrite Hrun. simpl.
    destruct (core_frame_lookup _ _ _ _ (exec_steps_frame _ _ _ Hsteps) Hl)
      as (w1 & Hl1 & Hframe).
    assert (Hgrow : size executed < size executed1).
    { apply subset_size. apply strict_spec_alt. split; [done|].
      intros Heq. apply Hfresh. rewrite Heq. apply Hall. left. }
    edestruct (IH st1 l w1 result1 executed1) as (st' & result' & raised & -> & Hs);
      [exact Hl1|lia| |].
    { rewrite (workflow_frame_length _ _ Hframe). lia. }
    exists st', result', raised. split; [done|]. by eapply rtc_trans.
Qed.

Lemma _execute_sequential_spec st l w result :
  heap st !! l = Some w ->
  exists st' result' raised,
    _execute_sequential E st l result = Some (st', result', raised) /\
    rtc (exec_step E) st st'.
Proof.
  intros Hl.
  destruct (loop_sequential_spec (S (length (wf_tasks w))) st l w result ∅ Hl)
    as (st' & result' & raised & Hrun & Hsteps); [lia|rewrite size_empty; lia|].
  exists st', result', raised. split; [|done].
  unfold _execute_sequential. rewrite Hl. exact Hrun.
Qed.

(** The parallel strategy is the sequential one, written a second time. *)
Lemma run_ready_parallel_eq tasks : forall st l result executed,
  run_ready_parallel E st l tasks result executed
  = run_ready_sequential E st l tasks result executed.
Proof.
  induction tasks as [|task tasks IH]; intros st l result executed; simpl; [done|].
  destruct (_execute_task E st l task result) as [[[st1 result1] success]|];
    simpl; [apply IH|done].
Qed.

Lemma loop_parallel_eq fuel : forall st l result executed,
  loop_parallel E fuel st l result executed
  = loop_sequential E fuel st l result executed.
Proof.
  induction fuel as [|fuel IH]; intros st l result executed; simpl; [done|].
  destruct (heap st !! l) as [w|]; simpl; [|done].
  destruct (size executed <? length (wf_tasks w))%nat; [|done].
  destruct (get_ready_tasks w) as [ready_tasks|e]; [|done].
  destruct (filter _ ready_tasks) as [|task rest]; [done|].
  rewrite run_ready_parallel_eq.
  destruct (run_ready_sequential E st l (task :: rest) result executed)
    as [[[st1 result1] executed1]|]; simpl; [apply IH|done].
Qed.

Lemma _execute_parallel_eq st l result :
  _execute_parallel E st l result = _execute_sequential E st l result.
Proof.
  unfold _execute_parallel, _execute_sequential.
  destruct (heap st !! l) as [w|]; [|done].
  exact (loop_parallel_eq _ st l result ∅).
Qed.

Lemma run_strategy_eq st l result :
  run_strategy E st l result = _execute_sequential E st l result.
Proof.
  unfold run_strategy.
  destruct (mode (config st)); [done|apply _execute_parallel_eq|done].
Qed.

Lemma now_steps st : rtc (exec_step E) st (fst (now E st)).
Proof. apply rtc_once, step_clock. Qed.

(** [_execute_workflow_tasks] returns on every workflow object. *)
Lemma _execute_workflow_tasks_spec st l w :
  heap st !! l = Some w ->
  exists st' result,
    _execute_workflow_tasks E st l = Some (st', result) /\
    rtc (exec_step E) st st'.
Proof.
  intros Hl. unfold _execute_workflow_tasks. rewrite Hl.
  cbn [mbind option_bind].
  pose proof (now_steps st) as Hnow.
  destruct (now E st) as [st0 started] eqn:Hst0. cbn [fst] in Hnow.
  destruct (wf_tasks w) as [|kv tasks] eqn:Htasks.
  - pose proof (now_steps st0) as Hnow0.
    destruct (now E st0) as [st1 t]. cbn [fst] in Hnow0.
    eexists _, _. split; [reflexivity|]. by eapply rtc_trans.
  - rewrite run_strategy_eq.
    assert (Hl0 : heap st0 !! l = Some w) by (by injection Hst0 as <- _).
    destruct (_execute_sequential_spec st0 l w
                (mkResult (wf_id w) false "running" started None 0 0 0
                   (length (kv :: tasks)) [] [] [] []) Hl0)
      as (st1 & result1 & raised & Hrun & Hsteps).
    rewrite Hrun. cbn [mbind option_bind].
    pose proof (now_steps st1) as Hnow1.
    unfold stamp, bind, ret.
    destruct (now E st1) as [st2 t]. cbn [fst] in Hnow1.
    eexists _, _. split; [reflexivity|].
    eapply rtc_trans; [exact Hnow|].
    eapply rtc_trans; [exact Hsteps|exact Hnow1].
Qed.

End Execution.

(** ** The result of [_execute_workflow_tasks] *)


(** The scheduling deadlock: when a workflow has tasks and none of them is
    ready, no task is dispatched, the state keeps its workflow objects, and
    the result has status "failed" with the error recorded. *)
Lemma deadlock_is_reported (E : Env) (st : Core) (l : loc) (w : Workflow) :
  heap st !! l = Some w ->
  wf_tasks w <> [] ->
  get_ready_tasks w = Returned [] ->
  exists st' result,
    _execute_workflow_tasks E st l = Some (st', result) /\
    heap st' = heap st /\
    dispatched st' = dispatched st /\
    er_status result = "failed" /\
    er_success result = false /\
    er_errors result = ["No ready tasks and nothing executed"] /\
    is_set (er_completed_at result).
Proof.
  intros Hl Hne Hready.
  unfold _execute_workflow_tasks. rewrite Hl. cbn [mbind option_bind].
  unfold now at 1.
  destruct (wf_tasks w) as [|kv tasks] eqn:Htasks; [done|].
  rewrite run_strategy_eq. unfold _execute_sequential.
  cbn [heap set_clock_reads]. rewrite Hl. cbn [mbind option_bind].
  cbn [loop_sequential heap set_clock_reads]. rewrite Hl.
  cbn [mbind option_bind]. rewrite size_empty, Htasks.
  change (0 <? length (kv :: tasks))%nat with true. cbv iota.
  rewrite Hready, filter_nil.
  rewrite bool_decide_eq_true_2 by done.
  cbn [mbind option_bind].
  eexists _, _. split; [reflexivity|]. by repeat split.
Qed.

(** ** The three strategies *)

Section Modes.

Variable E : Env.
Variable m : WorkflowMode.

(** No step of the execution reads the mode: a run under another mode makes
    the same changes. *)
Lemma update_task_status_mode wid tid s r e st :
  update_task_status E wid tid s r e (with_mode m st)
  = (with_mode m (fst (update_task_status E wid tid s r e st)),
     snd (update_task_status E wid tid s r e st)).
Proof.
  rewrite !update_task_status_eq.
  change (find_workflow (with_mode m st) wid) with (find_workflow st wid).
  destruct (find_workflow st wid) as [[l w]|]; [|done].
  destruct (dict_get tid (wf_tasks w)); [|done].
  by destruct (reads_clock s).
Qed.

Lemma review_output_mode task output st result :
  review_output E task output (with_mode m st) result
  = (let '(st', result', raised) := review_output E task output st result in
     (with_mode m st', result', raised)).
Proof.
  unfold review_output. cbn [config with_mode enable_criticism critic_calls].
  destruct (enable_criticism (config st) && truthy output); [|done].
  by destruct (critic_review E _ _ _ _).
Qed.

Lemma summarize_output_mode task output st result :
  summarize_output E task output (with_mode m st) result
  = (let '(st', result', raised) := summarize_output E task output st result in
     (with_mode m st', result', raised)).
Proof.
  unfold summarize_output.
  cbn [config with_mode enable_summarization summarizer_calls].
  destruct (enable_summarization (config st) && truthy output); [|done].
  destruct (py_len output) as [n|]; [|done].
  destruct (200 <? n)%nat; [|done].
  by destruct (summarizer_summarize E _ _).
Qed.

Lemma try_task_mode wid task st result :
  try_task E wid task (with_mode m st) result
  = (let '(st', result', raised) := try_task E wid task st result in
     (with_mode m st', result', raised)).
Proof.
  unfold try_task. cbn [_action_handlers with_mode].
  destruct (default _default_handler _ _) as [task_result|e]; [|done].
  rewrite update_task_status_mode. cbn [fst].
  rewrite review_output_mode.
  destruct (review_output _ _ _ _ _) as [[st2 result2] [e|]]; [done|].
  apply summarize_output_mode.
Qed.

Lemma _execute_task_mode st l task result :
  _execute_task E (with_mode m st) l task result
  = relabel3 m <$> _execute_task E st l task result.
Proof.
  unfold _execute_task. cbn [heap with_mode].
  destruct (heap st !! l) as [w|]; [|done]. cbn [mbind option_bind].
  change (set_dispatched (task_id task :: dispatched (with_mode m st))
            (with_mode m st))
    with (with_mode m (set_dispatched (task_id task :: dispatched st) st)).
  rewrite update_task_status_mode. cbn [fst].
  rewrite try_task_mode.
  destruct (try_task _ _ _ _ _) as [[st2 result2] [e|]]; [|done].
  rewrite update_task_status_mode. done.
Qed.

Lemma run_ready_sequential_mode tasks : forall st l result executed,
  run_ready_sequential E (with_mode m st) l tasks result executed
  = relabel3 m <$> run_ready_sequential E st l tasks result executed.
Proof.
  induction tasks as [|task tasks IH]; intros st l result executed; simpl; [done|].
  rewrite _execute_task_mode.
  destruct (_execute_task E st l task result) as [[[st1 result1] success]|];
    [|done].
  simpl. apply IH.
Qed.

Lemma loop_sequential_mode fuel : forall st l result executed,
  loop_sequential E fuel (with_mode m st) l result executed
  = relabel3 m <$> loop_sequential E fuel st l result executed.
Proof.
  induction fuel as [|fuel IH]; intros st l result executed; simpl; [done|].
  destruct (heap st !! l) as [w|]; [|done]. simpl.
  destruct (size executed <? length (wf_tasks w))%nat; [|done].
  destruct (get_ready_tasks w) as [ready_tasks|e]; [|done].
  destruct (filter _ ready_tasks) as [|task rest].
  { by destruct (bool_decide (executed = ∅)). }
  rewrite run_ready_sequential_mode.
  destruct (run_ready_sequential E st l (task :: rest) result executed)
    as [[[st1 result1] executed1]|]; [|done].
  simpl. apply IH.
Qed.

Lemma _execute_sequential_mode st l result :
  _execute_sequential E (with_mode m st) l result
  = relabel3 m <$> _execute_sequential E st l result.
Proof.
  unfold _execute_sequential. cbn [heap with_mode].
  destruct (heap st !! l) as [w|]; [|done].
  exact (loop_sequential_mode _ st l result ∅).
Qed.

Lemma _execute_workflow_tasks_mode st l :
  _execute_workflow_tasks E (with_mode m st) l
  = prod_map (with_mode m) id <$> _execute_workflow_tasks E st l.
Proof.
  unfold _execute_workflow_tasks. cbn [heap with_mode].
  destruct (heap st !! l) as [w|]; [|done]. cbn [mbind option_bind].
  change (now E (with_mode m st))
    with (with_mode m (fst (now E st)), snd (now E st)).
  destruct (now E st) as [st0 started]. cbn [fst snd].
  destruct (wf_tasks w) as [|kv tasks]; [done|].
  rewrite !run_strategy_eq, _execute_sequential_mode.
  destruct (_execute_sequential E st0 l _) as [[[st1 result1] raised]|]; done.
Qed.

End Modes.

(** C6. The three strategies are the same function: on every state (so
    under every configuration), workflow object and result,
    [_execute_parallel] and [_execute_hybrid] return what
    [_execute_sequential] returns, final state (with the record of the
    dispatched tasks) and result included; and [_execute_workflow_tasks]
    under one mode gives the result it gives under any other mode, and the
    same final state but for the mode itself. *)
Theorem strategies_agree (E : Env) (st : Core) (l : loc)
    (result : ExecutionResult) (m1 m2 : WorkflowMode) :
  _execute_parallel E st l result = _execute_sequential E st l result /\
  _execute_hybrid E st l result = _execute_sequential E st l result /\
  run_strategy E st l result = _execute_sequential E st l result /\
  _execute_workflow_tasks E (with_mode m2 st) l
  = prod_map (with_mode m2) id <$> _execute_workflow_tasks E (with_mode m1 st) l.
Proof.
  split; [apply _execute_parallel_eq|]. split; [done|].
  split; [apply run_strategy_eq|].
  rewrite (_execute_workflow_tasks_mode E m2 (with_mode m1 st)).
  by destruct st.
Qed.

(** ** Cancelling, retrying, missing ids *)

Lemma find_workflow_None (st : Core) (wid : string) :
  workflows st !! wid = None -> find_workflow st wid = None.
Proof. unfold find_workflow, get_workflow. by intros ->. Qed.

(** C7. [cancel_workflow] on a known id returns true; in the workflow
    object every task that was PENDING or READY is now BLOCKED and is
    otherwise as before, every other task is as before, the keys and their
    order are kept, as are the other fields of the workflow and the rest of
    the state. On an unknown id it returns false and the state is as
    before. *)
Theorem cancel_workflow_effect (st : Core) (wid : string) :
  (get_workflow st wid = None -> cancel_workflow wid st = (st, false)) /\
  (forall l w,
     get_workflow st wid = Some l -> heap st !! l = Some w ->
     exists st' w',
       cancel_workflow wid st = (st', true) /\
       only_workflow_changed l w' st st' /\
       heap st' !! l = Some w' /\
       (forall l', l' <> l -> heap st' !! l' = heap st !! l') /\
       same_but_tasks w w' /\
       dict_keys (wf_tasks w') = dict_keys (wf_tasks w) /\
       (forall i k t, wf_tasks w !! i = Some (k, t) ->
          exists t', wf_tasks w' !! i = Some (k, t') /\
            (task_status t = PENDING \/ task_status t = READY ->
               task_status t' = BLOCKED /\ same_but_status t t') /\
            (task_status t <> PENDING -> task_status t <> READY -> t' = t))).
Proof.
  split.
  - intros Hnone. unfold cancel_workflow.
    rewrite find_workflow_None; done.
  - intros l w Hget Hl. unfold cancel_workflow.
    rewrite (find_workflow_intro st wid l w Hget Hl).
    eexists _, _. split; [reflexivity|].
    split; [done|]. simpl.
    split; [apply list_lookup_insert_eq; by eapply lookup_lt_Some|].
    split; [intros l' Hne; by apply list_lookup_insert_ne|].
    split; [done|].
    split.
    { unfold dict_keys. rewrite map_map. done. }
    intros i k t Hi. eexists. split.
    { rewrite list_lookup_fmap, Hi. reflexivity. }
    unfold cancel_task. simpl. split.
    + intros [Hs|Hs]; rewrite Hs; simpl; done.
    + intros Hp Hr.
      rewrite (bool_decide_eq_false_2 _ Hp), (bool_decide_eq_false_2 _ Hr). done.
Qed.

(** C9. [retry_failed_task] on a FAILED task returns true and changes the
    status of that task to PENDING, nothing else: error, timestamps and
    result stay as the failed attempt left them, the other tasks, the other
    fields of the workflow and the rest of the state are as before. For a
    task in another status, or an unknown workflow or task id, it returns
    false and the state is as before. *)
Theorem retry_failed_task_effect (st : Core) (wid tid : string) :
  (forall l w t,
     find_workflow st wid = Some (l, w) -> get_task w tid = Some t ->
     task_status t = FAILED ->
     exists st' w' t',
       retry_failed_task wid tid st = (st', true) /\
       only_workflow_changed l w' st st' /\
       heap st' !! l = Some w' /\
       (forall l', l' <> l -> heap st' !! l' = heap st !! l') /\
       same_but_tasks w w' /\
       dict_keys (wf_tasks w') = dict_keys (wf_tasks w) /\
       get_task w' tid = Some t' /\
       task_status t' = PENDING /\
       same_but_status t t' /\
       (forall k, k <> tid -> get_task w' k = get_task w k)) /\
  (find_workflow st wid = None -> retry_failed_task wid tid st = (st, false)) /\
  (forall l w,
     find_workflow st wid = Some (l, w) -> get_task w tid = None ->
     retry_failed_task wid tid st = (st, false)) /\
  (forall l w t,
     find_workflow st wid = Some (l, w) -> get_task w tid = Some t ->
     task_status t <> FAILED ->
     retry_failed_task wid tid st = (st, false)).
Proof.
  split; [|split; [|split]].
  - intros l w t Hfind Hget Hfailed. unfold retry_failed_task.
    rewrite Hfind, Hget.
    rewrite bool_decide_eq_false_2 by (by intros Hn).
    apply find_workflow_Some in Hfind as [_ Hl].
    eexists _, _, _. split; [reflexivity|].
    split; [done|]. simpl.
    split; [apply list_lookup_insert_eq; by eapply lookup_lt_Some|].
    split; [intros l' Hne; by apply list_lookup_insert_ne|].
    split; [done|].
    split; [apply dict_keys_modify|].
    unfold get_task in *. simpl.
    split; [by rewrite dict_get_modify_eq, Hget|].
    split; [done|]. split; [done|].
    intros k Hk. by apply dict_get_modify_ne.
  - intros Hfind. unfold retry_failed_task. by rewrite Hfind.
  - intros l w Hfind Hget. unfold retry_failed_task. by rewrite Hfind, Hget.
  - intros l w t Hfind Hget Hstatus. unfold retry_failed_task.
    rewrite Hfind, Hget. by rewrite bool_decide_eq_true_2.
Qed.

(** C8. With an id that is not known, no entry point raises: for a workflow
    id missing from the planner's map, [get_workflow],
    [get_workflow_progress] and [get_workflow_status] return [None],
    [get_next_tasks] returns the empty list, and [update_task_status],
    [cancel_workflow] and [retry_failed_task] return false and leave the
    state as it is; for an id without execution, [get_execution] and
    [get_workflow_status] return [None]; for a task id missing from a known
    workflow, [update_task_status] and [retry_failed_task] return false and
    leave the state as it is. *)
Theorem unknown_ids_give_sentinels (E : Env) (st : Core) (wid tid : string)
    (s : TaskStatus) (r : option (Dict PyVal)) (e : option string) :
  (workflows st !! wid = None ->
     get_workflow st wid = None /\
     get_workflow_progress st wid = None /\
     get_workflow_status st wid = None /\
     get_next_tasks st wid = Returned [] /\
     update_task_status E wid tid s r e st = (st, false) /\
     cancel_workflow wid st = (st, false) /\
     retry_failed_task wid tid st = (st, false)) /\
  (executions st !! wid = None ->
     get_execution st wid = None /\ get_workflow_status st wid = None) /\
  (forall l w,
     find_workflow st wid = Some (l, w) -> get_task w tid = None ->
     update_task_status E wid tid s r e st = (st, false) /\
     retry_failed_task wid tid st = (st, false)).
Proof.
  split; [|split].
  - intros Hnone. pose proof (find_workflow_None st wid Hnone) as Hfind.
    unfold get_workflow_progress, get_workflow_status, get_next_tasks,
      cancel_workflow, retry_failed_task.
    rewrite update_task_status_eq, Hfind.
    repeat split; try done.
    by destruct (executions st !! wid).
  - intros Hnone. unfold get_execution, get_workflow_status. by rewrite Hnone.
  - intros l w Hfind Hget. unfold get_task in Hget.
    unfold retry_failed_task, get_task.
    rewrite update_task_status_eq, Hfind, Hget. done.
Qed.

(** ** Planning *)

Section Planning.

Variable E : Env.

Lemma new_task_fresh name description objective action parameters priority
    duration st :
  fresh_task (snd (new_task E name description objective action parameters
                     priority duration st)).
Proof. done. Qed.

Local Ltac template_fresh :=
  intros st; eexists _, _; split; [reflexivity|repeat constructor].

Lemma _create_briefing_tasks_fresh : makes_fresh_tasks (_create_briefing_tasks E).
Proof. template_fresh. Qed.

Lemma _create_analysis_tasks_fresh : makes_fresh_tasks (_create_analysis_tasks E).
Proof. template_fresh. Qed.

Lemma _create_retrieval_tasks_fresh : makes_fresh_tasks (_create_retrieval_tasks E).
Proof. template_fresh. Qed.

Lemma _create_generation_tasks_fresh : makes_fresh_tasks (_create_generation_tasks E).
Proof. template_fresh. Qed.

Lemma _create_update_tasks_fresh : makes_fresh_tasks (_create_update_tasks E).
Proof. template_fresh. Qed.

Lemma _create_default_tasks_fresh goal :
  makes_fresh_tasks (_create_default_tasks E goal).
Proof. template_fresh. Qed.

Lemma ret_fresh tasks : Forall fresh_task tasks -> makes_fresh_tasks (ret tasks).
Proof.
  intros H st. exists (clock_reads st), (_task_counter st).
  split; [by destruct st|done].
Qed.

Lemma extend_if_fresh c more tasks :
  makes_fresh_tasks more -> Forall fresh_task tasks ->
  makes_fresh_tasks (extend_if c more tasks).
Proof.
  intros Hmore Htasks. destruct c; [|by apply ret_fresh].
  intros st. destruct (Hmore st) as (n & k & Hst & Hnew).
  exists n, k. unfold extend_if, bind, ret.
  destruct (more st) as [st' new]. simpl in *.
  split; [done|]. by apply Forall_app.
Qed.

(** Sequencing: the second computation may depend on the tasks made so
    far. *)
Lemma bind_fresh (m : M (list Task)) (k : list Task -> M (list Task)) :
  makes_fresh_tasks m ->
  (forall tasks, Forall fresh_task tasks -> makes_fresh_tasks (k tasks)) ->
  makes_fresh_tasks (bind m k).
Proof.
  intros Hm Hk st. destruct (Hm st) as (n & c & Hst & Htasks).
  unfold bind. destruct (m st) as [st1 tasks]. simpl in *.
  destruct (Hk tasks Htasks st1) as (n' & c' & Hst' & Htasks').
  exists n', c'. split; [|done]. rewrite Hst', Hst. done.
Qed.

Lemma _decompose_goal_fresh goal description context :
  makes_fresh_tasks (_decompose_goal E goal description context).
Proof.
  unfold _decompose_goal.
  apply bind_fresh;
    [apply extend_if_fresh; [apply _create_briefing_tasks_fresh|done]|].
  intros t1 H1. apply bind_fresh;
    [apply extend_if_fresh; [apply _create_analysis_tasks_fresh|done]|].
  intros t2 H2. apply bind_fresh;
    [apply extend_if_fresh; [apply _create_retrieval_tasks_fresh|done]|].
  intros t3 H3. apply bind_fresh;
    [apply extend_if_fresh; [apply _create_generation_tasks_fresh|done]|].
  intros t4 H4. apply bind_fresh;
    [apply extend_if_fresh; [apply _create_update_tasks_fresh|done]|].
  intros t5 H5. destruct t5; [apply _create_default_tasks_fresh|by apply ret_fresh].
Qed.

End Planning.

(** Filing tasks into the workflow and resolving the dependencies keeps what
    holds of every task, if setting dependencies keeps it. *)
Lemma elem_of_dict_set {V} (k k0 : string) (v v0 : V) (d : Dict V) :
  (k0, v0) ∈ dict_set k v d -> (k0, v0) ∈ d \/ v0 = v.
Proof.
  induction d as [|[k' v'] d IH]; simpl.
  - intros [[= _ ->]|H]%elem_of_cons; [by right|by left].
  - destruct (String.eqb k' k).
    + intros [[= -> ->]|H]%elem_of_cons; [by right|left; by right].
    + intros [[= -> ->]|H]%elem_of_cons; [left; left|].
      destruct (IH H) as [H'|H']; [left; by right|by right].
Qed.

Lemma add_tasks_all (P : Task -> Prop) (tasks : list Task) : forall w,
  (forall k t, (k, t) ∈ wf_tasks w -> P t) -> Forall P tasks ->
  forall k t, (k, t) ∈ wf_tasks (foldl add_task w tasks) -> P t.
Proof.
  induction tasks as [|task tasks IH]; intros w Hw Htasks; simpl; [done|].
  apply Forall_cons in Htasks as [Htask Htasks].
  apply IH; [|done]. simpl. intros k t [H| ->]%elem_of_dict_set; [eauto|done].
Qed.

Lemma resolve_all (P : Task -> Prop) (vals : list Task) : forall tasks,
  (forall t deps, P t -> P (set_task_dependencies deps t)) ->
  (forall k t, (k, t) ∈ tasks -> P t) ->
  forall k t, (k, t) ∈ foldl resolve_for tasks vals -> P t.
Proof.
  induction vals as [|task vals IH]; intros tasks Hdeps Htasks; simpl; [done|].
  apply IH; [done|]. unfold resolve_for.
  destruct (dict_get _ action_sequences) as [dependent_actions|]; [|done].
  intros k t ([k0 t0] & [= -> ->] & Hin)%list_elem_of_fmap. simpl.
  unfold add_dependency.
  destruct (_ && _); [|by eauto].
  destruct (str_in _ _); [by eauto|]. apply Hdeps. eauto.
Qed.

Lemma add_tasks_fields (tasks : list Task) : forall w,
  wf_started_at (foldl add_task w tasks) = wf_started_at w /\
  wf_completed_at (foldl add_task w tasks) = wf_completed_at w /\
  wf_actual_duration (foldl add_task w tasks) = wf_actual_duration w /\
  wf_id (foldl add_task w tasks) = wf_id w.
Proof.
  induction tasks as [|task tasks IH]; intros w; simpl; [done|].
  destruct (IH (add_task w task)) as (-> & -> & -> & ->). done.
Qed.

(** [plan_workflow] appends one workflow object to the heap: it has status
    "ready", no start, completion or duration, and fresh tasks; the
    execution map, the configuration and the handlers are as before. *)
Lemma plan_workflow_spec (E : Env) (goal description : string)
    (context : option (Dict PyVal)) (st : Core) :
  exists st' w,
    plan_workflow E goal description context st = (st', length (heap st)) /\
    heap st' = heap st ++ [w] /\
    planned w /\
    (forall k t, (k, t) ∈ wf_tasks w -> fresh_task t) /\
    config st' = config st /\
    executions st' = executions st /\
    _action_handlers st' = _action_handlers st.
Proof.
  unfold plan_workflow, bind, _generate_workflow_id, bind, now, store_workflow.
  set (st1 := set_clock_reads (S (S (clock_reads st))) st).
  destruct (_decompose_goal_fresh E goal description (default [] context) st1)
    as (n & k & Hst & Htasks).
  cbn [clock_reads set_clock_reads].
  change (set_clock_reads _ (set_clock_reads _ st)) with st1.
  destruct (_decompose_goal E goal description (default [] context) st1)
    as [st2 tasks].
  simpl in Hst, Htasks. subst st2.
  eexists _, _. split; [reflexivity|].
  split; [reflexivity|].
  split.
  { unfold planned. simpl.
    match goal with |- context [foldl add_task ?w0 tasks] =>
      destruct (add_tasks_fields tasks w0) as (-> & -> & -> & _) end.
    done. }
  split; [|done].
  cbn [wf_tasks set_wf_status set_wf_estimated_total_duration
         _resolve_dependencies set_wf_tasks].
  apply resolve_all; [done|].
  apply add_tasks_all; [|done].
  simpl. intros ? ? H. by apply elem_of_nil in H.
Qed.

(** ** What every call keeps *)

Section Invariants.

Variable E : Env.
Variable P : Task -> Prop.











End Invariants.








(** The calls never fail to return, as long as [_execute_workflow_tasks] is
    given an existing workflow object. *)
Lemma apply_op_returns (E : Env) (op : Op) (st : Core) :
  (forall l, op = OpExecuteTasks l -> l < length (heap st)) ->
  exists st', apply_op E op st = Some st'.
Proof.
  intros Hvalid. destruct op as [g d c|g d c|l|w t s r e|w|w t]; simpl; eauto.
  - unfold execute_workflow.
    destruct (plan_workflow_spec E g d c st) as (st0 & w & -> & Hheap & _).
    assert (Hl : heap st0 !! length (heap st) = Some w).
    { rewrite Hheap. by apply list_lookup_middle. }
    destruct (_execute_workflow_tasks_spec E st0 _ w Hl) as (st1 & r1 & -> & _).
    simpl. eauto.
  - destruct (lookup_lt_is_Some_2 (heap st) l (Hvalid l eq_refl)) as [w Hl].
    destruct (_execute_workflow_tasks_spec E st l w Hl) as (st1 & r1 & -> & _).
    simpl. eauto.
Qed.



(** ** The workflow objects across calls *)

Lemma heap_frame_refl (st : Core) : heap_frame st st.
Proof. intros l w Hl. exists w. split; [done|apply workflow_frame_refl]. Qed.

Lemma heap_frame_trans (st1 st2 st3 : Core) :
  heap_frame st1 st2 -> heap_frame st2 st3 -> heap_frame st1 st3.
Proof.
  intros H12 H23 l w Hl.
  destruct (H12 l w Hl) as (w2 & Hl2 & Hf2).
  destruct (H23 l w2 Hl2) as (w3 & Hl3 & Hf3).
  exists w3. split; [done|]. by eapply workflow_frame_trans.
Qed.

Lemma core_frame_heap_frame (st st' : Core) :
  core_frame st st' -> heap_frame st st'.
Proof. intros [[_ H] _]. exact H. Qed.

Lemma heap_frame_same_heap (st st' : Core) :
  heap st' = heap st -> heap_frame st st'.
Proof.
  intros Hh l w Hl. exists w. rewrite Hh. split; [done|apply workflow_frame_refl].
Qed.

Lemma workflow_frame_same_but_tasks (w w' : Workflow) :
  workflow_frame w w' -> same_but_tasks w w'.
Proof. intros (tasks' & -> & _). by repeat split. Qed.

Lemma workflow_frame_planned (w w' : Workflow) :
  workflow_frame w w' -> planned w -> planned w'.
Proof. intros (tasks' & -> & _). done. Qed.

Lemma plan_workflow_heap_frame (E : Env) goal description context st :
  heap_frame st (fst (plan_workflow E goal description context st)).
Proof.
  destruct (plan_workflow_spec E goal description context st)
    as (st' & w & -> & Hheap & _).
  intros l w0 Hl. exists w0. simpl. rewrite Hheap.
  split; [by apply lookup_app_l_Some|apply workflow_frame_refl].
Qed.

Lemma _execute_workflow_tasks_heap_frame (E : Env) st l st' result :
  _execute_workflow_tasks E st l = Some (st', result) -> heap_frame st st'.
Proof.
  intros Hrun. destruct (heap st !! l) as [w|] eqn:Hl.
  - destruct (_execute_workflow_tasks_spec E st l w Hl)
      as (st2 & result2 & Hrun2 & Hsteps).
    rewrite Hrun in Hrun2. injection Hrun2 as <- <-.
    by apply core_frame_heap_frame, (exec_steps_frame E).
  - unfold _execute_workflow_tasks in Hrun. by rewrite Hl in Hrun.
Qed.

Lemma cancel_workflow_heap_frame wid st :
  heap_frame st (fst (cancel_workflow wid st)).
Proof.
  unfold cancel_workflow.
  destruct (find_workflow st wid) as [[l w]|] eqn:Hfind; [|apply heap_frame_refl].
  apply find_workflow_Some in Hfind as [_ Hl]. simpl.
  intros l' w' Hl'. simpl.
  destruct (decide (l' = l)) as [->|Hne].
  - rewrite list_lookup_insert_eq by (by eapply lookup_lt_Some).
    rewrite Hl in Hl'. injection Hl' as <-.
    eexists. split; [done|]. eexists. split; [done|].
    unfold dict_keys. by rewrite map_map.
  - rewrite list_lookup_insert_ne by done.
    exists w'. split; [done|apply workflow_frame_refl].
Qed.

Lemma retry_failed_task_heap_frame wid tid st :
  heap_frame st (fst (retry_failed_task wid tid st)).
Proof.
  unfold retry_failed_task.
  destruct (find_workflow st wid) as [[l w]|] eqn:Hfind; [|apply heap_frame_refl].
  destruct (get_task w tid); [|apply heap_frame_refl].
  destruct (bool_decide _); [apply heap_frame_refl|].
  apply find_workflow_Some in Hfind as [_ Hl]. simpl.
  by apply core_frame_heap_frame, core_frame_modify_task.
Qed.

Lemma apply_op_heap_frame (E : Env) (op : Op) (st st' : Core) :
  apply_op E op st = Some st' -> heap_frame st st'.
Proof.
  destruct op as [g d c|g d c|l|w t s r e|w|w t]; simpl.
  - intros [= <-]. apply plan_workflow_heap_frame.
  - unfold execute_workflow.
    pose proof (plan_workflow_heap_frame E g d c st) as Hplan.
    destruct (plan_workflow E g d c st) as [st0 l].
    destruct (_execute_workflow_tasks E st0 l) as [[st1 r1]|] eqn:Hrun; [|done].
    simpl. intros [= <-].
    eapply heap_frame_trans; [exact Hplan|].
    eapply heap_frame_trans; [by eapply _execute_workflow_tasks_heap_frame|].
    by apply heap_frame_same_heap.
  - destruct (_execute_workflow_tasks E st l) as [[st1 r1]|] eqn:Hrun; [|done].
    intros [= <-]. by eapply _execute_workflow_tasks_heap_frame.
  - intros [= <-]. apply core_frame_heap_frame, core_frame_update.
  - intros [= <-]. apply cancel_workflow_heap_frame.
  - intros [= <-]. apply retry_failed_task_heap_frame.
Qed.

(** Every workflow object is one that [plan_workflow] made, up to its
    tasks. *)
Lemma apply_op_planned (E : Env) (op : Op) (st st' : Core) :
  apply_op E op st = Some st' ->
  (forall l w, heap st !! l = Some w -> planned w) ->
  forall l w, heap st' !! l = Some w -> planned w.
Proof.
  intros Hop Hall l w' Hl'.
  assert (Hnew : forall g d c st0,
             (forall l w, heap st0 !! l = Some w -> planned w) ->
             forall l w, heap (fst (plan_workflow E g d c st0)) !! l = Some w ->
                         planned w).
  { intros g d c st0 H0 l0 w0.
    destruct (plan_workflow_spec E g d c st0)
      as (st1 & w1 & -> & Hheap & Hplanned & _). simpl. rewrite Hheap.
    intros [Hl|[Hge Hl]]%lookup_app_Some; [by eapply H0|].
    destruct (l0 - length (heap st0)) as [|i]; [|done]. by injection Hl as <-. }
  assert (Hkeep : forall st0 st1,
             heap_frame st0 st1 -> length (heap st1) = length (heap st0) ->
             (forall l w, heap st0 !! l = Some w -> planned w) ->
             forall l w, heap st1 !! l = Some w -> planned w).
  { intros st0 st1 Hframe Hlen H0 l0 w1 Hl1.
    assert (Hlt : l0 < length (heap st0)).
    { rewrite <- Hlen. by eapply lookup_lt_Some. }
    destruct (lookup_lt_is_Some_2 _ _ Hlt) as [w0 Hl0].
    destruct (Hframe l0 w0 Hl0) as (w1' & Hl1' & Hf).
    rewrite Hl1 in Hl1'. injection Hl1' as <-.
    eapply workflow_frame_planned; [exact Hf|by eapply H0]. }
  assert (Hexec : forall st0 l0 st1 r1,
             _execute_workflow_tasks E st0 l0 = Some (st1, r1) ->
             length (heap st1) = length (heap st0)).
  { intros st0 l0 st1 r1 Hrun.
    destruct (heap st0 !! l0) as [w0|] eqn:Hl0.
    - destruct (_execute_workflow_tasks_spec E st0 l0 w0 Hl0)
        as (st2 & r2 & Hrun2 & Hsteps).
      rewrite Hrun in Hrun2. injection Hrun2 as <- <-.
      by destruct (exec_steps_frame E _ _ Hsteps) as [[Hlen _] _].
    - unfold _execute_workflow_tasks in Hrun. by rewrite Hl0 in Hrun. }
  destruct op as [g d c|g d c|l0|wid t s r e|wid|wid t]; simpl in Hop.
  - injection Hop as <-. by eapply Hnew.
  - unfold execute_workflow in Hop.
    pose proof (Hnew g d c st Hall) as Hplan.
    destruct (plan_workflow E g d c st) as [st0 l0]. simpl in Hplan.
    destruct (_execute_workflow_tasks E st0 l0) as [[st1 r1]|] eqn:Hrun; [|done].
    simpl in Hop. injection Hop as <-. simpl in Hl'.
    eapply (Hkeep st0 st1); [by eapply _execute_workflow_tasks_heap_frame
                            |by eapply Hexec|exact Hplan|exact Hl'].
  - destruct (_execute_workflow_tasks E st l0) as [[st1 r1]|] eqn:Hrun; [|done].
    injection Hop as <-.
    eapply (Hkeep st st1); [by eapply _execute_workflow_tasks_heap_frame
                           |by eapply Hexec|exact Hall|exact Hl'].
  - injection Hop as <-.
    pose proof (core_frame_update E wid t s r e st) as Hf.
    eapply (Hkeep st); [by apply core_frame_heap_frame|by destruct Hf as [[? _] _]
                       |exact Hall|exact Hl'].
  - injection Hop as <-.
    eapply (Hkeep st); [apply cancel_workflow_heap_frame| |exact Hall|exact Hl'].
    unfold cancel_workflow. destruct (find_workflow st wid) as [[l1 w1]|]; [|done].
    simpl. by rewrite length_insert.
  - injection Hop as <-.
    eapply (Hkeep st); [apply retry_failed_task_heap_frame| |exact Hall|exact Hl'].
    unfold retry_failed_task. destruct (find_workflow st wid) as [[l1 w1]|]; [|done].
    destruct (get_task w1 t); [|done]. destruct (bool_decide _); [done|].
    simpl. by rewrite length_insert.
Qed.

Lemma run_ops_planned (E : Env) (ops : list Op) : forall st st',
  run_ops E ops st = Some st' ->
  (forall l w, heap st !! l = Some w -> planned w) ->
  forall l w, heap st' !! l = Some w -> planned w.
Proof.
  induction ops as [|op ops IH]; intros st st'; simpl.
  - by intros [= <-].
  - destruct (apply_op E op st) as [st1|] eqn:Hop; [simpl|done].
    intros Hrun Hall. eapply IH; [exact Hrun|]. by eapply apply_op_planned.
Qed.



(** Every sequence of public calls runs to its end. *)
Lemma run_ops_returns (E : Env) (ops : list Op) : forall st,
  Forall public_op ops -> exists st', run_ops E ops st = Some st'.
Proof.
  induction ops as [|op ops IH]; intros st Hpub; simpl; [by eauto|].
  apply Forall_cons in Hpub as [Hop Hpub].
  destruct (apply_op_returns E op st) as [st1 ->].
  { intros l ->. done. }
  simpl. by apply IH.
Qed.


(** C10. The workflow object that [plan_workflow] returns has status
    "ready" and no [started_at], [completed_at] or [actual_duration]. Every
    call of the core, and [_execute_task] too, leaves each workflow object
    with the fields it had, the task map apart. So in every state reached
    from a new orchestrator each workflow object has status "ready" and none
    of the three fields set. *)
Theorem workflow_status_stays_ready (E : Env) :
  (forall st goal description context,
     exists st' w,
       plan_workflow E goal description context st = (st', length (heap st)) /\
       heap st' !! length (heap st) = Some w /\ planned w) /\
  (forall op st st',
     apply_op E op st = Some st' ->
     forall l w, heap st !! l = Some w ->
       exists w', heap st' !! l = Some w' /\ same_but_tasks w w') /\
  (forall st l0 task result st' result' success,
     _execute_task E st l0 task result = Some (st', result', success) ->
     forall l w, heap st !! l = Some w ->
       exists w', heap st' !! l = Some w' /\ same_but_tasks w w') /\
  (forall cfg handlers clock ops st,
     run_ops E ops (new_orchestrator cfg handlers clock) = Some st ->
     forall l w, heap st !! l = Some w -> planned w).
Proof.
  split; [|split; [|split]].
  - intros st goal description context.
    destruct (plan_workflow_spec E goal description context st)
      as (st' & w & Hplan & Hheap & Hplanned & _).
    exists st', w. split; [done|]. split; [|done].
    rewrite Hheap. by apply list_lookup_middle.
  - intros op st st' Hop l w Hl.
    destruct (apply_op_heap_frame E op st st' Hop l w Hl) as (w' & Hl' & Hf).
    exists w'. split; [done|]. by apply workflow_frame_same_but_tasks.
  - intros st l0 task result st' result' success Hrun l w Hl.
    pose proof (_execute_task_steps E _ _ _ _ _ _ _ Hrun) as Hsteps.
    destruct (core_frame_lookup _ _ _ _ (exec_steps_frame E _ _ Hsteps) Hl)
      as (w' & Hl' & Hf).
    exists w'. split; [done|]. by apply workflow_frame_same_but_tasks.
  - intros cfg handlers clock ops st Hrun.
    eapply run_ops_planned; [exact Hrun|].
    intros l w Hl. by destruct l.
Qed.

(** ** A failing task and its dependent *)



Lemma update_task_status_stored (E : Env) (st : Core) (l : loc) (w : Workflow)
    (tid : string) (t0 : Task) s r e :
  heap st !! l = Some w ->
  workflows st !! wf_id w = Some l ->
  dict_get tid (wf_tasks w) = Some t0 ->
  update_task_status E (wf_id w) tid s r e st
  = (modify_task l w tid (stamp_status s r e (wall_clock E (clock_reads st)))
       (if reads_clock s then set_clock_reads (S (clock_reads st)) st else st),
     true).
Proof.
  intros Hl Hreg Hget. rewrite update_task_status_eq.
  by rewrite (find_workflow_intro st (wf_id w) l w Hreg Hl), Hget.
Qed.



(** ** The plan for "Create a daily briefing" *)

Lemma task_label_inj (a b : nat) : task_label a = task_label b -> a = b.
Proof.
  unfold task_label. intros H.
  assert (Hcut : forall x y : string, "task_" +:+ x = "task_" +:+ y -> x = y)
    by (intros x y Hxy; by injection Hxy).
  apply Hcut in H. by apply (inj pretty) in H.
Qed.

Lemma task_label_eqb_neq (a b : nat) :
  a <> b -> String.eqb (task_label a) (task_label b) = false.
Proof. intros Hne. apply String.eqb_neq. intros H. by apply task_label_inj in H. Qed.

Lemma decompose_daily_briefing (E : Env) (description : string)
    (context : Dict PyVal) (st : Core) :
  _decompose_goal E "Create a daily briefing" description context st
  = (set_task_counter (7 + _task_counter st)
       (set_clock_reads (7 + clock_reads st) st),
     briefing_generation_tasks (fun k => task_label (k + _task_counter st))
       (fun k => wall_clock E (pred k + clock_reads st))).
Proof.
  unfold _decompose_goal.
  replace (any_word_in ["briefing"; "summary"; "report"]
             (lower "Create a daily briefing")) with true by (by vm_compute).
  replace (any_word_in ["analyze"; "analysis"; "examine"]
             (lower "Create a daily briefing")) with false by (by vm_compute).
  replace (any_word_in ["search"; "find"; "retrieve"; "query"]
             (lower "Create a daily briefing")) with false by (by vm_compute).
  replace (any_word_in ["generate"; "create"; "write"]
             (lower "Create a daily briefing")) with true by (by vm_compute).
  replace (any_word_in ["update"; "refresh"; "sync"]
             (lower "Create a daily briefing")) with false by (by vm_compute).
  reflexivity.
Qed.

Section Wiring.

Variable lab : nat -> string.
Variable created : nat -> datetime.
Hypothesis lab_distinct : forall a b, a <> b -> String.eqb (lab a) (lab b) = false.

Lemma file_briefing_generation_tasks (w : Workflow) :
  wf_tasks w = [] ->
  wf_tasks (foldl add_task w (briefing_generation_tasks lab created))
  = map (fun t => (task_id t, t)) (briefing_generation_tasks lab created).
Proof.
  intros Hw. unfold briefing_generation_tasks, planned_task.
  cbn [foldl]. unfold add_task.
  cbn [wf_tasks set_wf_tasks set_wf_task_order task_id map]. rewrite Hw.
  do 7 (cbn [dict_set]; rewrite ?String.eqb_refl, ?lab_distinct by lia).
  reflexivity.
Qed.

Local Ltac resolve_step :=
  match goal with
  | |- context [foldl resolve_for ?T (?t :: ?ts)] =>
      change (foldl resolve_for T (t :: ts))
        with (foldl resolve_for (resolve_for T t) ts);
      let R := fresh "R" in
      let HR := fresh "HR" in
      remember (resolve_for T t) as R eqn:HR;
      unfold resolve_for in HR; cbn in HR;
      cbv delta [add_dependency str_in] in HR;
      do 3 (cbn in HR; rewrite ?String.eqb_refl, ?lab_distinct in HR by lia);
      cbn in HR; subst R
  end.

Lemma resolve_briefing_generation_tasks :
  map (fun kv => (fst kv, task_id (snd kv), task_action (snd kv),
                  task_dependencies (snd kv)))
    (foldl resolve_for
       (map (fun t => (task_id t, t)) (briefing_generation_tasks lab created))
       (briefing_generation_tasks lab created))
  = [ (lab 1, lab 1, "query_docs", []);
      (lab 2, lab 2, "extract_key_points", []);
      (lab 3, lab 3, "synthesize", [lab 2; lab 5]);
      (lab 4, lab 4, "format", [lab 1]);
      (lab 5, lab 5, "plan", []);
      (lab 6, lab 6, "synthesize", [lab 2; lab 5]);
      (lab 7, lab 7, "review", []) ] /\
  map task_estimated_duration_seconds
    (dict_values
       (foldl resolve_for
          (map (fun t => (task_id t, t)) (briefing_generation_tasks lab created))
          (briefing_generation_tasks lab created)))
  = [10; 15; 20; 10; 10; 20; 15]%Z.
Proof.
  unfold briefing_generation_tasks, planned_task.
  cbn [map task_id].
  do 7 resolve_step.
  cbn [foldl]. split; reflexivity.
Qed.

End Wiring.

(** C1, amended. For the goal "Create a daily briefing", whatever the state
    of the planner, [plan_workflow] makes a workflow of exactly 7 tasks: the
    goal contains "briefing" and "create", so the briefing template
    ([query_docs], [extract_key_points], [synthesize], [format]) is followed
    by the generation template ([plan], [synthesize], [review]). The
    [format] task depends on the [query_docs] task, each [synthesize] task
    depends on the [extract_key_points] task and on the [plan] task, the
    other tasks have no dependency, and the estimated total duration is
    100. *)
Theorem plan_daily_briefing (E : Env) (description : string)
    (context : option (Dict PyVal)) (st : Core) :
  let n := _task_counter st in
  exists st' w,
    plan_workflow E "Create a daily briefing" description context st
      = (st', length (heap st)) /\
    heap st' !! length (heap st) = Some w /\
    length (wf_tasks w) = 7 /\
    task_wiring w =
      [ (task_label (1 + n), task_label (1 + n), "query_docs", []);
        (task_label (2 + n), task_label (2 + n), "extract_key_points", []);
        (task_label (3 + n), task_label (3 + n), "synthesize",
           [task_label (2 + n); task_label (5 + n)]);
        (task_label (4 + n), task_label (4 + n), "format", [task_label (1 + n)]);
        (task_label (5 + n), task_label (5 + n), "plan", []);
        (task_label (6 + n), task_label (6 + n), "synthesize",
           [task_label (2 + n); task_label (5 + n)]);
        (task_label (7 + n), task_label (7 + n), "review", []) ] /\
    wf_estimated_total_duration w = 100%Z.
Proof.
  intros n.
  unfold plan_workflow, bind, _generate_workflow_id, bind, now.
  rewrite decompose_daily_briefing.
  cbn [_task_counter clock_reads set_clock_reads].
  fold n.
  set (lab := fun k => task_label (k + n)).
  set (created := fun k => wall_clock E (pred k + S (S (clock_reads st)))).
  assert (Hlab : forall a b, a <> b -> String.eqb (lab a) (lab b) = false).
  { intros a b Hab. apply task_label_eqb_neq. lia. }
  pose proof (resolve_briefing_generation_tasks lab created Hlab) as [Hwire Hdur].
  unfold store_workflow.
  eexists _, _. split; [reflexivity|].
  cbn [heap set_workflows set_heap set_clock_reads set_task_counter].
  split; [by apply list_lookup_middle|].
  unfold task_wiring, _resolve_dependencies, _calculate_duration.
  cbn [wf_tasks set_wf_tasks set_wf_status set_wf_estimated_total_duration
         wf_estimated_total_duration].
  rewrite (file_briefing_generation_tasks lab created Hlab) by done.
  assert (Hvals : forall l : list Task, dict_values (map (fun t => (task_id t, t)) l) = l).
  { intros l. unfold dict_values. rewrite map_map. apply map_id. }
  rewrite Hvals.
  split; [|split].
  - apply (f_equal length) in Hwire. by rewrite length_map in Hwire.
  - exact Hwire.
  - rewrite Hdur. by destruct (foldl resolve_for _ _).
Qed.

(** ** The theorems at sample inputs *)

(** [deps_closedb] decides [deps_closed]. *)
Lemma deps_closedb_sound (w : Workflow) : deps_closedb w = true -> deps_closed w.
Proof.
  unfold deps_closedb, deps_closed. rewrite forallb_forall.
  intros Hall k t dep_id Hin Hdep.
  assert (Ht : In t (dict_values (wf_tasks w))).
  { apply list_elem_of_In, elem_of_dict_values. by exists k. }
  specialize (Hall t Ht). rewrite forallb_forall in Hall.
  specialize (Hall dep_id). rewrite <- list_elem_of_In in Hall.
  specialize (Hall Hdep). by destruct (dict_get dep_id (wf_tasks w)).
Qed.

(** C1, the stated scenario fails: planned on a new orchestrator, the goal
    "Create a daily briefing" gives 7 tasks and a duration of 100. *)
Lemma daily_briefing_is_not_scenario_A :
  exists st' l w,
    plan_workflow sample_env "Create a daily briefing" "description" None
      (AgentOrchestrator default_config 0) = (st', l) /\
    heap st' !! l = Some w /\
    length (wf_tasks w) = 7 /\
    wf_estimated_total_duration w = 100%Z /\
    ~ scenario_A w.
Proof.
  eexists _, _, _. split; [vm_compute; reflexivity|].
  split; [reflexivity|]. split; [reflexivity|]. split; [reflexivity|].
  intros (q & k & s & f & Hvals & _).
  apply (f_equal length) in Hvals. vm_compute in Hvals. discriminate Hvals.
Qed.




(** C3 at a sample workflow: of six tasks four are ready, and they come out
    as t2 (CRITICAL), t3, t5 (HIGH, in map order), t1 (LOW). *)
Lemma get_ready_tasks_sorted_ready_sample :
  deps_closed workflow_priorities /\
  exists ready,
    get_ready_tasks workflow_priorities = Returned ready /\
    map task_id ready = ["t2"; "t3"; "t5"; "t1"] /\
    StronglySorted by_priority ready.
Proof.
  split; [apply deps_closedb_sound; reflexivity|].
  destruct (get_ready_tasks_sorted_ready workflow_priorities
              (deps_closedb_sound workflow_priorities eq_refl))
    as (ready & Hrun & _ & _ & Hsorted & _).
  exists ready. split; [exact Hrun|]. split; [|exact Hsorted].
  vm_compute in Hrun. injection Hrun as <-. reflexivity.
Defined.



(** C7 at scenario D: the COMPLETED task stays, the PENDING one becomes
    BLOCKED. *)
Lemma cancel_workflow_effect_sample :
  exists st' w',
    cancel_workflow "wf_cd" core_cd = (st', true) /\
    heap st' !! 0 = Some w' /\
    map (fun kv => task_status (snd kv)) (wf_tasks w') = [COMPLETED; BLOCKED].
Proof.
  destruct (proj2 (cancel_workflow_effect core_cd "wf_cd") 0 workflow_cd)
    as (st' & w' & Hrun & _ & Hl & _).
  - vm_compute; reflexivity.
  - reflexivity.
  - exists st', w'. split; [exact Hrun|]. split; [exact Hl|].
    vm_compute in Hrun. injection Hrun as <-.
    vm_compute in Hl. injection Hl as <-. reflexivity.
Defined.

(** C9 at a FAILED task: it becomes PENDING and keeps its error. *)
Lemma retry_failed_task_effect_sample :
  exists st' w' t',
    retry_failed_task "wf_f" "f" core_failed = (st', true) /\
    heap st' !! 0 = Some w' /\
    get_task w' "f" = Some t' /\
    task_status t' = PENDING /\
    task_error t' = Some "Task f failed: handler failed".
Proof.
  destruct (proj1 (retry_failed_task_effect core_failed "wf_f" "f") 0
              workflow_failed
              (mkTask "f" "f" "description" "objective" "explode" [] MEDIUM []
                 FAILED 30 0 (Some 1%Z) (Some 2%Z) None
                 (Some "Task f failed: handler failed")))
    as (st' & w' & t' & Hrun & _ & Hl & _ & _ & _ & Hget & Hstatus & Hsame & _).
  - vm_compute; reflexivity.
  - reflexivity.
  - reflexivity.
  - exists st', w', t'. repeat split; try assumption.
    destruct Hsame as (_ & _ & _ & _ & _ & _ & _ & _ & _ & _ & _ & _ & _ & ->).
    reflexivity.
Defined.

(** C8 at an id that the planner does not know. *)
Lemma unknown_ids_give_sentinels_sample :
  get_workflow core_cd "missing" = None /\
  get_next_tasks core_cd "missing" = Returned [] /\
  cancel_workflow "missing" core_cd = (core_cd, false).
Proof.
  destruct (proj1 (unknown_ids_give_sentinels sample_env core_cd "missing" "t"
                     PENDING None None))
    as (H1 & _ & _ & H2 & _ & H3 & _).
  - vm_compute; reflexivity.
  - repeat split; assumption.
Defined.

(** C10 at a sample run: after planning, execution and cancellation the
    workflow still has status "ready". *)
Lemma workflow_status_stays_ready_sample :
  exists st,
    run_ops sample_env
      [OpExecute "Tidy the archive" "description" None;
       OpCancel "workflow_20240101120000_1"]
      (new_orchestrator default_config ∅ 0) = Some st /\
    forall l w, heap st !! l = Some w -> wf_status w = "ready".
Proof.
  destruct (run_ops sample_env
              [OpExecute "Tidy the archive" "description" None;
               OpCancel "workflow_20240101120000_1"]
              (new_orchestrator default_config ∅ 0)) as [st|] eqn:Hrun;
    [|vm_compute in Hrun; discriminate Hrun].
  exists st. split; [reflexivity|].
  intros l w Hl.
  destruct (workflow_status_stays_ready sample_env) as (_ & _ & _ & Hreach).
  exact (proj1 (Hreach default_config ∅ 0 _ st Hrun l w Hl)).
Defined.

(** * Further properties *)

(** ** Progress statistics *)

Lemma length_by_status (l : list Task) :
  length l
  = length (filter (fun t => task_status t = PENDING) l)
    + length (filter (fun t => task_status t = READY) l)
    + length (filter (fun t => task_status t = IN_PROGRESS) l)
    + length (filter (fun t => task_status t = COMPLETED) l)
    + length (filter (fun t => task_status t = FAILED) l)
    + length (filter (fun t => task_status t = BLOCKED) l).
Proof.
  induction l as [|t l IH]; [done|].
  rewrite !filter_cons. simpl length at 1. rewrite IH.
  destruct (task_status t); repeat case_decide; try done; simpl; lia.
Qed.

Lemma count_status_total (w : Workflow) :
  length (wf_tasks w)
  = count_status PENDING w + count_status READY w
    + count_status IN_PROGRESS w + count_status COMPLETED w
    + count_status FAILED w + count_status BLOCKED w.
Proof.
  unfold count_status, dict_values.
  rewrite <- length_by_status. by rewrite length_map.
Qed.


(** X1. The counts of [get_progress] split the tasks: "pending" is the number
    of tasks that are PENDING or READY (never negative), and the five
    counts add up to the total. *)
Theorem get_progress_counts (w : Workflow) :
  let p := get_progress w in
  pr_total p = length (wf_tasks w) /\
  pr_pending p = Z.of_nat (count_status PENDING w + count_status READY w) /\
  (Z.of_nat (pr_completed p) + Z.of_nat (pr_failed p)
   + Z.of_nat (pr_in_progress p) + Z.of_nat (pr_blocked p) + pr_pending p
   = Z.of_nat (pr_total p))%Z.
Proof.
  pose proof (count_status_total w) as Htotal.
  unfold get_progress. cbn [pr_total pr_pending pr_completed pr_failed
                             pr_in_progress pr_blocked].
  split; [done|]. split; lia.
Qed.


(** ** The structure of a planned workflow *)

Lemma dict_set_fresh {V} (k : string) (v : V) (d : Dict V) :
  k ∉ dict_keys d -> dict_set k v d = d ++ [(k, v)].
Proof.
  induction d as [|[k' v'] d IH]; simpl; [done|].
  intros Hk. apply not_elem_of_cons in Hk as [Hne Hk].
  destruct (String.eqb_spec k' k) as [->|_]; [done|]. by rewrite IH.
Qed.

Lemma add_tasks_distinct (tasks : list Task) : forall w,
  NoDup (map task_id tasks) ->
  (forall t, t ∈ tasks -> task_id t ∉ dict_keys (wf_tasks w)) ->
  wf_tasks (foldl add_task w tasks)
    = wf_tasks w ++ map (fun t => (task_id t, t)) tasks /\
  wf_task_order (foldl add_task w tasks)
    = wf_task_order w ++ map task_id tasks /\
  wf_goal (foldl add_task w tasks) = wf_goal w /\
  wf_description (foldl add_task w tasks) = wf_description w /\
  wf_id (foldl add_task w tasks) = wf_id w /\
  wf_created_at (foldl add_task w tasks) = wf_created_at w /\
  wf_metadata (foldl add_task w tasks) = wf_metadata w.
Proof.
  induction tasks as [|task tasks IH]; intros w Hnd Hfresh.
  { simpl. by rewrite !app_nil_r. }
  cbn [foldl map] in *. apply NoDup_cons in Hnd as [Hhead Hnd].
  destruct (IH (add_task w task) Hnd) as (-> & -> & -> & -> & -> & -> & ->).
  { intros t Ht. cbn [add_task wf_tasks set_wf_task_order set_wf_tasks].
    rewrite dict_set_fresh by (apply Hfresh; left).
    unfold dict_keys. rewrite map_app. cbn [map fst].
    intros [Hin|Hin]%elem_of_app.
    - eapply Hfresh; [by right|done].
    - apply list_elem_of_singleton in Hin. apply Hhead. rewrite <- Hin.
      by apply list_elem_of_fmap_2. }
  cbn [add_task wf_tasks wf_task_order set_wf_task_order set_wf_tasks
         wf_goal wf_description wf_id wf_created_at wf_metadata].
  rewrite dict_set_fresh by (apply Hfresh; left).
  by rewrite <- !app_assoc.
Qed.

Lemma task_labels_app (c a b : nat) :
  task_labels c (a + b) = task_labels c a ++ task_labels (a + c) b.
Proof.
  unfold task_labels. rewrite seq_app, map_app.
  by replace (S c + a) with (S (a + c)) by lia.
Qed.

Lemma task_labels_NoDup (c n : nat) : NoDup (task_labels c n).
Proof.
  unfold task_labels. apply NoDup_fmap_2; [|apply NoDup_seq].
  intros a b. apply task_label_inj.
Qed.

Section Issuing.

Variable E : Env.

Local Ltac template_issued :=
  intros st; split; [|simpl; lia];
  split; [reflexivity|]; split; [reflexivity|];
  repeat constructor.

Lemma _create_briefing_tasks_issued : makes (_create_briefing_tasks E) 4 4.
Proof. template_issued. Qed.

Lemma _create_analysis_tasks_issued : makes (_create_analysis_tasks E) 3 3.
Proof. template_issued. Qed.

Lemma _create_retrieval_tasks_issued : makes (_create_retrieval_tasks E) 3 3.
Proof. template_issued. Qed.

Lemma _create_generation_tasks_issued : makes (_create_generation_tasks E) 3 3.
Proof. template_issued. Qed.

Lemma _create_update_tasks_issued : makes (_create_update_tasks E) 3 3.
Proof. template_issued. Qed.

Lemma _create_default_tasks_issued goal : makes (_create_default_tasks E goal) 3 3.
Proof. template_issued. Qed.

Lemma issued_nil (st : Core) : issued st st [].
Proof. split; [by destruct st|]. split; [done|constructor]. Qed.

Lemma issued_app (st0 st1 st2 : Core) (tasks new : list Task) :
  issued st0 st1 tasks -> issued st1 st2 new -> issued st0 st2 (tasks ++ new).
Proof.
  intros (-> & Hids & Hall) (-> & Hids' & Hall').
  split; [|split].
  - rewrite length_app. cbn [_task_counter clock_reads set_task_counter set_clock_reads].
    unfold set_task_counter, set_clock_reads. cbn. f_equal; lia.
  - rewrite map_app, length_app, task_labels_app, Hids, Hids'. done.
  - by apply Forall_app.
Qed.

Lemma extend_if_issued (c : bool) (more : M (list Task)) (lo hi : nat)
    (tasks : list Task) (st0 st : Core) :
  makes more lo hi -> issued st0 st tasks ->
  issued st0 (fst (extend_if c more tasks st)) (snd (extend_if c more tasks st)) /\
  length (snd (extend_if c more tasks st))
    = length tasks + (if c then length (snd (more st)) else 0) /\
  lo <= length (snd (more st)) <= hi.
Proof.
  intros Hmore Htasks. destruct (Hmore st) as [Hnew Hlen].
  unfold extend_if, bind, ret. destruct c.
  - destruct (more st) as [st' new]. cbn [fst snd] in *.
    split; [by eapply issued_app|]. by rewrite length_app.
  - cbn [fst snd]. split; [done|]. split; lia.
Qed.

(** [_decompose_goal] makes between 3 and 16 new tasks. *)
Lemma _decompose_goal_issued goal description context st :
  issued st (fst (_decompose_goal E goal description context st))
    (snd (_decompose_goal E goal description context st)) /\
  3 <= length (snd (_decompose_goal E goal description context st)) <= 16.
Proof.
  unfold _decompose_goal.
  set (c1 := any_word_in _ _). set (c2 := any_word_in _ _).
  set (c3 := any_word_in _ _). set (c4 := any_word_in _ _).
  set (c5 := any_word_in _ _).
  unfold bind.
  destruct (extend_if_issued c1 _ _ _ [] st st _create_briefing_tasks_issued
              (issued_nil st)) as (H1 & L1 & B1).
  destruct (extend_if c1 _ [] st) as [st1 t1]. cbn [fst snd] in H1, L1.
  destruct (extend_if_issued c2 _ _ _ t1 st st1 _create_analysis_tasks_issued H1)
    as (H2 & L2 & B2).
  destruct (extend_if c2 _ t1 st1) as [st2 t2]. cbn [fst snd] in H2, L2.
  destruct (extend_if_issued c3 _ _ _ t2 st st2 _create_retrieval_tasks_issued H2)
    as (H3 & L3 & B3).
  destruct (extend_if c3 _ t2 st2) as [st3 t3]. cbn [fst snd] in H3, L3.
  destruct (extend_if_issued c4 _ _ _ t3 st st3 _create_generation_tasks_issued H3)
    as (H4 & L4 & B4).
  destruct (extend_if c4 _ t3 st3) as [st4 t4]. cbn [fst snd] in H4, L4.
  destruct (extend_if_issued c5 _ _ _ t4 st st4 _create_update_tasks_issued H4)
    as (H5 & L5 & B5).
  destruct (extend_if c5 _ t4 st4) as [st5 t5]. cbn [fst snd] in H5, L5.
  assert (Hlen : length t5 <= 16 /\ (length t5 = 0 \/ 3 <= length t5)).
  { cbn [length] in L1. destruct c1, c2, c3, c4, c5; lia. }
  destruct t5 as [|t t5].
  - cbv beta iota.
    destruct (_create_default_tasks_issued goal st5) as [Hd Ld].
    split; [|lia].
    pose proof (issued_app _ _ _ _ _ H5 Hd) as H. exact H.
  - cbv beta iota. unfold ret. cbn [fst snd]. split; [done|].
    cbn [length] in *. lia.
Qed.

End Issuing.

(** ** Dependencies between planned tasks *)

Lemma resolve_for_map (d : Dict Task) (p : Task) :
  resolve_for d p = map (fun kv => (fst kv, add_producer p (snd kv))) d.
Proof.
  unfold resolve_for, add_producer, feeds.
  destruct (dict_get (task_action p) action_sequences) as [acts|].
  - done.
  - induction d as [|[k t] d IH]; [done|]. simpl. by rewrite <- IH.
Qed.

Lemma resolve_fold (ps : list Task) : forall d : Dict Task,
  foldl resolve_for d ps
  = map (fun kv => (fst kv, foldl (fun o p => add_producer p o) (snd kv) ps)) d.
Proof.
  induction ps as [|p ps IH]; intros d; cbn [foldl].
  - induction d as [|[k t] d IHd]; [done|]. simpl. by rewrite <- IHd.
  - rewrite IH, resolve_for_map, map_map. done.
Qed.

Lemma add_producer_static (p o : Task) :
  task_id (add_producer p o) = task_id o /\
  task_action (add_producer p o) = task_action o.
Proof.
  unfold add_producer. destruct (feeds p o); [|done].
  by destruct (str_in _ _).
Qed.

Lemma feeds_static (p t t' : Task) :
  task_id t' = task_id t -> task_action t' = task_action t ->
  feeds p t' = feeds p t.
Proof. unfold feeds. by intros -> ->. Qed.

Lemma feeds_static_l (p p' t : Task) :
  task_id p' = task_id p -> task_action p' = task_action p ->
  feeds p' t = feeds p t.
Proof. unfold feeds. by intros -> ->. Qed.

Lemma str_in_elem (x : string) (xs : list string) :
  str_in x xs = true <-> x ∈ xs.
Proof.
  unfold str_in. rewrite existsb_exists. split.
  - intros (y & Hin & Heq). apply String.eqb_eq in Heq as ->.
    by apply list_elem_of_In.
  - intros Hin. exists x. split; [by apply list_elem_of_In|apply String.eqb_refl].
Qed.

Lemma set_task_dependencies_same (t : Task) :
  set_task_dependencies (task_dependencies t) t = t.
Proof. by destruct t. Qed.

(** The whole of [_resolve_dependencies] on one task, when the producing
    tasks have distinct ids that the task does not depend on yet. *)
Lemma add_producers (ps : list Task) : forall t,
  NoDup (map task_id ps) ->
  (forall p, p ∈ ps -> task_id p ∉ task_dependencies t) ->
  foldl (fun o p => add_producer p o) t ps = with_producers ps t.
Proof.
  induction ps as [|p ps IH]; intros t Hnd Hnew; cbn [foldl].
  { unfold with_producers. rewrite filter_nil. cbn [map].
    by rewrite app_nil_r, set_task_dependencies_same. }
  cbn [map] in Hnd. apply NoDup_cons in Hnd as [Hp Hnd].
  destruct (add_producer_static p t) as [Hid Hact].
  rewrite IH; [|done|].
  - unfold with_producers. rewrite filter_cons.
    assert (Hext : filter (fun q => feeds q (add_producer p t)) ps
                   = filter (fun q => feeds q t) ps).
    { apply list_filter_iff. intros q. by rewrite (feeds_static q t _ Hid Hact). }
    rewrite Hext. unfold add_producer.
    destruct (feeds p t) eqn:Hfeeds.
    + rewrite decide_True by done.
      destruct (str_in (task_id p) (task_dependencies t)) eqn:Hin.
      { apply str_in_elem in Hin. destruct (Hnew p); [left|done]. }
      cbn [map]. destruct t. cbn. by rewrite <- app_assoc.
    + rewrite decide_False by (by intros []). done.
  - intros q Hq. unfold add_producer. destruct (feeds p t); [|apply Hnew; by right].
    destruct (str_in _ _); [apply Hnew; by right|].
    destruct t. cbn. intros [Hin|Hin]%elem_of_app.
    + eapply (Hnew q); [by right|done].
    + apply list_elem_of_singleton in Hin. apply Hp. rewrite <- Hin.
      by apply list_elem_of_fmap_2.
Qed.

Lemma dict_values_filed (tasks : list Task) (f : Task -> Task) :
  dict_values (map (fun t => (task_id t, f t)) tasks) = map f tasks.
Proof. unfold dict_values. by rewrite map_map. Qed.

Lemma dict_keys_filed (tasks : list Task) (f : Task -> Task) :
  dict_keys (map (fun t => (task_id t, f t)) tasks) = map task_id tasks.
Proof. unfold dict_keys. by rewrite map_map. Qed.

(** [plan_workflow], step by step: the tasks that [_decompose_goal] makes
    are filed under their ids in the order in which they were made, each
    with the ids of the tasks that feed it as its dependencies; the workflow
    is appended to the heap and entered in the planner's map under its
    id. *)
Lemma plan_workflow_shape (E : Env) (goal description : string)
    (context : option (Dict PyVal)) (st : Core) :
  exists st' w tasks,
    plan_workflow E goal description context st = (st', length (heap st)) /\
    heap st' = heap st ++ [w] /\
    workflows st' = <[wf_id w := length (heap st)]> (workflows st) /\
    wf_id w = snd (_generate_workflow_id E st) /\
    wf_goal w = goal /\ wf_description w = description /\
    wf_created_at w = wall_clock E (S (clock_reads st)) /\
    wf_metadata w = [("initial_context", PyDict (default [] context))] /\
    issued (set_clock_reads (2 + clock_reads st) st)
      (set_task_counter (_task_counter st') (set_clock_reads (clock_reads st') st))
      tasks /\
    tasks = snd (_decompose_goal E goal description (default [] context)
                   (set_clock_reads (2 + clock_reads st) st)) /\
    3 <= length tasks <= 16 /\
    wf_tasks w = map (fun t => (task_id t, with_producers tasks t)) tasks /\
    wf_task_order w = map task_id tasks /\
    wf_estimated_total_duration w = total_duration tasks /\
    config st' = config st /\ executions st' = executions st /\
    _action_handlers st' = _action_handlers st /\
    critic_calls st' = critic_calls st /\
    summarizer_calls st' = summarizer_calls st /\
    dispatched st' = dispatched st.
Proof.
  unfold plan_workflow, bind, _generate_workflow_id, bind, now, store_workflow.
  cbn [clock_reads set_clock_reads fst snd].
  set (wid := "workflow_" +:+ _).
  set (st1 := set_clock_reads (S (S (clock_reads st))) st).
  change (set_clock_reads _ (set_clock_reads _ st)) with st1.
  destruct (_decompose_goal_issued E goal description (default [] context) st1)
    as [(Hst2 & Hids & Hnew) Hlen].
  change (set_clock_reads (2 + clock_reads st) st) with st1.
  destruct (_decompose_goal E goal description (default [] context) st1)
    as [st2 tasks].
  cbn [fst snd] in Hst2, Hids, Hnew, Hlen. cbn [snd].
  set (w0 := mkWorkflow wid goal description [] [] "planning" _ None None 0 None _).
  assert (Hnd : NoDup (map task_id tasks)).
  { rewrite Hids. apply task_labels_NoDup. }
  destruct (add_tasks_distinct tasks w0 Hnd)
    as (Htasks & Horder & Hgoal & Hdesc & Hid & Hcreated & Hmeta).
  { intros t _ Hin. by apply elem_of_nil in Hin. }
  cbn [wf_tasks wf_task_order app w0] in Htasks, Horder.
  assert (Hres : wf_tasks (_resolve_dependencies (foldl add_task w0 tasks))
                 = map (fun t => (task_id t, with_producers tasks t)) tasks).
  { unfold _resolve_dependencies. cbn [wf_tasks set_wf_tasks].
    rewrite Htasks, dict_values_filed, map_id, resolve_fold, map_map.
    apply map_ext_in. intros t Ht. cbn [fst snd]. f_equal.
    apply add_producers; [done|].
    intros p _. rewrite Forall_forall in Hnew.
    destruct (Hnew t) as [-> _]; [by apply list_elem_of_In|apply not_elem_of_nil]. }
  assert (Hheap : heap st2 = heap st) by (by subst st2).
  assert (Hwfs : workflows st2 = workflows st) by (by subst st2).
  rewrite Hheap, Hwfs.
  set (w1 := foldl add_task w0 tasks) in *.
  set (w2 := set_wf_status "ready"
               (set_wf_estimated_total_duration
                  (_calculate_duration (_resolve_dependencies w1))
                  (_resolve_dependencies w1))).
  assert (Hw2 : wf_id w2 = wf_id w1 /\ wf_goal w2 = wf_goal w1 /\
                wf_description w2 = wf_description w1 /\
                wf_created_at w2 = wf_created_at w1 /\
                wf_metadata w2 = wf_metadata w1 /\
                wf_tasks w2 = wf_tasks (_resolve_dependencies w1) /\
                wf_task_order w2 = wf_task_order w1 /\
                wf_estimated_total_duration w2
                  = _calculate_duration (_resolve_dependencies w1)) by done.
  destruct Hw2 as (Hid2 & Hgoal2 & Hdesc2 & Hcreated2 & Hmeta2 & Htasks2
                   & Horder2 & Hdur2).
  eexists _, w2, tasks. split; [reflexivity|].
  rewrite Hid2, Hgoal2, Hdesc2, Hcreated2, Hmeta2, Htasks2, Horder2, Hdur2.
  rewrite Hgoal, Hdesc, Hid, Hcreated, Hmeta, Horder, Hres.
  subst st2. cbn [heap workflows config executions _action_handlers
                    critic_calls summarizer_calls dispatched _task_counter
                    clock_reads set_task_counter set_clock_reads
                    set_workflows set_heap st1].
  repeat split; try done; try lia.
  unfold _calculate_duration. rewrite Hres, dict_values_filed.
  unfold total_duration. rewrite map_map.
  destruct tasks; [simpl in Hlen; lia|]. done.
Qed.

Lemma with_producers_static (tasks : list Task) (t : Task) :
  task_id (with_producers tasks t) = task_id t /\
  task_action (with_producers tasks t) = task_action t /\
  task_status (with_producers tasks t) = task_status t /\
  task_priority (with_producers tasks t) = task_priority t /\
  (fresh_task t -> fresh_task (with_producers tasks t)).
Proof. done. Qed.

Lemma producers_of_filed (f : Task -> Task) (t t' : Task) (tasks : list Task) :
  (forall p, task_id (f p) = task_id p /\ task_action (f p) = task_action p) ->
  task_id t' = task_id t -> task_action t' = task_action t ->
  map task_id (filter (fun p => feeds p t') (map f tasks))
  = map task_id (filter (fun p => feeds p t) tasks).
Proof.
  intros Hf Hid Hact. induction tasks as [|p tasks IH]; [done|].
  cbn [map]. rewrite !filter_cons.
  destruct (Hf p) as [Hpid Hpact].
  rewrite (feeds_static (f p) t t' Hid Hact), (feeds_static_l p (f p) t Hpid Hpact).
  destruct (decide (feeds p t)); cbn [map]; by rewrite IH, ?Hpid.
Qed.

(** What [plan_workflow_shape] says about the new workflow alone. *)
Lemma filed_with_producers (w : Workflow) (tasks : list Task) :
  wf_tasks w = map (fun t => (task_id t, with_producers tasks t)) tasks ->
  NoDup (map task_id tasks) ->
  Forall (fun t => task_dependencies t = [] /\ fresh_task t) tasks ->
  well_keyed w /\
  forall k t, (k, t) ∈ wf_tasks w ->
    fresh_task t /\
    task_dependencies t
    = map task_id (filter (fun p => feeds p t) (dict_values (wf_tasks w))).
Proof.
  intros Htasks Hnd Hnew. split; [split|].
  - by rewrite Htasks, dict_keys_filed.
  - rewrite Htasks. intros k t ([k0 t0] & [= -> ->] & Hin)%list_elem_of_fmap.
    done.
  - rewrite Htasks, dict_values_filed.
    intros k t' (t & [= -> ->] & Hin)%list_elem_of_fmap.
    rewrite Forall_forall in Hnew. destruct (Hnew t Hin) as [Hdeps Hfresh].
    split; [done|].
    rewrite (producers_of_filed (with_producers tasks) t); [|done..].
    unfold with_producers at 1. cbn [task_dependencies set_task_dependencies].
    by rewrite Hdeps.
Qed.

(** X3. A call of [plan_workflow], for any goal and in any state of the
    planner, makes a workflow of 3 to 16 tasks. Their ids are the next
    labels [task_{c+1}], ..., [task_{c+n}] after the task counter [c], which
    ends at [c+n]; each task is filed under its id, [task_order] lists the
    ids in the same order, every task is new (PENDING, nothing stamped),
    and the estimated total duration is the sum of the tasks' estimates. *)
Theorem plan_workflow_tasks (E : Env) (goal description : string)
    (context : option (Dict PyVal)) (st : Core) :
  exists st' w n,
    plan_workflow E goal description context st = (st', length (heap st)) /\
    heap st' !! length (heap st) = Some w /\
    length (wf_tasks w) = n /\ 3 <= n <= 16 /\
    dict_keys (wf_tasks w) = task_labels (_task_counter st) n /\
    wf_task_order w = dict_keys (wf_tasks w) /\
    well_keyed w /\
    (forall k t, (k, t) ∈ wf_tasks w -> fresh_task t) /\
    _task_counter st' = n + _task_counter st /\
    wf_estimated_total_duration w = total_duration (dict_values (wf_tasks w)).
Proof.
  destruct (plan_workflow_shape E goal description context st)
    as (st' & w & tasks & Hplan & Hheap & _ & _ & _ & _ & _ & _ & Hissued & _ & Hlen
        & Htasks & Horder & Hdur & _).
  destruct Hissued as (Hst' & Hids & Hnew).
  cbn [_task_counter set_clock_reads] in Hids.
  assert (Hnd : NoDup (map task_id tasks)).
  { rewrite Hids. apply task_labels_NoDup. }
  destruct (filed_with_producers w tasks Htasks Hnd Hnew) as [Hkeyed Hall].
  exists st', w, (length tasks). split; [done|].
  split; [rewrite Hheap; by apply list_lookup_middle|].
  split; [by rewrite Htasks, length_map|].
  split; [done|].
  split; [by rewrite Htasks, dict_keys_filed|].
  split; [by rewrite Htasks, dict_keys_filed|].
  split; [done|].
  split; [intros k t Hin; by apply (Hall k t)|].
  split.
  - apply (f_equal _task_counter) in Hst'.
    cbn [_task_counter set_task_counter set_clock_reads] in Hst'. done.
  - rewrite Hdur, Htasks, dict_values_filed. unfold total_duration.
    by rewrite map_map.
Qed.

(** X4. In the workflow that [plan_workflow] makes, the dependencies of a task
    are exactly the ids of the tasks of the workflow that feed it, in the
    order of the workflow: the tasks [p] other than the task itself whose
    action has an entry in [action_sequences] listing the task's action.
    So every dependency names a task of the workflow, no task depends on
    itself, and no id is listed twice. *)
Theorem plan_workflow_dependencies (E : Env) (goal description : string)
    (context : option (Dict PyVal)) (st : Core) :
  exists st' w,
    plan_workflow E goal description context st = (st', length (heap st)) /\
    heap st' !! length (heap st) = Some w /\
    (forall k t, (k, t) ∈ wf_tasks w ->
       task_dependencies t
       = map task_id (filter (fun p => feeds p t) (dict_values (wf_tasks w))) /\
       NoDup (task_dependencies t) /\
       k ∉ task_dependencies t) /\
    deps_closed w.
Proof.
  destruct (plan_workflow_shape E goal description context st)
    as (st' & w & tasks & Hplan & Hheap & _ & _ & _ & _ & _ & _ & Hissued & _ & Hlen
        & Htasks & Horder & Hdur & _).
  destruct Hissued as (Hst' & Hids & Hnew).
  cbn [_task_counter set_clock_reads] in Hids.
  assert (Hnd : NoDup (map task_id tasks)).
  { rewrite Hids. apply task_labels_NoDup. }
  destruct (filed_with_producers w tasks Htasks Hnd Hnew) as [[Hkeys Hown] Hall].
  assert (Hvals : map task_id (dict_values (wf_tasks w)) = dict_keys (wf_tasks w)).
  { rewrite Htasks, dict_values_filed, dict_keys_filed, map_map. done. }
  assert (Hsub : forall t,
            sublist (map task_id (filter (fun p => feeds p t) (dict_values (wf_tasks w))))
              (dict_keys (wf_tasks w))).
  { intros t. rewrite <- Hvals. apply fmap_sublist, sublist_filter. }
  exists st', w. split; [done|].
  split; [rewrite Hheap; by apply list_lookup_middle|].
  split.
  - intros k t Hin. destruct (Hall k t Hin) as [_ Hdeps].
    split; [done|]. rewrite Hdeps. split.
    + eapply sublist_NoDup; [exact Hkeys|apply Hsub].
    + intros (p & Hid & Hp)%list_elem_of_fmap.
      apply list_elem_of_filter in Hp as [Hfeeds _].
      unfold feeds in Hfeeds.
      destruct (dict_get _ action_sequences); [|done].
      apply Is_true_true, andb_true_iff in Hfeeds as [_ Hne].
      rewrite (Hown k t Hin), <- Hid, String.eqb_refl in Hne. done.
  - intros k t dep_id Hin Hdep.
    destruct (Hall k t Hin) as [_ Hdeps]. rewrite Hdeps in Hdep.
    assert (Hkey : dep_id ∈ dict_keys (wf_tasks w)).
    { eapply elem_of_sublist; [exact Hdep|apply Hsub]. }
    apply list_elem_of_fmap in Hkey as ([k0 t0] & -> & Hin0).
    clear -Hin0. induction (wf_tasks w) as [|[k' t'] d IH]; [by apply elem_of_nil in Hin0|].
    simpl. destruct (String.eqb_spec k' k0) as [_|Hne]; [done|].
    apply IH. apply elem_of_cons in Hin0 as [[= -> ->]|H]; done.
Qed.

(** ** One task of a workflow that the planner holds *)

Lemma same_setup_refl (st : Core) : same_setup st st.
Proof. done. Qed.

Lemma same_setup_trans (st1 st2 st3 : Core) :
  same_setup st1 st2 -> same_setup st2 st3 -> same_setup st1 st3.
Proof.
  intros (?&?&?&?&?) (?&?&?&?&?). repeat split; congruence.
Qed.

Lemma same_tally_refl (r : ExecutionResult) : same_tally r r.
Proof. done. Qed.

Lemma same_tally_trans (r1 r2 r3 : ExecutionResult) :
  same_tally r1 r2 -> same_tally r2 r3 -> same_tally r1 r3.
Proof.
  intros (?&?&?&?&?) (?&?&?&?&?). repeat split; congruence.
Qed.

Lemma same_static_refl (t : Task) : same_static t t.
Proof. done. Qed.

Lemma same_static_trans (t1 t2 t3 : Task) :
  same_static t1 t2 -> same_static t2 t3 -> same_static t1 t3.
Proof.
  intros (?&?&?&?&?&?&?&?&?&?) (?&?&?&?&?&?&?&?&?&?). repeat split; congruence.
Qed.

Lemma stamp_status_static s r e ts (t : Task) :
  same_static t (stamp_status s r e ts t).
Proof. by destruct s. Qed.

Lemma dict_modify_const {V} (k : string) (f : V -> V) (v : V) (d : Dict V) :
  dict_get k d = Some v -> dict_modify k f d = dict_modify k (fun _ => f v) d.
Proof.
  induction d as [|[k' v'] d IH]; simpl; [done|].
  destruct (String.eqb k' k).
  - by intros [= ->].
  - intros H. by rewrite IH.
Qed.

Lemma dict_modify_twice {V} (k : string) (v1 v2 : V) (d : Dict V) :
  dict_modify k (fun _ => v2) (dict_modify k (fun _ => v1) d)
  = dict_modify k (fun _ => v2) d.
Proof.
  induction d as [|[k' v'] d IH]; simpl; [done|].
  destruct (String.eqb k' k) eqn:Hk; simpl; rewrite Hk; [done|by rewrite IH].
Qed.

Lemma dict_get_modify_const {V} (k : string) (v v0 : V) (d : Dict V) :
  dict_get k d = Some v0 -> dict_get k (dict_modify k (fun _ => v) d) = Some v.
Proof. intros H. by rewrite dict_get_modify_eq, H. Qed.

(** A status update of a task of a registered workflow. *)
Lemma update_registered (E : Env) (st : Core) (l : loc) (w : Workflow)
    (tid : string) (t0 : Task) s r e :
  registered st l w ->
  dict_get tid (wf_tasks w) = Some t0 ->
  let t' := stamp_status s r e (wall_clock E (clock_reads st)) t0 in
  let w' := set_wf_tasks (dict_modify tid (fun _ => t') (wf_tasks w)) w in
  let st' := fst (update_task_status E (wf_id w) tid s r e st) in
  heap st' = <[l := w']> (heap st) /\
  registered st' l w' /\
  dict_get tid (wf_tasks w') = Some t' /\
  same_setup st st' /\
  dispatched st' = dispatched st /\
  critic_calls st' = critic_calls st /\
  summarizer_calls st' = summarizer_calls st.
Proof.
  intros [Hl Hreg] Hget t' w' st'.
  subst st'. rewrite (update_task_status_stored E st l w tid t0) by done.
  cbn [fst]. unfold modify_task.
  rewrite (dict_modify_const tid _ t0) by done. fold t'. fold w'.
  assert (Hlen : l < length (heap st)) by (by eapply lookup_lt_Some).
  destruct (reads_clock s); cbn.
  all: repeat split; try done.
  all: try (by apply list_lookup_insert_eq).
  all: by eapply dict_get_modify_const.
Qed.

Section OneTask.

Variable E : Env.

Lemma review_output_frame task output st result :
  let '(st', result', raised) := review_output E task output st result in
  heap st' = heap st /\ same_setup st st' /\ dispatched st' = dispatched st /\
  same_tally result result' /\ er_errors result' = er_errors result /\
  (collaborators_return E -> raised = None).
Proof.
  unfold review_output.
  destruct (enable_criticism (config st) && truthy output); [|done].
  destruct (critic_review E _ _ _ _) as [review|e] eqn:Hrev; [done|].
  repeat split. intros [Hcritic _].
  destruct (Hcritic (critic_calls st) output (task_action task) (task_name task))
    as [review Hreview]. congruence.
Qed.

Lemma summarize_output_frame task output st result :
  let '(st', result', raised) := summarize_output E task output st result in
  heap st' = heap st /\ same_setup st st' /\ dispatched st' = dispatched st /\
  same_tally result result' /\ er_errors result' = er_errors result /\
  (collaborators_return E ->
   (truthy output = true -> exists n, py_len output = Returned n) ->
   raised = None).
Proof.
  unfold summarize_output.
  destruct (enable_summarization (config st)); [|done]. cbn [andb].
  destruct (truthy output) eqn:Htruthy; [|done].
  destruct (py_len output) as [n|e] eqn:Hlen.
  - destruct (200 <? n)%nat; [|done].
    destruct (summarizer_summarize E _ _) as [summary|e] eqn:Hsum; [done|].
    repeat split. intros [_ Hsummarizer] _.
    destruct (Hsummarizer (summarizer_calls st) output) as [summary Hsummary].
    congruence.
  - repeat split. intros _ Hmeasure. destruct Hmeasure as [n Hn]; [done|].
    congruence.
Qed.

(** [_execute_task] on a task of a registered workflow: the task filed
    under the id is replaced by its settled form, and nothing else in the
    workflow changes. *)
Lemma _execute_task_registered st l w task t0 result :
  registered st l w ->
  dict_get (task_id task) (wf_tasks w) = Some t0 ->
  exists st' result' success t',
    _execute_task E st l task result = Some (st', result', success) /\
    heap st'
    = <[l := set_wf_tasks (dict_modify (task_id task) (fun _ => t') (wf_tasks w)) w]>
        (heap st) /\
    settled success t0 t' /\
    same_setup st st' /\
    dispatched st' = task_id task :: dispatched st /\
    same_tally result result' /\
    length (er_errors result')
      = length (er_errors result) + (if success then 0 else 1) /\
    (collaborators_return E ->
     (exists r, handler_for st (task_action task) (task_parameters task) = Returned r /\
                measurable_output r) ->
     success = true).
Proof.
  intros Hreg Hget. pose proof Hreg as [Hl Hwid].
  unfold _execute_task. rewrite Hl. cbn [mbind option_bind].
  set (st0 := set_dispatched (task_id task :: dispatched st) st).
  assert (Hreg0 : registered st0 l w) by done.
  destruct (update_registered E st0 l w (task_id task) t0 IN_PROGRESS None None
              Hreg0 Hget) as (Hheap1 & Hreg1 & Hget1 & Hsetup1 & Hdisp1 & _).
  set (t1 := stamp_status IN_PROGRESS None None (wall_clock E (clock_reads st0)) t0) in *.
  set (w1 := set_wf_tasks (dict_modify (task_id task) (fun _ => t1) (wf_tasks w)) w) in *.
  set (st1 := fst (update_task_status E (wf_id w) (task_id task) IN_PROGRESS None None st0)) in *.
  assert (Hlen : l < length (heap st)) by (by eapply lookup_lt_Some).
  unfold try_task.
  change (default _default_handler (_action_handlers st1 !! task_action task))
    with (handler_for st1 (task_action task)).
  assert (Hhandler : handler_for st1 (task_action task) = handler_for st (task_action task)).
  { unfold handler_for. destruct Hsetup1 as (_ & _ & _ & _ & ->). done. }
  rewrite Hhandler.
  destruct (handler_for st (task_action task) (task_parameters task))
    as [task_result|e] eqn:Hrun.
  - (* the handler returns *)
    change (wf_id w) with (wf_id w1).
    destruct (update_registered E st1 l w1 (task_id task) t1 COMPLETED
                (Some task_result) None Hreg1 Hget1)
      as (Hheap2 & Hreg2 & Hget2 & Hsetup2 & Hdisp2 & _).
    set (t2 := stamp_status COMPLETED (Some task_result) None
                 (wall_clock E (clock_reads st1)) t1) in *.
    set (w2 := set_wf_tasks (dict_modify (task_id task) (fun _ => t2) (wf_tasks w1)) w1) in *.
    set (st2 := fst (update_task_status E (wf_id w1) (task_id task) COMPLETED
                       (Some task_result) None st1)) in *.
    assert (Hw2 : w2 = set_wf_tasks (dict_modify (task_id task) (fun _ => t2) (wf_tasks w)) w).
    { subst w2 w1. cbn [wf_tasks set_wf_tasks]. unfold set_wf_tasks. cbn.
      by rewrite dict_modify_twice. }
    assert (Hheap02 : heap st2 = <[l := w2]> (heap st)).
    { rewrite Hheap2, Hheap1. by rewrite list_insert_insert_eq. }
    set (result1 := set_er_results _ result).
    set (output := default PyNone (dict_get "output" task_result)).
    pose proof (review_output_frame task output st2 result1) as Hrev.
    destruct (review_output E task output st2 result1) as [[st3 result3] raised3].
    destruct Hrev as (Hheap3 & Hsetup3 & Hdisp3 & Htally3 & Herr3 & Hclean3).
    assert (Hreg3 : registered st3 l w2).
    { destruct Hreg2 as [Hl2 Hwid2]. split; [by rewrite Hheap3|].
      destruct Hsetup3 as (-> & _). done. }
    assert (Hsetup03 : same_setup st st3).
    { eapply same_setup_trans; [|exact Hsetup3].
      eapply same_setup_trans; [|exact Hsetup2]. exact Hsetup1. }
    assert (Ht1 : same_static t0 t1) by apply stamp_status_static.
    assert (Ht2 : same_static t0 t2).
    { eapply same_static_trans; [exact Ht1|apply stamp_status_static]. }
    destruct raised3 as [e|].
    + (* the critic raises *)
      set (msg := "Task " +:+ task_id task +:+ " failed: " +:+ exn_str e).
      change (wf_id w) with (wf_id w2).
      destruct (update_registered E st3 l w2 (task_id task) t2 FAILED None
                  (Some msg) Hreg3 Hget2)
        as (Hheap4 & Hreg4 & Hget4 & Hsetup4 & Hdisp4 & _).
      set (t4 := stamp_status FAILED None (Some msg) (wall_clock E (clock_reads st3)) t2) in *.
      eexists _, _, false, t4. split; [reflexivity|].
      split.
      { etrans; [exact Hheap4|]. rewrite Hheap3, Hheap02, Hw2. cbn [wf_tasks set_wf_tasks].
        rewrite list_insert_insert_eq. unfold set_wf_tasks. cbn.
        by rewrite dict_modify_twice. }
      split.
      { split; [done|]. split; [|done].
        eapply same_static_trans; [exact Ht2|apply stamp_status_static]. }
      split; [by eapply same_setup_trans|].
      split; [etrans; [exact Hdisp4|]; by rewrite Hdisp3, Hdisp2, Hdisp1|].
      split; [exact Htally3|].
      split.
      { cbn [er_errors set_er_errors]. rewrite length_app, Herr3. done. }
      intros Hcollab _. by specialize (Hclean3 Hcollab).
    + (* the critic is content *)
      pose proof (summarize_output_frame task output st3 result3) as Hsum.
      destruct (summarize_output E task output st3 result3)
        as [[st5 result5] raised5].
      destruct Hsum as (Hheap5 & Hsetup5 & Hdisp5 & Htally5 & Herr5 & Hclean5).
      assert (Hreg5 : registered st5 l w2).
      { destruct Hreg3 as [Hl3 Hwid3]. split; [by rewrite Hheap5|].
        destruct Hsetup5 as (-> & _). done. }
      destruct raised5 as [e|].
      * set (msg := "Task " +:+ task_id task +:+ " failed: " +:+ exn_str e).
        change (wf_id w) with (wf_id w2).
        destruct (update_registered E st5 l w2 (task_id task) t2 FAILED None
                    (Some msg) Hreg5 Hget2)
          as (Hheap6 & Hreg6 & Hget6 & Hsetup6 & Hdisp6 & _).
        set (t6 := stamp_status FAILED None (Some msg) (wall_clock E (clock_reads st5)) t2) in *.
        eexists _, _, false, t6. split; [reflexivity|].
        split.
        { etrans; [exact Hheap6|]. rewrite Hheap5, Hheap3, Hheap02, Hw2. cbn [wf_tasks set_wf_tasks].
          rewrite list_insert_insert_eq. unfold set_wf_tasks. cbn.
          by rewrite dict_modify_twice. }
        split.
        { split; [done|]. split; [|done].
          eapply same_static_trans; [exact Ht2|apply stamp_status_static]. }
        split; [eapply same_setup_trans; [|exact Hsetup6];
                by eapply same_setup_trans|].
        split; [etrans; [exact Hdisp6|]; by rewrite Hdisp5, Hdisp3, Hdisp2, Hdisp1|].
        split; [by eapply same_tally_trans|].
        split.
        { cbn [er_errors set_er_errors]. rewrite length_app, Herr5, Herr3. done. }
        intros Hcollab (r & Hr & Hmeasure).
        assert (r = task_result) as -> by congruence.
        by specialize (Hclean5 Hcollab Hmeasure).
      * eexists _, _, true, t2. split; [reflexivity|].
        split; [by rewrite Hheap5, Hheap3, Hheap02, Hw2|].
        split; [done|].
        split; [by eapply same_setup_trans|].
        split; [by rewrite Hdisp5, Hdisp3, Hdisp2, Hdisp1|].
        split; [by eapply same_tally_trans|].
        split; [|done].
        rewrite Herr5, Herr3. cbn. lia.
  - (* the handler raises *)
    set (msg := "Task " +:+ task_id task +:+ " failed: " +:+ exn_str e).
    change (wf_id w) with (wf_id w1).
    destruct (update_registered E st1 l w1 (task_id task) t1 FAILED None
                (Some msg) Hreg1 Hget1)
      as (Hheap2 & Hreg2 & Hget2 & Hsetup2 & Hdisp2 & _).
    set (t2 := stamp_status FAILED None (Some msg) (wall_clock E (clock_reads st1)) t1) in *.
    eexists _, _, false, t2. split; [reflexivity|].
    split.
    { etrans; [exact Hheap2|]. rewrite Hheap1. rewrite list_insert_insert_eq.
      subst w1. unfold set_wf_tasks. cbn. by rewrite dict_modify_twice. }
    split.
    { split; [done|]. split; [|done].
      eapply same_static_trans; apply stamp_status_static. }
    split; [by eapply same_setup_trans|].
    split; [etrans; [exact Hdisp2|]; by rewrite Hdisp1|].
    split; [done|].
    split.
    { cbn [er_errors set_er_errors]. by rewrite length_app. }
    intros _ (r & Hr & _). congruence.
Qed.

End OneTask.

(** ** Task maps with one task per key *)

Lemma dict_get_key {V} (k : string) (d : Dict V) :
  k ∈ dict_keys d <-> dict_get k d <> None.
Proof.
  induction d as [|[k' v'] d IH]; simpl.
  - split; [by intros H%elem_of_nil|done].
  - destruct (String.eqb_spec k' k) as [->|Hne].
    + split; [done|]. intros _. left.
    + rewrite <- IH. split; [|by right].
      intros [->|H]%elem_of_cons; done.
Qed.

Lemma dict_get_NoDup {V} (k : string) (v : V) (d : Dict V) :
  NoDup (dict_keys d) -> (k, v) ∈ d -> dict_get k d = Some v.
Proof.
  induction d as [|[k' v'] d IH]; simpl; [by intros _ H%elem_of_nil|].
  intros [Hk Hnd]%NoDup_cons [[= -> ->]|Hin]%elem_of_cons.
  - by rewrite String.eqb_refl.
  - destruct (String.eqb_spec k' k) as [->|_]; [|by apply IH].
    destruct Hk. unfold dict_keys.
    by apply (list_elem_of_fmap_2 fst _ (k, v)).
Qed.

Lemma well_keyed_get (w : Workflow) (t : Task) :
  well_keyed w -> t ∈ dict_values (wf_tasks w) ->
  dict_get (task_id t) (wf_tasks w) = Some t.
Proof.
  intros [Hnd Hown] [k Hin]%elem_of_dict_values.
  apply dict_get_NoDup; [done|]. by rewrite (Hown k t Hin).
Qed.

Lemma well_keyed_ids (w : Workflow) :
  well_keyed w -> map task_id (dict_values (wf_tasks w)) = dict_keys (wf_tasks w).
Proof.
  intros [_ Hown]. unfold dict_values, dict_keys. rewrite map_map.
  apply map_ext_in. intros [k t] Hin%list_elem_of_In. by apply (Hown k t).
Qed.

(** ** Counting by status *)

Lemma count_in_modify (s : TaskStatus) (k : string) (t t' : Task) (d : Dict Task) :
  dict_get k d = Some t ->
  count_in s (dict_modify k (fun _ => t') d)
    + (if decide (task_status t = s) then 1 else 0)
  = count_in s d + (if decide (task_status t' = s) then 1 else 0).
Proof.
  unfold count_in, dict_values.
  induction d as [|[k' v'] d IH]; simpl; [done|].
  destruct (String.eqb k' k).
  - intros [= ->]. cbn [map snd]. rewrite !filter_cons.
    repeat case_decide; simpl; lia.
  - intros H. specialize (IH H). cbn [map snd]. rewrite !filter_cons.
    repeat case_decide; simpl in *; lia.
Qed.

(** ** Readiness in a workflow whose dependencies are closed *)

Lemma get_ready_tasks_closed (w : Workflow) :
  deps_closed w ->
  get_ready_tasks w
  = Returned (sorted (fun t => priority_order (task_priority t))
                (filter (fun t => ready_by_spec (wf_tasks w) t)
                   (dict_values (wf_tasks w)))).
Proof.
  intros Hclosed. unfold get_ready_tasks. rewrite collect_ready_closed; [done|].
  intros t d [k Hk]%elem_of_dict_values Hd. by apply (Hclosed k t d).
Qed.

Lemma elem_of_ready (w : Workflow) (ready : list Task) (t : Task) :
  deps_closed w -> get_ready_tasks w = Returned ready ->
  t ∈ ready <-> t ∈ dict_values (wf_tasks w) /\ ready_by_spec (wf_tasks w) t = true.
Proof.
  intros Hclosed. rewrite get_ready_tasks_closed by done. intros [= <-].
  rewrite sorted_perm, list_elem_of_filter, Is_true_true. tauto.
Qed.

Lemma ready_NoDup (w : Workflow) (ready : list Task) :
  well_keyed w -> deps_closed w -> get_ready_tasks w = Returned ready ->
  NoDup (map task_id ready).
Proof.
  intros Hkeyed Hclosed. rewrite get_ready_tasks_closed by done. intros [= <-].
  rewrite sorted_perm.
  eapply sublist_NoDup; [|apply fmap_sublist, sublist_filter].
  rewrite well_keyed_ids by done. by destruct Hkeyed.
Qed.

Lemma ready_by_spec_status (d : Dict Task) (t : Task) :
  ready_by_spec d t = true ->
  (task_status t = PENDING \/ task_status t = READY) /\
  forall dep_id, dep_id ∈ task_dependencies t -> dep_completed d dep_id = true.
Proof.
  unfold ready_by_spec. intros [Hs Hdeps]%andb_true_iff. split.
  - apply orb_true_iff in Hs as [H|H]; apply bool_decide_eq_true in H; tauto.
  - rewrite forallb_forall in Hdeps. intros dep_id Hin.
    apply Hdeps. by apply list_elem_of_In.
Qed.

Lemma ready_by_spec_intro (d : Dict Task) (t : Task) :
  (task_status t = PENDING \/ task_status t = READY) ->
  (forall dep_id, dep_id ∈ task_dependencies t -> dep_completed d dep_id = true) ->
  ready_by_spec d t = true.
Proof.
  intros Hs Hdeps. unfold ready_by_spec. apply andb_true_iff. split.
  - apply orb_true_iff. destruct Hs as [H|H]; [left|right];
      by apply bool_decide_eq_true.
  - apply forallb_forall. intros dep_id Hin. apply Hdeps.
    by apply list_elem_of_In.
Qed.

Lemma dep_completed_modify (d : Dict Task) (k dep_id : string) (t t' : Task) :
  dict_get k d = Some t -> task_status t <> COMPLETED ->
  dep_completed d dep_id = true ->
  dep_completed (dict_modify k (fun _ => t') d) dep_id = true.
Proof.
  intros Hget Hs. unfold dep_completed.
  destruct (decide (k = dep_id)) as [<-|Hne].
  - rewrite Hget. intros H%bool_decide_eq_true. done.
  - by rewrite dict_get_modify_ne.
Qed.

(** ** The run of a workflow that the planner holds *)

Lemma elem_of_add (k tid : string) (X : gset string) :
  k ∈ {[tid]} ∪ X <-> k = tid \/ k ∈ X.
Proof. set_solver. Qed.

Lemma size_add (tid : string) (X : gset string) :
  tid ∉ X -> size ({[tid]} ∪ X) = S (size X).
Proof.
  intros Hnew. rewrite size_union by set_solver. by rewrite size_singleton.
Qed.

Section Run.

Variable E : Env.
Variable clean : Prop.
Variable st0 : Core.
Variable l : loc.
Variable w0 : Workflow.
Variable result0 : ExecutionResult.
Hypothesis Hreg0 : registered st0 l w0.
Hypothesis Hkeyed0 : well_keyed w0.
Hypothesis Hclosed0 : deps_closed w0.
Hypothesis Hclean :
  clean -> collaborators_return E /\ handlers_return st0 w0.

Lemma run_state_start : run_state clean st0 l w0 result0 st0 result0 ∅ [].
Proof.
  destruct Hreg0 as [Hl _].
  exists (wf_tasks w0). split.
  { rewrite list_insert_id; [done|]. rewrite Hl. by destruct w0. }
  split; [done|]. split; [done|]. split; [constructor|]. split; [done|].
  split.
  { split; [done|]. split; [by intros k Hk%elem_of_empty|].
    intros k t0 Hget. exists t0. split; [done|]. split; [done|].
    split; [done|]. by intros Hk%elem_of_empty. }
  repeat split; try done; lia.
Qed.

Lemma run_rel_lookup executed d k t :
  run_rel clean executed (wf_tasks w0) d ->
  dict_get k d = Some t ->
  exists t0, dict_get k (wf_tasks w0) = Some t0 /\ same_static t0 t /\
    (k ∉ executed -> t = t0) /\
    (k ∈ executed -> task_status t = COMPLETED \/ task_status t = FAILED).
Proof.
  intros (Hkeys & _ & Hrel) Hget.
  assert (Hk : k ∈ dict_keys (wf_tasks w0)).
  { rewrite <- Hkeys. apply dict_get_key. congruence. }
  apply dict_get_key in Hk.
  destruct (dict_get k (wf_tasks w0)) as [t0|] eqn:Hget0; [|done].
  destruct (Hrel k t0 Hget0) as (t1 & Hget1 & Hstatic & Hout & Hin).
  assert (t1 = t) as -> by congruence.
  exists t0. split; [done|]. split; [done|]. split; [done|].
  intros Hex. destruct (Hin Hex) as (_ & [success (Hs & _)] & _).
  rewrite Hs. destruct success; tauto.
Qed.

Lemma run_rel_well_keyed executed d :
  run_rel clean executed (wf_tasks w0) d -> well_keyed (set_wf_tasks d w0).
Proof.
  intros Hrel. pose proof Hrel as (Hkeys & _ & _).
  destruct Hkeyed0 as [Hnd Hown].
  assert (Hnd' : NoDup (dict_keys d)) by (by rewrite Hkeys).
  split; [done|]. cbn [wf_tasks set_wf_tasks]. intros k t Hin.
  apply dict_get_NoDup in Hin; [|done].
  destruct (run_rel_lookup executed d k t Hrel Hin) as (t0 & Hget0 & Hstatic & _).
  destruct Hstatic as (-> & _). apply (Hown k t0). by apply dict_get_Some_elem.
Qed.

Lemma run_rel_deps_closed executed d :
  run_rel clean executed (wf_tasks w0) d -> deps_closed (set_wf_tasks d w0).
Proof.
  intros Hrel. pose proof Hrel as (Hkeys & _ & _).
  destruct Hkeyed0 as [Hnd Hown].
  assert (Hnd' : NoDup (dict_keys d)) by (by rewrite Hkeys).
  unfold deps_closed. cbn [wf_tasks set_wf_tasks]. intros k t dep_id Hin Hdep.
  apply dict_get_NoDup in Hin; [|done].
  destruct (run_rel_lookup executed d k t Hrel Hin) as (t0 & Hget0 & Hstatic & _).
  destruct Hstatic as (_ & _ & _ & _ & _ & _ & _ & Hdeps & _).
  rewrite Hdeps in Hdep.
  apply dict_get_key. rewrite Hkeys. apply dict_get_key.
  eapply Hclosed0; [by apply dict_get_Some_elem|done].
Qed.

Lemma run_state_registered st d :
  heap st = <[l := set_wf_tasks d w0]> (heap st0) ->
  same_setup st0 st ->
  registered st l (set_wf_tasks d w0).
Proof.
  intros Hheap (Hwfs & _). destruct Hreg0 as [Hl Hwid]. split.
  - rewrite Hheap. apply list_lookup_insert_eq. by eapply lookup_lt_Some.
  - cbn [wf_id set_wf_tasks]. by rewrite Hwfs.
Qed.

(** The task map after one more task has been executed. *)
Lemma run_rel_step executed d task t' success :
  run_rel clean executed (wf_tasks w0) d ->
  task_id task ∉ executed ->
  dict_get (task_id task) d = Some task ->
  ready_by_spec d task = true ->
  settled success task t' ->
  (clean -> success = true) ->
  run_rel clean ({[task_id task]} ∪ executed) (wf_tasks w0)
    (dict_modify (task_id task) (fun _ => t') d).
Proof.
  intros Hrel Hnew Hget Hready Hsettled Hsuccess.
  pose proof Hrel as (Hkeys & Hsub & Hall).
  destruct (ready_by_spec_status d task Hready) as [Hstatus Hdeps].
  assert (Hnot : task_status task <> COMPLETED) by (destruct Hstatus; congruence).
  split; [by rewrite dict_keys_modify|].
  split.
  { intros k [Hk|Hk]%elem_of_union; [|by apply Hsub].
    apply elem_of_singleton in Hk as ->.
    rewrite <- Hkeys. apply dict_get_key. congruence. }
  intros k t0 Hget0.
  destruct (Hall k t0 Hget0) as (t & Hgetk & Hstatic & Hout & Hin).
  destruct (decide (k = task_id task)) as [->|Hne].
  - assert (t = task) as -> by congruence.
    assert (task = t0) as -> by (by apply Hout).
    exists t'. split; [by eapply dict_get_modify_const|].
    split; [by destruct Hsettled as (_ & ? & _)|].
    split; [intros Hk; destruct Hk; apply elem_of_add; by left|]. intros _.
    split; [done|]. split; [by exists success|].
    split.
    { intros Hc. destruct Hsettled as (-> & _). by rewrite (Hsuccess Hc). }
    intros dep_id Hdep. eapply dep_completed_modify; [done..|by apply Hdeps].
  - exists t. split; [by rewrite dict_get_modify_ne|]. split; [done|].
    split; [intros Hk; apply Hout; intros Hk'; apply Hk, elem_of_add; by right|].
    intros Hk. assert (Hk' : k ∈ executed).
    { apply elem_of_add in Hk as [Hk|Hk]; done. }
    destruct (Hin Hk') as (H1 & H2 & H3 & H4).
    split; [done|]. split; [done|]. split; [done|].
    intros dep_id Hdep. eapply dep_completed_modify; [done..|by apply H4].
Qed.

(** The [for] loop over the ready tasks of one round. *)
Lemma run_ready_registered tasks : forall st result executed order,
  run_state clean st0 l w0 result0 st result executed order ->
  NoDup (map task_id tasks) ->
  (forall w task, heap st !! l = Some w -> task ∈ tasks ->
     (task_id task ∉ executed) /\
     dict_get (task_id task) (wf_tasks w) = Some task /\
     ready_by_spec (wf_tasks w) task = true) ->
  exists st' result' executed' order',
    run_ready_sequential E st l tasks result executed
      = Some (st', result', executed') /\
    run_state clean st0 l w0 result0 st' result' executed' order' /\
    order' = rev (map task_id tasks) ++ order /\
    size executed + length tasks <= size executed'.
Proof.
  induction tasks as [|task tasks IH]; intros st result executed order Hstate Hnd Hsnap.
  { exists st, result, executed, order. split; [done|]. split; [done|].
    split; [done|]. simpl. lia. }
  cbn [map] in Hnd. apply NoDup_cons in Hnd as [Hhead Hnd].
  destruct Hstate as (d & Hheap & Hsetup & Hdisp & Hord & Hex & Hrel & Hwid
                      & Hstart & Htotal & Hdone & Hfail & Hsum & Herrs & Hcl).
  pose proof (run_state_registered st d Hheap Hsetup) as Hreg.
  destruct (Hsnap (set_wf_tasks d w0) task) as (Hnew & Hget & Hready);
    [by destruct Hreg|left|].
  cbn [wf_tasks set_wf_tasks] in Hget, Hready.
  destruct (_execute_task_registered E st l (set_wf_tasks d w0) task task result
              Hreg Hget)
    as (st1 & result1 & success & t' & Hrun & Hheap1 & Hsettled & Hsetup1
        & Hdisp1 & Htally1 & Herr1 & Hsuccess).
  cbn [run_ready_sequential]. rewrite Hrun. cbn [mbind option_bind].
  cbn [wf_tasks set_wf_tasks] in Hheap1.
  set (d1 := dict_modify (task_id task) (fun _ => t') d) in *.
  assert (Hheap01 : heap st1 = <[l := set_wf_tasks d1 w0]> (heap st0)).
  { rewrite Hheap1, Hheap. rewrite list_insert_insert_eq. done. }
  destruct (ready_by_spec_status d task Hready) as [Hstatus Hdeps].
  assert (Hnot : task_status task <> COMPLETED) by (destruct Hstatus; congruence).
  assert (Hclean1 : clean -> success = true).
  { intros Hc. destruct (Hclean Hc) as [Hcollab Hhandlers].
    apply Hsuccess; [done|].
    destruct (run_rel_lookup executed d (task_id task) task Hrel Hget)
      as (t0 & Hget0 & _ & Hsame & _).
    rewrite <- (Hsame Hnew) in Hget0.
    destruct (Hhandlers (task_id task) task) as (r & Hr & Hm);
      [by apply dict_get_Some_elem|].
    exists r. split; [|done]. unfold handler_for in *.
    destruct Hsetup as (_ & _ & _ & _ & ->). done. }
  assert (Hrel1 : run_rel clean ({[task_id task]} ∪ executed) (wf_tasks w0) d1).
  { by eapply run_rel_step. }
  assert (Hfresh : task_id task ∉ order).
  { intros Hin. apply Hnew. rewrite Hex. by apply elem_of_list_to_set. }
  pose proof (count_in_modify COMPLETED (task_id task) task t' d Hget) as Hc1.
  pose proof (count_in_modify FAILED (task_id task) task t' d Hget) as Hc2.
  fold d1 in Hc1, Hc2.
  rewrite decide_False in Hc1 by done.
  rewrite decide_False in Hc2 by (destruct Hstatus; congruence).
  destruct Hsettled as (Hs' & Hsettled').
  destruct Htally1 as (Hwid1 & Hstart1 & Hdone1 & Hfail1 & Htotal1).
  set (result2 := if success
                  then set_er_tasks_completed (er_tasks_completed result1 + 1) result1
                  else set_er_tasks_failed (er_tasks_failed result1 + 1) result1).
  assert (Hstate1 : run_state clean st0 l w0 result0 st1 result2
                      ({[task_id task]} ∪ executed) (task_id task :: order)).
  { exists d1. split; [done|].
    split; [by eapply same_setup_trans|].
    split; [by rewrite Hdisp1, Hdisp|].
    split; [by constructor|].
    split; [by rewrite Hex|].
    split; [done|].
    subst result2. rewrite Hs' in Hc1, Hc2.
    destruct success; cbn in *.
    - rewrite decide_True in Hc1 by done. rewrite decide_False in Hc2 by done.
      repeat split; try congruence; try lia.
      intros Hc. specialize (Hcl Hc). congruence.
    - rewrite decide_False in Hc1 by done. rewrite decide_True in Hc2 by done.
      repeat split; try congruence; try lia.
      intros Hc. by specialize (Hclean1 Hc). }
  destruct (IH st1 result2 ({[task_id task]} ∪ executed) (task_id task :: order)
              Hstate1 Hnd)
    as (st' & result' & executed' & order' & Hrun' & Hstate' & Horder' & Hsize).
  { intros w task' Hl1 Hin'.
    assert (w = set_wf_tasks d1 w0) as ->.
    { rewrite Hheap01 in Hl1. rewrite list_lookup_insert_eq in Hl1; [congruence|].
      destruct Hreg0 as [Hl0 _]. by eapply lookup_lt_Some. }
    destruct (Hsnap (set_wf_tasks d w0) task') as (Hnew' & Hget' & Hready');
      [by destruct Hreg|by right|].
    cbn [wf_tasks set_wf_tasks] in *.
    assert (Hne : task_id task <> task_id task').
    { intros Heq. apply Hhead. rewrite Heq. by apply list_elem_of_fmap_2. }
    split; [intros [Hk|Hk]%elem_of_add; done|].
    split; [subst d1; by rewrite dict_get_modify_ne|].
    destruct (ready_by_spec_status d task' Hready') as [Hstatus' Hdeps'].
    apply ready_by_spec_intro; [done|].
    intros dep_id Hdep. eapply dep_completed_modify; [done..|by apply Hdeps']. }
  exists st', result', executed', order'. split; [exact Hrun'|].
  split; [done|].
  split; [rewrite Horder'; cbn [map rev]; by rewrite <- app_assoc|].
  pose proof (size_add (task_id task) executed Hnew).
  cbn [length]. lia.
Qed.

Lemma run_rel_length executed d :
  run_rel clean executed (wf_tasks w0) d -> length d = length (wf_tasks w0).
Proof.
  intros (Hkeys & _). apply (f_equal length) in Hkeys.
  unfold dict_keys in Hkeys. by rewrite !length_map in Hkeys.
Qed.

(** A task that is ready has not been executed. *)
Lemma ready_unexecuted executed d ready t :
  run_rel clean executed (wf_tasks w0) d ->
  get_ready_tasks (set_wf_tasks d w0) = Returned ready ->
  t ∈ ready ->
  (task_id t ∉ executed) /\
  dict_get (task_id t) d = Some t /\
  ready_by_spec d t = true.
Proof.
  intros Hrel Hready Hin.
  pose proof (run_rel_well_keyed executed d Hrel) as Hkeyed.
  pose proof (run_rel_deps_closed executed d Hrel) as Hclosed.
  apply (elem_of_ready _ _ t Hclosed Hready) in Hin as [Hval Hspec].
  cbn [wf_tasks set_wf_tasks] in Hval, Hspec.
  pose proof (well_keyed_get _ t Hkeyed Hval) as Hget.
  cbn [wf_tasks set_wf_tasks] in Hget.
  split; [|done].
  intros Hex.
  destruct (run_rel_lookup executed d (task_id t) t Hrel Hget)
    as (t0 & _ & _ & _ & Hdone).
  destruct (ready_by_spec_status d t Hspec) as [Hs _].
  destruct (Hdone Hex), Hs; congruence.
Qed.

(** When every task has been executed, none is ready. *)
Lemma all_executed_none_ready executed d :
  run_rel clean executed (wf_tasks w0) d ->
  length (wf_tasks w0) <= size executed ->
  get_ready_tasks (set_wf_tasks d w0) = Returned [].
Proof.
  intros Hrel Hsize.
  pose proof (run_rel_deps_closed executed d Hrel) as Hclosed.
  pose proof (run_rel_well_keyed executed d Hrel) as Hkeyed.
  destruct (get_ready_tasks (set_wf_tasks d w0)) as [ready|e] eqn:Hready.
  2:{ rewrite get_ready_tasks_closed in Hready by done. done. }
  destruct ready as [|t ready]; [done|].
  destruct (ready_unexecuted executed d (t :: ready) t Hrel Hready) as (Hnew & Hget & _);
    [left|].
  destruct Hnew.
  pose proof Hrel as (Hkeys & Hsub & _).
  destruct Hkeyed0 as [Hnd _].
  assert (Heq : executed = list_to_set (dict_keys (wf_tasks w0))).
  { apply set_subseteq_size_eq.
    - intros k Hk. apply elem_of_list_to_set. by apply Hsub.
    - rewrite size_list_to_set by done. unfold dict_keys. by rewrite length_map. }
  rewrite Heq. apply elem_of_list_to_set. rewrite <- Hkeys.
  apply dict_get_key. congruence.
Qed.

(** The [while] loop: it ends, either normally after at least one task was
    executed, or with the error of a run in which nothing was ready at the
    start; in both cases no task is ready at the end. *)
Lemma loop_registered fuel : forall st result executed order,
  run_state clean st0 l w0 result0 st result executed order ->
  wf_tasks w0 <> [] ->
  0 < fuel ->
  length (wf_tasks w0) < fuel + size executed ->
  exists st' result' raised executed' order',
    loop_sequential E fuel st l result executed = Some (st', result', raised) /\
    run_state clean st0 l w0 result0 st' result' executed' order' /\
    (forall w', heap st' !! l = Some w' -> get_ready_tasks w' = Returned []) /\
    (raised = None /\ executed' <> ∅ \/
     raised = Some (RuntimeError "No ready tasks and nothing executed") /\
     executed' = ∅) /\
    (forall w, heap st !! l = Some w ->
       exists ready later,
         get_ready_tasks w = Returned ready /\
         order' = later ++ rev (map task_id ready) ++ order).
Proof.
  induction fuel as [|fuel IH]; intros st result executed order Hstate Hne Hpos Hfuel;
    [lia|].
  pose proof Hstate as (d & Hheap & Hsetup & Hdisp & Hord & Hex & Hrel & _).
  pose proof (run_state_registered st d Hheap Hsetup) as [Hl _].
  pose proof (run_rel_length executed d Hrel) as Hlen.
  assert (Hcur : forall w', heap st !! l = Some w' -> w' = set_wf_tasks d w0)
    by (intros w' Hw'; congruence).
  enough (Hmain : exists st' result' raised executed' order',
            loop_sequential E (S fuel) st l result executed
              = Some (st', result', raised) /\
            run_state clean st0 l w0 result0 st' result' executed' order' /\
            (forall w', heap st' !! l = Some w' -> get_ready_tasks w' = Returned []) /\
            (raised = None /\ executed' <> ∅ \/
             raised = Some (RuntimeError "No ready tasks and nothing executed") /\
             executed' = ∅) /\
            exists ready later,
              get_ready_tasks (set_wf_tasks d w0) = Returned ready /\
              order' = later ++ rev (map task_id ready) ++ order).
  { destruct Hmain as (st' & result' & raised & executed' & order' & H1 & H2 & H3
                       & H4 & H5).
    exists st', result', raised, executed', order'.
    split; [done|]. split; [done|]. split; [done|]. split; [done|].
    by intros w ->%Hcur. }
  cbn [loop_sequential]. rewrite Hl. cbn [mbind option_bind].
  cbn [wf_tasks set_wf_tasks]. rewrite Hlen.
  destruct (Nat.ltb_spec (size executed) (length (wf_tasks w0))) as [Hlt|Hge].
  2:{ exists st, result, None, executed, order. split; [done|]. split; [done|].
      split; [|split].
      - intros w' ->%Hcur. by eapply all_executed_none_ready.
      - left. split; [done|]. intros ->. rewrite size_empty in Hge.
        destruct (wf_tasks w0); [done|simpl in Hge; lia].
      - exists [], []. split; [|done].
        by eapply all_executed_none_ready. }
  pose proof (run_rel_deps_closed executed d Hrel) as Hclosed.
  pose proof (run_rel_well_keyed executed d Hrel) as Hkeyed.
  destruct (get_ready_tasks (set_wf_tasks d w0)) as [ready|e] eqn:Hready.
  2:{ rewrite get_ready_tasks_closed in Hready by done. done. }
  assert (Hall : forall t, t ∈ ready ->
            (task_id t ∉ executed) /\ dict_get (task_id t) d = Some t /\
            ready_by_spec d t = true).
  { intros t Ht. by eapply ready_unexecuted. }
  assert (Hfilter : filter (fun t => task_id t ∉ executed) ready = ready).
  { clear -Hall. induction ready as [|t ready IHr]; [done|].
    rewrite filter_cons. rewrite decide_True by (apply Hall; left).
    f_equal. apply IHr. intros t' Ht'. apply Hall. by right. }
  rewrite Hfilter.
  destruct (run_ready_registered ready st result executed order Hstate)
    as (st1 & result1 & executed1 & order1 & Hrun & Hstate1 & Horder1 & Hsize).
  { by eapply ready_NoDup. }
  { intros w' t ->%Hcur Ht. by apply Hall. }
  destruct ready as [|task rest].
  { assert (Hfirst : exists (ready : list Task) (later : list string),
                Returned (A := list Task) [] = Returned ready /\
                order = later ++ rev (map task_id ready) ++ order).
    { by exists [], []. }
    destruct (decide (executed = ∅)) as [Hempty|Hsome].
    - rewrite bool_decide_eq_true_2 by done.
      exists st, result, (Some (RuntimeError "No ready tasks and nothing executed")),
        executed, order.
      split; [done|]. split; [done|]. split; [|split; [by right|done]].
      by intros w' ->%Hcur.
    - rewrite bool_decide_eq_false_2 by done.
      exists st, result, None, executed, order.
      split; [done|]. split; [done|]. split; [|split; [by left|done]].
      by intros w' ->%Hcur. }
  rewrite Hrun. cbn [mbind option_bind].
  assert (Hgrow : size executed < size executed1).
  { cbn [length] in Hsize. lia. }
  destruct (IH st1 result1 executed1 order1 Hstate1 Hne)
    as (st' & result' & raised & executed' & order' & Hloop & Hstate' & Hnone & Hend
        & Hlater);
    [lia|lia|].
  exists st', result', raised, executed', order'.
  split; [done|]. split; [done|]. split; [done|]. split; [done|].
  exists (task :: rest).
  destruct Hstate1 as (d1 & Hheap1 & Hsetup1 & _).
  pose proof (run_state_registered st1 d1 Hheap1 Hsetup1) as [Hl1 _].
  destruct (Hlater _ Hl1) as (ready1 & later & _ & ->).
  exists (later ++ rev (map task_id ready1)). split; [done|].
  rewrite Horder1. by rewrite <- !app_assoc.
Qed.

End Run.

Lemma list_to_set_nil_inv (order : list string) :
  (list_to_set order : gset string) = ∅ -> order = [].
Proof.
  destruct order as [|k order]; [done|]. intros Heq.
  assert (Hk : k ∈ (list_to_set (k :: order) : gset string)).
  { apply elem_of_list_to_set. left. }
  rewrite Heq in Hk. by apply elem_of_empty in Hk.
Qed.

(** [_execute_workflow_tasks] on a workflow that the planner holds under
    its id, with one task per key and closed dependencies. *)
Lemma _execute_workflow_tasks_registered (E : Env) (clean : Prop) (st : Core)
    (l : loc) (w : Workflow) :
  registered st l w -> well_keyed w -> deps_closed w -> wf_tasks w <> [] ->
  (clean -> collaborators_return E /\ handlers_return st w) ->
  exists st' result d order,
    _execute_workflow_tasks E st l = Some (st', result) /\
    heap st' = <[l := set_wf_tasks d w]> (heap st) /\
    same_setup st st' /\
    dispatched st' = order ++ dispatched st /\
    NoDup order /\
    run_rel clean (list_to_set order) (wf_tasks w) d /\
    get_ready_tasks (set_wf_tasks d w) = Returned [] /\
    er_workflow_id result = wf_id w /\
    er_tasks_total result = length (wf_tasks w) /\
    er_tasks_completed result + count_in COMPLETED (wf_tasks w)
      = count_in COMPLETED d /\
    er_tasks_failed result + count_in FAILED (wf_tasks w) = count_in FAILED d /\
    er_tasks_completed result + er_tasks_failed result = length order /\
    is_set (er_completed_at result) /\
    (order = [] ->
       er_status result = "failed" /\ er_success result = false /\
       er_errors result = ["No ready tasks and nothing executed"]) /\
    (order <> [] ->
       er_success result = (er_tasks_failed result =? 0)%nat /\
       er_status result
         = (if er_success result then "completed" else "completed_with_errors") /\
       length (er_errors result) = er_tasks_failed result) /\
    (clean -> er_tasks_failed result = 0) /\
    (exists ready later,
       get_ready_tasks w = Returned ready /\
       order = later ++ rev (map task_id ready)).
Proof.
  intros Hreg Hkeyed Hclosed Hne Hclean. pose proof Hreg as [Hl Hwid].
  unfold _execute_workflow_tasks. rewrite Hl. cbn [mbind option_bind].
  unfold now at 1.
  set (st0 := set_clock_reads (S (clock_reads st)) st).
  set (started := wall_clock E (clock_reads st)).
  destruct (wf_tasks w) as [|kv tasks] eqn:Htasks; [done|].
  rewrite <- Htasks in *. clear Hne.
  set (result0 := mkResult (wf_id w) false "running" started None 0 0 0
                    (length (wf_tasks w)) [] [] [] []).
  rewrite run_strategy_eq. unfold _execute_sequential.
  assert (Hreg0 : registered st0 l w) by done.
  destruct Hreg0 as [Hl0 _]. rewrite Hl0. cbn [mbind option_bind].
  assert (Hne : wf_tasks w <> []) by (by rewrite Htasks).
  assert (Hreg0' : registered st0 l w) by done.
  destruct (loop_registered E clean st0 l w result0 Hreg0' Hkeyed Hclosed Hclean
              (S (length (wf_tasks w))) st0 result0 ∅ []
              (run_state_start E clean st0 l w result0 Hreg0' Hkeyed Hclosed Hclean)
              Hne)
    as (st1 & result1 & raised & executed & order & Hloop & Hstate & Hnone & Hend
        & Hfirst);
    [lia|rewrite size_empty; lia|].
  assert (Horder0 : exists ready later,
            get_ready_tasks w = Returned ready /\
            order = later ++ rev (map task_id ready)).
  { destruct (Hfirst w Hl0) as (ready & later & Hready & ->).
    exists ready, later. by rewrite app_nil_r. }
  rewrite Hloop. cbn [mbind option_bind].
  destruct Hstate as (d & Hheap & Hsetup & Hdisp & Hord & Hex & Hrel & Hid
                      & Hstart & Htotal & Hdone & Hfail & Hsum & Herrs & Hcl).
  cbn [er_workflow_id er_started_at er_tasks_total er_tasks_completed
         er_tasks_failed er_errors result0 length] in Hid, Hstart, Htotal, Hdone,
    Hfail, Hsum, Herrs, Hcl.
  assert (Hl1 : heap st1 !! l = Some (set_wf_tasks d w)).
  { rewrite Hheap. apply list_lookup_insert_eq. by eapply lookup_lt_Some. }
  unfold stamp, bind, ret, now.
  eexists _, _, d, order. split; [reflexivity|].
  cbn [heap set_clock_reads dispatched].
  split; [done|]. split; [done|]. split; [done|]. split; [done|].
  split; [by rewrite <- Hex|]. split; [by apply Hnone|].
  destruct Hend as [[-> Hsome]|[-> Hempty]]; cbn.
  - assert (Horder : order <> []) by (intros ->; by apply Hsome).
    repeat split; try done; try lia.
  - subst executed. apply list_to_set_nil_inv in Hempty. subst order.
    cbn [length] in Hsum.
    assert (Hzero : er_tasks_failed result1 = 0) by lia.
    rewrite Hzero, Nat.add_0_r in Herrs.
    destruct (er_errors result1); [|done].
    repeat split; try done; lia.
Qed.

Lemma dict_ext {V} (d d' : Dict V) :
  NoDup (dict_keys d) -> dict_keys d' = dict_keys d ->
  (forall k, dict_get k d' = dict_get k d) -> d' = d.
Proof.
  revert d'. induction d as [|[k v] d IH]; intros [|[k' v'] d'] Hnd Hkeys Hget;
    try done.
  cbn [dict_keys map fst] in Hkeys. injection Hkeys as -> Hkeys.
  cbn [dict_keys map fst] in Hnd. apply NoDup_cons in Hnd as [Hk Hnd].
  pose proof (Hget k) as Hhead. simpl in Hhead. rewrite String.eqb_refl in Hhead.
  injection Hhead as ->. f_equal. apply IH; [done|done|].
  intros k0. specialize (Hget k0). simpl in Hget.
  destruct (String.eqb_spec k k0) as [Heq|Hne]; [|done].
  assert (Hnone : forall d0 : Dict V, k0 ∉ dict_keys d0 -> dict_get k0 d0 = None).
  { intros d0 Hd0. destruct (dict_get k0 d0) eqn:Hd; [|done].
    destruct Hd0. apply dict_get_key. congruence. }
  rewrite <- Heq in Hnone.
  rewrite <- Heq, (Hnone d), (Hnone d'); [done| |done].
  unfold dict_keys. by rewrite Hkeys.
Qed.

Lemma NoDup_length_le (order keys : list string) :
  NoDup order -> NoDup keys -> (forall k, k ∈ order -> k ∈ keys) ->
  length order <= length keys.
Proof.
  intros Ho Hk Hsub.
  rewrite <- (size_list_to_set (C := gset string) order) by done.
  rewrite <- (size_list_to_set (C := gset string) keys) by done.
  apply subseteq_size. intros k Hin%elem_of_list_to_set.
  apply elem_of_list_to_set. by apply Hsub.
Qed.

(** When no task was executed the task map is as it was. *)
Lemma run_rel_nothing_executed (clean : Prop) (d0 d : Dict Task) :
  NoDup (dict_keys d0) -> run_rel clean ∅ d0 d -> d = d0.
Proof.
  intros Hnd (Hkeys & _ & Hall). apply dict_ext; [done|done|].
  intros k. destruct (dict_get k d0) as [t0|] eqn:Hget0.
  - destruct (Hall k t0 Hget0) as (t & Hget & _ & Hsame & _).
    rewrite Hget. f_equal. apply Hsame. apply not_elem_of_empty.
  - destruct (dict_get k d) eqn:Hget; [|done].
    assert (Hk : k ∈ dict_keys d) by (apply dict_get_key; congruence).
    rewrite Hkeys in Hk. by apply dict_get_key in Hk.
Qed.

(** X10. The scheduler of [_execute_workflow_tasks], on a workflow that the
    planner holds under its id, with one task per key and dependencies that
    name tasks of the workflow: the call returns; only this workflow object
    changes, and only in the tasks that were handed to [_execute_task].
    Each of those was handed over once, was PENDING or READY, is COMPLETED
    or FAILED afterwards with its start and completion stamped, and all its
    dependencies are COMPLETED; the other tasks are exactly as before. The
    first tasks handed over are the tasks that [get_ready_tasks] returns at
    the start, in its order, that is by priority. When the call returns no
    task of the workflow is ready. *)
Theorem execution_respects_dependencies (E : Env) (st : Core) (l : loc)
    (w : Workflow) :
  registered st l w -> well_keyed w -> deps_closed w -> wf_tasks w <> [] ->
  exists st' result w' order,
    _execute_workflow_tasks E st l = Some (st', result) /\
    heap st' = <[l := w']> (heap st) /\
    same_but_tasks w w' /\
    dict_keys (wf_tasks w') = dict_keys (wf_tasks w) /\
    dispatched st' = order ++ dispatched st /\
    NoDup order /\
    (forall k t, (k, t) ∈ wf_tasks w ->
       exists t', dict_get k (wf_tasks w') = Some t' /\ same_static t t' /\
         (k ∉ order -> t' = t) /\
         (k ∈ order ->
            (task_status t = PENDING \/ task_status t = READY) /\
            (task_status t' = COMPLETED \/ task_status t' = FAILED) /\
            is_set (task_started_at t') /\ is_set (task_completed_at t') /\
            forall dep_id, dep_id ∈ task_dependencies t ->
              exists d, dict_get dep_id (wf_tasks w') = Some d /\
                        task_status d = COMPLETED)) /\
    (exists ready later,
       get_ready_tasks w = Returned ready /\
       order = later ++ rev (map task_id ready)) /\
    get_ready_tasks w' = Returned [].
Proof.
  intros Hreg Hkeyed Hclosed Hne.
  destruct (_execute_workflow_tasks_registered E False st l w Hreg Hkeyed Hclosed Hne)
    as (st' & result & d & order & Hrun & Hheap & _ & Hdisp & Hord & Hrel & Hnone & _
        & _ & _ & _ & _ & _ & _ & _ & _ & Hfirst);
    [done|].
  exists st', result, (set_wf_tasks d w), order.
  destruct Hrel as (Hkeys & _ & Hall).
  split; [done|]. split; [done|]. split; [done|]. split; [done|].
  split; [done|]. split; [done|]. split; [|done].
  intros k t Hin. destruct Hkeyed as [Hnd _].
  apply dict_get_NoDup in Hin; [|done].
  destruct (Hall k t Hin) as (t' & Hget & Hstatic & Hout & Hran).
  exists t'. split; [done|]. split; [done|]. split.
  - intros Hk. apply Hout. by rewrite elem_of_list_to_set.
  - intros Hk. destruct Hran as (Hs & [success Hsettled] & _ & Hdeps);
      [by rewrite elem_of_list_to_set|].
    destruct Hsettled as (Hs' & _ & Hstarted & Hcompleted & _).
    split; [done|]. split; [rewrite Hs'; destruct success; tauto|].
    split; [done|]. split; [done|].
    intros dep_id Hdep. specialize (Hdeps dep_id Hdep).
    unfold dep_completed in Hdeps. cbn [wf_tasks set_wf_tasks].
    destruct (dict_get dep_id d) as [dep|]; [|done].
    exists dep. split; [done|]. by apply bool_decide_eq_true in Hdeps.
Qed.

(** X11. The counters of the result agree with the task statuses: after
    [_execute_workflow_tasks] on such a workflow, the number of COMPLETED
    tasks has grown by [tasks_completed] and the number of FAILED tasks by
    [tasks_failed]; the two counters add up to the number of tasks handed to
    [_execute_task], which is at most [tasks_total]. The status is "failed"
    exactly when no task was ready at the start, and then nothing was
    executed; otherwise there is one error message per failed task. *)
Theorem execution_counts_match_statuses (E : Env) (st : Core) (l : loc)
    (w : Workflow) :
  registered st l w -> well_keyed w -> deps_closed w -> wf_tasks w <> [] ->
  exists st' result w' order,
    _execute_workflow_tasks E st l = Some (st', result) /\
    heap st' !! l = Some w' /\
    dispatched st' = order ++ dispatched st /\
    pr_completed (get_progress w')
      = pr_completed (get_progress w) + er_tasks_completed result /\
    pr_failed (get_progress w')
      = pr_failed (get_progress w) + er_tasks_failed result /\
    er_tasks_completed result + er_tasks_failed result = length order /\
    length order <= er_tasks_total result /\
    er_tasks_total result = pr_total (get_progress w') /\
    (er_status result = "failed" <-> get_ready_tasks w = Returned []) /\
    (er_status result = "failed" <-> order = []) /\
    (er_status result <> "failed" ->
       length (er_errors result) = er_tasks_failed result /\
       er_success result = (er_tasks_failed result =? 0)%nat).
Proof.
  intros Hreg Hkeyed Hclosed Hne.
  destruct (_execute_workflow_tasks_registered E False st l w Hreg Hkeyed Hclosed Hne)
    as (st' & result & d & order & Hrun & Hheap & _ & Hdisp & Hord & Hrel & Hnone
        & _ & Htotal & Hdone & Hfail & Hsum & _ & Hempty & Hsome & _);
    [done|].
  destruct Hreg as [Hl _].
  assert (Hcases : er_status result = "failed" <-> order = []).
  { split.
    - intros Hs. destruct order as [|k order]; [done|].
      destruct Hsome as (_ & Hstatus & _); [done|].
      rewrite Hs in Hstatus. by destruct (er_success result).
    - intros Ho. by destruct (Hempty Ho). }
  exists st', result, (set_wf_tasks d w), order.
  split; [done|].
  split; [rewrite Hheap; apply list_lookup_insert_eq; by eapply lookup_lt_Some|].
  split; [done|].
  unfold get_progress. cbn [pr_completed pr_failed pr_total wf_tasks set_wf_tasks].
  change (count_status COMPLETED (set_wf_tasks d w)) with (count_in COMPLETED d).
  change (count_status FAILED (set_wf_tasks d w)) with (count_in FAILED d).
  change (count_status COMPLETED w) with (count_in COMPLETED (wf_tasks w)).
  change (count_status FAILED w) with (count_in FAILED (wf_tasks w)).
  pose proof Hrel as (Hkeys & Hsub & Hall).
  split; [lia|]. split; [lia|]. split; [done|].
  split.
  { rewrite Htotal. destruct Hkeyed as [Hnd _].
    rewrite <- (length_map fst (wf_tasks w)).
    apply NoDup_length_le; [done|done|].
    intros k Hk. apply Hsub. by apply elem_of_list_to_set. }
  split.
  { rewrite Htotal. apply (f_equal length) in Hkeys.
    unfold dict_keys in Hkeys. by rewrite !length_map in Hkeys. }
  split; [|split; [done|]].
  - rewrite Hcases. split.
    + intros ->. cbn [list_to_set] in Hrel.
      assert (Hd : d = wf_tasks w).
      { eapply run_rel_nothing_executed; [|exact Hrel]. by destruct Hkeyed. }
      rewrite Hd in Hnone. by destruct w.
    + intros Hready.
      destruct (deadlock_is_reported E st l w Hl Hne Hready)
        as (st2 & result2 & Hrun2 & _ & Hdisp2 & _).
      assert (st2 = st') as -> by congruence.
      rewrite Hdisp in Hdisp2.
      apply (f_equal length) in Hdisp2. rewrite length_app in Hdisp2.
      destruct order; [done|simpl in Hdisp2; lia].
  - intros Hs. destruct Hsome as (Hsuccess & _ & Herrs); [|done].
    intros Ho. by apply Hs, Hcases.
Qed.

(** ** Runs that complete *)

Lemma count_in_none (s : TaskStatus) (d : Dict Task) :
  (forall k t, (k, t) ∈ d -> task_status t <> s) -> count_in s d = 0.
Proof.
  unfold count_in, dict_values. induction d as [|[k t] d IH]; intros Hall; [done|].
  cbn [map snd]. rewrite filter_cons.
  rewrite decide_False by (apply (Hall k); left).
  apply IH. intros k' t' Hin. apply (Hall k'). by right.
Qed.

Lemma count_in_all (s : TaskStatus) (d : Dict Task) :
  (forall k t, (k, t) ∈ d -> task_status t = s) -> count_in s d = length d.
Proof.
  unfold count_in, dict_values. induction d as [|[k t] d IH]; intros Hall; [done|].
  cbn [map snd]. rewrite filter_cons.
  rewrite decide_True by (apply (Hall k); left).
  cbn [length]. f_equal. apply IH. intros k' t' Hin. apply (Hall k'). by right.
Qed.

Lemma count_in_total (d : Dict Task) :
  length d
  = count_in PENDING d + count_in READY d + count_in IN_PROGRESS d
    + count_in COMPLETED d + count_in FAILED d + count_in BLOCKED d.
Proof.
  unfold count_in, dict_values. rewrite <- length_by_status. by rewrite length_map.
Qed.

(** A run on an acyclic workflow whose tasks are PENDING, READY or
    COMPLETED, with handlers and collaborators that return: every task ends
    COMPLETED. *)
Lemma run_completes (E : Env) (st : Core) (l : loc) (w : Workflow)
    (rank : string -> nat) :
  registered st l w -> well_keyed w -> deps_closed w -> ranked rank w ->
  (forall k t, (k, t) ∈ wf_tasks w ->
     task_status t = PENDING \/ task_status t = READY \/ task_status t = COMPLETED) ->
  (exists k t, (k, t) ∈ wf_tasks w /\ task_status t <> COMPLETED) ->
  collaborators_return E -> handlers_return st w ->
  exists st' result d,
    _execute_workflow_tasks E st l = Some (st', result) /\
    heap st' = <[l := set_wf_tasks d w]> (heap st) /\
    same_setup st st' /\
    dict_keys d = dict_keys (wf_tasks w) /\
    (forall k t, (k, t) ∈ d ->
       task_status t = COMPLETED /\
       exists t0, (k, t0) ∈ wf_tasks w /\ same_static t0 t /\
                  (task_status t0 = COMPLETED -> t = t0) /\
                  (task_status t0 <> COMPLETED ->
                   is_set (task_started_at t) /\ is_set (task_completed_at t) /\
                   is_set (task_result t))) /\
    er_workflow_id result = wf_id w /\
    er_tasks_total result = length (wf_tasks w) /\
    er_success result = true /\ er_status result = "completed" /\
    er_tasks_failed result = 0 /\ er_errors result = [] /\
    er_tasks_completed result
      = count_in PENDING (wf_tasks w) + count_in READY (wf_tasks w) /\
    is_set (er_completed_at result).
Proof.
  intros Hreg Hkeyed Hclosed Hranked Hstatus (k1 & t1 & Hin1 & Hs1) Hcollab Hhandlers.
  assert (Hne : wf_tasks w <> []).
  { intros Heq. rewrite Heq in Hin1. by apply elem_of_nil in Hin1. }
  destruct (_execute_workflow_tasks_registered E True st l w Hreg Hkeyed Hclosed Hne)
    as (st' & result & d & order & Hrun & Hheap & Hsetup & Hdisp & Hord & Hrel
        & Hnone & Hid & Htotal & Hdone & Hfail & Hsum & Hstamp & Hempty & Hsome
        & Hclean & _); [done|].
  specialize (Hclean I).
  pose proof Hrel as (Hkeys & Hsub & Hall).
  destruct Hkeyed as [Hnd Hown].
  assert (Hnd' : NoDup (dict_keys d)) by (by rewrite Hkeys).
  assert (Hclosed' : deps_closed (set_wf_tasks d w)).
  { by apply (run_rel_deps_closed True w (conj Hnd Hown) Hclosed (list_to_set order)). }
  (* every task is COMPLETED, by induction on the rank *)
  assert (Hranks : forall n k t, dict_get k d = Some t -> rank k < n ->
            task_status t = COMPLETED).
  { induction n as [|n IHn]; intros k t Hget Hrank; [lia|].
    assert (Hk : k ∈ dict_keys (wf_tasks w)).
    { rewrite <- Hkeys. apply dict_get_key. congruence. }
    apply dict_get_key in Hk.
    destruct (dict_get k (wf_tasks w)) as [t0|] eqn:Hget0; [|done].
    destruct (Hall k t0 Hget0) as (t' & Hget' & Hstatic & Hout & Hran).
    assert (t' = t) as -> by congruence.
    destruct (decide (k ∈ (list_to_set order : gset string))) as [Hex|Hex].
    { destruct (Hran Hex) as (_ & _ & Hc & _). by apply Hc. }
    specialize (Hout Hex). subst t0.
    apply dict_get_Some_elem in Hget0 as Hin0.
    destruct (Hstatus k t Hin0) as [Hs|[Hs|Hs]]; [| |done].
    all: exfalso.
    all: assert (Hready : ready_by_spec d t = true).
    1,3: apply ready_by_spec_intro; [tauto|];
         intros dep_id Hdep;
         pose proof (Hranked k t dep_id Hin0 Hdep) as Hlt;
         pose proof (Hclosed k t dep_id Hin0 Hdep) as Hdepkey;
         apply dict_get_key in Hdepkey; rewrite <- Hkeys in Hdepkey;
         apply dict_get_key in Hdepkey;
         unfold dep_completed;
         destruct (dict_get dep_id d) as [dep|] eqn:Hgetdep; [|done];
         apply bool_decide_eq_true; apply (IHn dep_id dep Hgetdep); lia.
    all: assert (Hin : t ∈ ([] : list Task));
      [apply (elem_of_ready (set_wf_tasks d w) [] t Hclosed' Hnone);
       cbn [wf_tasks set_wf_tasks]; split; [|done];
       apply elem_of_dict_values; exists k; by apply dict_get_Some_elem|].
    all: by apply elem_of_nil in Hin. }
  assert (Hcompleted : forall k t, (k, t) ∈ d -> task_status t = COMPLETED).
  { intros k t Hin. apply dict_get_NoDup in Hin; [|done].
    apply (Hranks (S (rank k)) k t Hin). lia. }
  (* something was executed *)
  assert (Horder : order <> []).
  { intros ->. apply dict_get_NoDup in Hin1 as Hget1; [|done].
    destruct (Hall k1 t1 Hget1) as (t' & Hget' & _ & Hout & _).
    rewrite <- (Hout ltac:(apply not_elem_of_empty)) in Hs1.
    apply Hs1, (Hcompleted k1). by apply dict_get_Some_elem. }
  destruct (Hsome Horder) as (Hsuccess & Hstat & Herrs).
  rewrite Hclean in Hsuccess, Herrs. cbn in Hsuccess. rewrite Hsuccess in Hstat.
  exists st', result, d. split; [done|]. split; [done|]. split; [done|].
  split; [done|].
  split.
  { intros k t Hin. split; [by apply (Hcompleted k)|].
    apply dict_get_NoDup in Hin as Hget; [|done].
    assert (Hk : k ∈ dict_keys (wf_tasks w)).
    { rewrite <- Hkeys. apply dict_get_key. congruence. }
    apply dict_get_key in Hk.
    destruct (dict_get k (wf_tasks w)) as [t0|] eqn:Hget0; [|done].
    destruct (Hall k t0 Hget0) as (t' & Hget' & Hstatic & Hout & Hran).
    assert (t' = t) as -> by congruence.
    apply dict_get_Some_elem in Hget0 as Hin0.
    destruct (decide (k ∈ (list_to_set order : gset string))) as [Hex|Hex].
    - destruct (Hran Hex) as (Hs0 & [success Hsettled] & _ & _).
      destruct Hsettled as (Hs' & _ & Hstarted & Hstamped & Hres).
      rewrite (Hcompleted k t Hin) in Hs'.
      destruct success; [|done].
      exists t0. split; [done|]. split; [done|].
      split; [|done]. intros Hc. destruct Hs0; congruence.
    - specialize (Hout Hex). subst t0.
      pose proof (Hcompleted k t Hin) as Hc.
      exists t. split; [done|]. split; [done|]. split; [done|]. done. }
  split; [done|]. split; [done|]. split; [done|]. split; [done|].
  split; [done|].
  split; [by destruct (er_errors result)|].
  split; [|done].
  pose proof (count_in_total (wf_tasks w)) as Hsum0.
  rewrite (count_in_none IN_PROGRESS (wf_tasks w)) in Hsum0
    by (intros k t Hin; destruct (Hstatus k t Hin) as [?|[?|?]]; congruence).
  rewrite (count_in_none FAILED (wf_tasks w)) in Hsum0
    by (intros k t Hin; destruct (Hstatus k t Hin) as [?|[?|?]]; congruence).
  rewrite (count_in_none BLOCKED (wf_tasks w)) in Hsum0
    by (intros k t Hin; destruct (Hstatus k t Hin) as [?|[?|?]]; congruence).
  rewrite (count_in_all COMPLETED d Hcompleted) in Hdone.
  apply (f_equal length) in Hkeys. unfold dict_keys in Hkeys.
  rewrite !length_map in Hkeys. lia.
Qed.

(** ** Planned workflows are acyclic *)

Lemma action_sequences_rank (a b : string) (acts : list string) :
  dict_get a action_sequences = Some acts -> b ∈ acts ->
  action_rank a < action_rank b.
Proof.
  unfold action_sequences. cbn [dict_get].
  repeat match goal with
         | |- context [String.eqb ?x a] =>
             destruct (String.eqb_spec x a) as [<-|?]
         end; intros [= <-] Hin;
    repeat (apply elem_of_cons in Hin as [->|Hin]);
    try (by apply elem_of_nil in Hin); by vm_compute.
Qed.

Lemma feeds_rank (p t : Task) :
  feeds p t = true -> action_rank (task_action p) < action_rank (task_action t).
Proof.
  unfold feeds.
  destruct (dict_get (task_action p) action_sequences) as [acts|] eqn:Hget; [|done].
  intros [Hin _]%andb_true_iff. apply str_in_elem in Hin.
  by eapply action_sequences_rank.
Qed.

(** A workflow in which every task depends on exactly the tasks that feed
    it has closed and acyclic dependencies. *)
Lemma producers_closed_ranked (w : Workflow) :
  well_keyed w ->
  (forall k t, (k, t) ∈ wf_tasks w ->
     task_dependencies t
     = map task_id (filter (fun p => feeds p t) (dict_values (wf_tasks w)))) ->
  deps_closed w /\ ranked (rank_in w) w.
Proof.
  intros Hkeyed Hdeps.
  assert (Hprod : forall k t dep_id, (k, t) ∈ wf_tasks w ->
            dep_id ∈ task_dependencies t ->
            exists p, dict_get dep_id (wf_tasks w) = Some p /\ feeds p t = true).
  { intros k t dep_id Hin Hdep. rewrite (Hdeps k t Hin) in Hdep.
    apply list_elem_of_fmap in Hdep as (p & -> & Hp).
    apply list_elem_of_filter in Hp as [Hfeeds Hval].
    exists p. split; [by apply well_keyed_get|by apply Is_true_true]. }
  split.
  - intros k t dep_id Hin Hdep.
    destruct (Hprod k t dep_id Hin Hdep) as (p & -> & _). done.
  - intros k t dep_id Hin Hdep.
    destruct (Hprod k t dep_id Hin Hdep) as (p & Hp & Hfeeds).
    unfold rank_in. rewrite Hp.
    destruct Hkeyed as [Hnd _]. rewrite (dict_get_NoDup k t _ Hnd Hin).
    by apply feeds_rank.
Qed.

(** ** The handlers of the registry *)

Lemma registered_handlers_return (action : string) (params : Dict PyVal) :
  exists r s,
    default _default_handler (_register_action_handlers !! action) params
      = Returned r /\
    dict_get "output" r = Some (PyStr s).
Proof.
  destruct (_register_action_handlers !! action) as [h|] eqn:Hh.
  - unfold _register_action_handlers in Hh.
    apply elem_of_list_to_map_2 in Hh.
    repeat (apply elem_of_cons in Hh as [[= -> ->]|Hh];
            [eexists _, _; split; reflexivity|]).
    by apply elem_of_nil in Hh.
  - eexists _, _. split; reflexivity.
Qed.

Lemma default_handlers_return (st : Core) (w : Workflow) :
  _action_handlers st = _register_action_handlers -> handlers_return st w.
Proof.
  intros Hh k t _. unfold handler_for. rewrite Hh.
  destruct (registered_handlers_return (task_action t) (task_parameters t))
    as (r & s & Hr & Hout).
  exists r. split; [done|]. unfold measurable_output. rewrite Hout. cbn.
  intros _. by eexists.
Qed.

(** X12. A run to completion. Take a workflow that the planner holds under its
    id, with one task per key, whose dependencies name tasks of the workflow
    and are acyclic, whose tasks are all PENDING, READY or COMPLETED and not
    all COMPLETED; let the handlers of its tasks return (with outputs that
    [len] accepts) and let critic and summarizer not raise. Then
    [_execute_workflow_tasks] returns with success true, status "completed",
    no failed task and no error; every task of the workflow is COMPLETED
    afterwards, and [tasks_completed] counts the tasks that were PENDING or
    READY. *)
Theorem acyclic_workflow_completes (E : Env) (st : Core) (l : loc)
    (w : Workflow) (rank : string -> nat) :
  registered st l w -> well_keyed w -> deps_closed w -> ranked rank w ->
  (forall k t, (k, t) ∈ wf_tasks w ->
     task_status t = PENDING \/ task_status t = READY \/ task_status t = COMPLETED) ->
  (exists k t, (k, t) ∈ wf_tasks w /\ task_status t <> COMPLETED) ->
  collaborators_return E -> handlers_return st w ->
  exists st' result w',
    _execute_workflow_tasks E st l = Some (st', result) /\
    heap st' !! l = Some w' /\
    (forall k t, (k, t) ∈ wf_tasks w' -> task_status t = COMPLETED) /\
    er_success result = true /\ er_status result = "completed" /\
    er_tasks_failed result = 0 /\ er_errors result = [] /\
    er_tasks_completed result = count_status PENDING w + count_status READY w /\
    pr_completed (get_progress w') = pr_total (get_progress w').
Proof.
  intros Hreg Hkeyed Hclosed Hranked Hstatus Hsome Hcollab Hhandlers.
  destruct (run_completes E st l w rank Hreg Hkeyed Hclosed Hranked Hstatus Hsome
              Hcollab Hhandlers)
    as (st' & result & d & Hrun & Hheap & _ & _ & Hall & _ & _ & Hsuccess & Hstat
        & Hfailed & Herrs & Hdone & _).
  destruct Hreg as [Hl _].
  exists st', result, (set_wf_tasks d w). split; [done|].
  split; [rewrite Hheap; apply list_lookup_insert_eq; by eapply lookup_lt_Some|].
  cbn [wf_tasks set_wf_tasks].
  split; [intros k t Hin; by destruct (Hall k t Hin)|].
  split; [done|]. split; [done|]. split; [done|]. split; [done|].
  split; [done|].
  unfold get_progress. cbn [pr_completed pr_total wf_tasks set_wf_tasks].
  apply count_in_all. intros k t Hin. by destruct (Hall k t Hin).
Qed.

(** X13. [execute_workflow] from end to end. On an orchestrator that has the
    handlers of [_register_action_handlers], with a critic and a summarizer
    that do not raise, [execute_workflow] returns for every goal: the new
    workflow is appended to the workflows, every one of its tasks is
    COMPLETED with a result and both time stamps, and the result has success
    true, status "completed", [tasks_completed = tasks_total] (the number of
    tasks), no failed task and no error. The result is stored under the id
    of the workflow, and [get_workflow_status] for that id reports the
    success with all tasks completed. *)
Theorem execute_workflow_succeeds (E : Env) (st : Core)
    (goal description : string) (context : option (Dict PyVal)) :
  _action_handlers st = _register_action_handlers ->
  collaborators_return E ->
  exists st' result w',
    execute_workflow E st goal description context = Some (st', result) /\
    heap st' = heap st ++ [w'] /\
    wf_goal w' = goal /\
    er_workflow_id result = wf_id w' /\
    (forall k t, (k, t) ∈ wf_tasks w' ->
       task_status t = COMPLETED /\ is_set (task_result t) /\
       is_set (task_started_at t) /\ is_set (task_completed_at t)) /\
    er_success result = true /\ er_status result = "completed" /\
    er_tasks_total result = length (wf_tasks w') /\
    er_tasks_completed result = length (wf_tasks w') /\
    er_tasks_failed result = 0 /\ er_errors result = [] /\
    get_execution st' (wf_id w') = Some result /\
    exists status,
      get_workflow_status st' (wf_id w') = Some status /\
      ws_success status = true /\ ws_status status = "completed" /\
      pr_completed (ws_progress status) = pr_total (ws_progress status).
Proof.
  intros Hhandlers Hcollab.
  destruct (plan_workflow_shape E goal description context st)
    as (st0 & w & tasks & Hplan & Hheap0 & Hwfs0 & _ & Hgoal & _ & _ & _ & Hissued
        & _ & Hlen & Htasks & _ & _ & _ & _ & Hh0 & _).
  destruct Hissued as (_ & Hids & Hnew).
  cbn [_task_counter set_clock_reads] in Hids.
  assert (Hnd : NoDup (map task_id tasks)).
  { rewrite Hids. apply task_labels_NoDup. }
  destruct (filed_with_producers w tasks Htasks Hnd Hnew) as [Hkeyed Hall].
  destruct (producers_closed_ranked w Hkeyed) as [Hclosed Hranked].
  { intros k t Hin. by destruct (Hall k t Hin). }
  set (l := length (heap st)) in *.
  assert (Hreg : registered st0 l w).
  { split; [rewrite Hheap0; by apply list_lookup_middle|].
    rewrite Hwfs0. apply lookup_insert_eq. }
  assert (Hfresh : forall k t, (k, t) ∈ wf_tasks w -> task_status t = PENDING).
  { intros k t Hin. by destruct (Hall k t Hin) as [[? _] _]. }
  destruct (run_completes E st0 l w (rank_in w) Hreg Hkeyed Hclosed Hranked)
    as (st1 & result & d & Hrun & Hheap1 & Hsetup1 & Hkeys & Hdone & Hid & Htotal
        & Hsuccess & Hstat & Hfailed & Herrs & Hcount & _).
  { intros k t Hin. left. by apply (Hfresh k). }
  { assert (Hlenw : length (wf_tasks w) = length tasks)
      by (by rewrite Htasks, length_map).
    destruct (wf_tasks w) as [|[k t] rest]; [simpl in Hlenw; lia|].
    exists k, t. split; [left|]. rewrite (Hfresh k t); [done|left]. }
  { done. }
  { apply default_handlers_return. congruence. }
  assert (Hlen1 : length d = length (wf_tasks w)).
  { apply (f_equal length) in Hkeys. unfold dict_keys in Hkeys.
    by rewrite !length_map in Hkeys. }
  assert (Hheap : heap st1 = heap st ++ [set_wf_tasks d w]).
  { rewrite Hheap1, Hheap0. subst l.
    rewrite insert_app_r_alt by lia. by rewrite Nat.sub_diag. }
  unfold execute_workflow. rewrite Hplan, Hrun. cbn [mbind option_bind].
  eexists _, result, (set_wf_tasks d w). split; [reflexivity|].
  cbn [heap set_executions wf_goal wf_id wf_tasks set_wf_tasks].
  split; [done|]. split; [done|]. split; [done|].
  split.
  { intros k t Hin. destruct (Hdone k t Hin) as (Hs & t0 & Hin0 & _ & _ & Hran).
    split; [done|]. destruct Hran as (? & ? & ?); [|done].
    by rewrite (Hfresh k t0 Hin0). }
  split; [done|]. split; [done|]. split; [by rewrite Hlen1|].
  split.
  { rewrite Hcount, Hlen1, (count_in_total (wf_tasks w)).
    rewrite (count_in_none IN_PROGRESS), (count_in_none COMPLETED),
      (count_in_none FAILED), (count_in_none BLOCKED); [lia|..];
      intros k t Hin; by rewrite (Hfresh k t Hin). }
  split; [done|]. split; [done|].
  assert (Hexec : <[er_workflow_id result := result]> (executions st1) !! wf_id w
                  = Some result).
  { rewrite Hid. apply lookup_insert_eq. }
  split; [exact Hexec|].
  unfold get_workflow_status. cbn [executions set_executions]. rewrite Hexec.
  assert (Hfind : forall ex,
            find_workflow (set_executions ex st1) (wf_id w)
            = Some (l, set_wf_tasks d w)).
  { intros ex. apply find_workflow_intro; cbn [workflows heap set_executions].
    - destruct Hsetup1 as (-> & _). by destruct Hreg.
    - rewrite Hheap. subst l. by apply list_lookup_middle. }
  rewrite Hfind. eexists. split; [reflexivity|].
  cbn [ws_success ws_status ws_progress].
  split; [done|]. split; [done|].
  unfold get_progress. cbn [pr_completed pr_total wf_tasks set_wf_tasks].
  apply count_in_all. intros k t Hin. by destruct (Hdone k t Hin).
Qed.

(** ** Planning: what the caller can count on *)

(** X5. [plan_workflow] enters the new workflow in the planner under the
    workflow's id, which is made of the formatted time and the number of
    workflows held so far plus one; [get_workflow] finds it there. Goal and
    description are the arguments, the metadata hold the context (an empty
    dictionary when none is given). Nothing is done yet:
    [get_workflow_progress] counts every task as pending, at 0 per cent.
    The workflow objects that existed before, the entries of the planner
    for other ids and the recorded executions are as they were. *)
Theorem plan_workflow_registers (E : Env) (goal description : string)
    (context : option (Dict PyVal)) (st : Core) :
  exists st' w,
    plan_workflow E goal description context st = (st', length (heap st)) /\
    heap st' = heap st ++ [w] /\
    get_workflow st' (wf_id w) = Some (length (heap st)) /\
    (forall wid, wid <> wf_id w -> get_workflow st' wid = get_workflow st wid) /\
    wf_id w = "workflow_" +:+ strftime E (wall_clock E (clock_reads st)) +:+ "_"
                +:+ pretty (size (workflows st) + 1) /\
    wf_goal w = goal /\ wf_description w = description /\
    wf_metadata w = [("initial_context", PyDict (default [] context))] /\
    (exists p, get_workflow_progress st' (wf_id w) = Some p /\
               pr_pending p = Z.of_nat (pr_total p) /\
               pr_total p = length (wf_tasks w) /\
               pr_completed p = 0 /\ pr_failed p = 0 /\
               pr_in_progress p = 0 /\ pr_blocked p = 0 /\
               (pr_completion_percentage p == 0)%Q) /\
    executions st' = executions st.
Proof.
  destruct (plan_workflow_shape E goal description context st)
    as (st' & w & tasks & Hplan & Hheap & Hwfs & Hid & Hgoal & Hdesc & _ & Hmeta
        & Hissued & _ & Hlen & Htasks & _ & _ & _ & Hex & _).
  destruct Hissued as (_ & Hids & Hnew).
  cbn [_task_counter set_clock_reads] in Hids.
  assert (Hnd : NoDup (map task_id tasks)).
  { rewrite Hids. apply task_labels_NoDup. }
  destruct (filed_with_producers w tasks Htasks Hnd Hnew) as [Hkeyed Hall].
  assert (Hfresh : forall s, s <> PENDING -> count_in s (wf_tasks w) = 0).
  { intros s Hs. apply count_in_none. intros k t Hin.
    destruct (Hall k t Hin) as [[-> _] _]. done. }
  exists st', w. split; [done|]. split; [done|].
  unfold get_workflow. rewrite Hwfs.
  split; [apply lookup_insert_eq|].
  split; [intros wid Hne; by apply lookup_insert_ne|].
  split; [done|]. split; [done|]. split; [done|]. split; [done|].
  split; [|done].
  exists (get_progress w). split.
  { unfold get_workflow_progress.
    rewrite (find_workflow_intro st' (wf_id w) (length (heap st)) w); [done| |].
    - rewrite Hwfs. apply lookup_insert_eq.
    - rewrite Hheap. by apply list_lookup_middle. }
  unfold get_progress.
  cbn [pr_pending pr_total pr_completed pr_failed pr_in_progress pr_blocked
         pr_completion_percentage].
  change (count_status COMPLETED w) with (count_in COMPLETED (wf_tasks w)).
  change (count_status FAILED w) with (count_in FAILED (wf_tasks w)).
  change (count_status IN_PROGRESS w) with (count_in IN_PROGRESS (wf_tasks w)).
  change (count_status BLOCKED w) with (count_in BLOCKED (wf_tasks w)).
  rewrite !Hfresh by done.
  split; [lia|]. split; [done|]. split; [done|]. split; [done|].
  split; [done|]. split; [done|].
  by destruct (0 <? length (wf_tasks w))%nat.
Qed.

Lemma exists_least {A} (f : A -> nat) (x : A) (l : list A) :
  exists y, y ∈ x :: l /\ forall z, z ∈ x :: l -> f y <= f z.
Proof.
  revert x. induction l as [|a l IH]; intros x.
  - exists x. split; [left|]. intros z Hz%list_elem_of_singleton. by subst.
  - destruct (IH a) as (y & Hy & Hmin).
    destruct (decide (f x <= f y)) as [Hle|Hgt].
    + exists x. split; [left|].
      intros z [->|Hz]%elem_of_cons; [done|]. specialize (Hmin z Hz). lia.
    + exists y. split; [by right|].
      intros z [->|Hz]%elem_of_cons; [lia|]. by apply Hmin.
Qed.

(** An acyclic workflow of PENDING tasks has a ready task: the ready tasks
    are the tasks without dependencies. *)
Lemma pending_acyclic_ready (w : Workflow) (rank : string -> nat) :
  deps_closed w -> ranked rank w ->
  (forall k t, (k, t) ∈ wf_tasks w -> task_status t = PENDING) ->
  wf_tasks w <> [] ->
  exists ready,
    get_ready_tasks w = Returned ready /\
    ready <> [] /\
    (forall t, t ∈ ready <->
               t ∈ dict_values (wf_tasks w) /\ task_dependencies t = []).
Proof.
  intros Hclosed Hranked Hpending Hne.
  set (ready := sorted (fun t => priority_order (task_priority t))
                  (filter (fun t => ready_by_spec (wf_tasks w) t)
                     (dict_values (wf_tasks w)))).
  assert (Hready : get_ready_tasks w = Returned ready)
    by (by apply get_ready_tasks_closed).
  assert (Hspec : forall t, t ∈ dict_values (wf_tasks w) ->
            ready_by_spec (wf_tasks w) t = true <-> task_dependencies t = []).
  { intros t [k Hin]%elem_of_dict_values. split.
    - intros [_ Hdeps]%ready_by_spec_status.
      destruct (task_dependencies t) as [|dep_id deps] eqn:Hd; [done|].
      exfalso. specialize (Hdeps dep_id ltac:(left)).
      unfold dep_completed in Hdeps.
      destruct (dict_get dep_id (wf_tasks w)) as [dep|] eqn:Hget; [|done].
      apply bool_decide_eq_true in Hdeps.
      apply dict_get_Some_elem in Hget.
      rewrite (Hpending dep_id dep Hget) in Hdeps. done.
    - intros Hd. apply ready_by_spec_intro.
      + left. by apply (Hpending k).
      + rewrite Hd. by intros dep_id Hin'%elem_of_nil. }
  assert (Hmem : forall t, t ∈ ready <->
            t ∈ dict_values (wf_tasks w) /\ task_dependencies t = []).
  { intros t. rewrite (elem_of_ready w ready t Hclosed Hready).
    split; intros [Hval H]; (split; [done|]); by apply (Hspec t Hval). }
  exists ready. split; [done|]. split; [|done].
  (* a task of least rank has no dependency *)
  destruct (wf_tasks w) as [|kv rest] eqn:Hw; [done|].
  destruct (exists_least (fun kv : string * Task => rank (fst kv)) kv rest)
    as ([k t] & Hin & Hmin).
  rewrite <- Hw in *. cbn [fst] in Hmin.
  assert (Hnone : task_dependencies t = []).
  { destruct (task_dependencies t) as [|dep_id deps] eqn:Hd; [done|]. exfalso.
    assert (Hdep : dep_id ∈ task_dependencies t) by (rewrite Hd; left).
    pose proof (Hranked k t dep_id Hin Hdep) as Hlt.
    pose proof (Hclosed k t dep_id Hin Hdep) as Hkey.
    destruct (dict_get dep_id (wf_tasks w)) as [dep|] eqn:Hget; [|done].
    apply dict_get_Some_elem in Hget.
    specialize (Hmin (dep_id, dep) Hget). cbn [fst] in Hmin. lia. }
  intros Hempty.
  assert (Ht : t ∈ ready).
  { apply Hmem. split; [|done]. apply elem_of_dict_values. by exists k. }
  rewrite Hempty in Ht. by apply elem_of_nil in Ht.
Qed.

(** What [plan_workflow_shape] gives for the scheduler. *)
Lemma planned_for_scheduler (w : Workflow) (tasks : list Task) :
  wf_tasks w = map (fun t => (task_id t, with_producers tasks t)) tasks ->
  NoDup (map task_id tasks) ->
  Forall (fun t => task_dependencies t = [] /\ fresh_task t) tasks ->
  well_keyed w /\ deps_closed w /\ ranked (rank_in w) w /\
  (forall k t, (k, t) ∈ wf_tasks w -> task_status t = PENDING).
Proof.
  intros Htasks Hnd Hnew.
  destruct (filed_with_producers w tasks Htasks Hnd Hnew) as [Hkeyed Hall].
  destruct (producers_closed_ranked w Hkeyed) as [Hclosed Hranked].
  { intros k t Hin. by destruct (Hall k t Hin). }
  split; [done|]. split; [done|]. split; [done|].
  intros k t Hin. by destruct (Hall k t Hin) as [[? _] _].
Qed.

(** X6. In a workflow fresh from [plan_workflow] the ready tasks are exactly
    the tasks without dependencies, and there is at least one: the planner
    finds something to start with, [get_next_tasks] does not raise, and a
    run of the workflow cannot stop at its first step for want of a ready
    task. *)
Theorem planned_workflow_has_ready_tasks (E : Env) (goal description : string)
    (context : option (Dict PyVal)) (st : Core) :
  exists st' w ready,
    plan_workflow E goal description context st = (st', length (heap st)) /\
    heap st' !! length (heap st) = Some w /\
    get_next_tasks st' (wf_id w) = Returned ready /\
    ready <> [] /\
    (forall t, t ∈ ready <->
               t ∈ dict_values (wf_tasks w) /\ task_dependencies t = []).
Proof.
  destruct (plan_workflow_shape E goal description context st)
    as (st' & w & tasks & Hplan & Hheap & Hwfs & _ & _ & _ & _ & _
        & Hissued & _ & Hlen & Htasks & _).
  destruct Hissued as (_ & Hids & Hnew).
  cbn [_task_counter set_clock_reads] in Hids.
  assert (Hnd : NoDup (map task_id tasks)).
  { rewrite Hids. apply task_labels_NoDup. }
  destruct (planned_for_scheduler w tasks Htasks Hnd Hnew)
    as (Hkeyed & Hclosed & Hranked & Hpending).
  assert (Hl : heap st' !! length (heap st) = Some w).
  { rewrite Hheap. by apply list_lookup_middle. }
  destruct (pending_acyclic_ready w (rank_in w) Hclosed Hranked Hpending)
    as (ready & Hready & Hne & Hmem).
  { intros Hnil. rewrite Htasks in Hnil. apply (f_equal length) in Hnil.
    rewrite length_map in Hnil. simpl in Hnil. lia. }
  exists st', w, ready. split; [done|]. split; [done|].
  split; [|done].
  unfold get_next_tasks.
  rewrite (find_workflow_intro st' (wf_id w) (length (heap st)) w); [done| |done].
  rewrite Hwfs. apply lookup_insert_eq.
Qed.

(** ** The default plan *)

Lemma decompose_plain_goal (E : Env) (goal description : string)
    (context : Dict PyVal) (st : Core) :
  plain_goal goal ->
  _decompose_goal E goal description context st = _create_default_tasks E goal st.
Proof.
  intros (H1 & H2 & H3 & H4 & H5). unfold _decompose_goal.
  rewrite H1, H2, H3, H4, H5. reflexivity.
Qed.

Lemma with_producers_none (tasks : list Task) (t : Task) :
  Forall (fun p => dict_get (task_action p) action_sequences = None) tasks ->
  task_dependencies t = [] ->
  with_producers tasks t = t.
Proof.
  intros Hnone Hdeps. unfold with_producers.
  assert (Hfilter : filter (fun p => feeds p t) tasks = []).
  { induction Hnone as [|p tasks Hp _ IH]; [done|].
    assert (Hf : feeds p t = false) by (unfold feeds; by rewrite Hp).
    rewrite filter_cons.
    rewrite decide_False by (rewrite Hf; by intros []). exact IH. }
  rewrite Hfilter, Hdeps. cbn [map app]. rewrite <- Hdeps.
  apply set_task_dependencies_same.
Qed.

Lemma sorted_id {A} (key : A -> nat) (l : list A) :
  StronglySorted (fun a b => key a <= key b) l -> sorted key l = l.
Proof.
  induction 1 as [|x l Hsorted IH Hall]; [done|].
  cbn [sorted]. rewrite IH. destruct l as [|y l]; [done|].
  cbn [insert_by]. apply Forall_cons in Hall as [Hxy _].
  by rewrite (proj2 (Nat.leb_le _ _) Hxy).
Qed.

Lemma collect_ready_all (tasks : Dict Task) (vals : list Task) :
  Forall (fun t => (task_status t = PENDING \/ task_status t = READY) /\
                   task_dependencies t = []) vals ->
  collect_ready tasks vals = Returned vals.
Proof.
  induction 1 as [|t vals [Hs Hd] _ IH]; [done|].
  cbn [collect_ready]. rewrite Hd, IH. cbn [deps_met].
  destruct Hs as [-> | ->]; done.
Qed.

(** X7. A goal that contains none of the key words gets the default plan:
    three tasks with the actions analyze, execute and validate, in this
    order, under the next three task ids and without dependencies, each
    with the goal as its parameter; the priorities are HIGH, HIGH and
    MEDIUM and the estimated total duration is 45. All three tasks are
    ready at once, in this order. *)
Theorem plain_goal_gets_default_plan (E : Env) (goal description : string)
    (context : option (Dict PyVal)) (st : Core) :
  plain_goal goal ->
  let n := _task_counter st in
  exists st' w,
    plan_workflow E goal description context st = (st', length (heap st)) /\
    heap st' !! length (heap st) = Some w /\
    task_wiring w
    = [ (task_label (1 + n), task_label (1 + n), "analyze", []);
        (task_label (2 + n), task_label (2 + n), "execute", []);
        (task_label (3 + n), task_label (3 + n), "validate", []) ] /\
    map (fun t => (task_name t, task_priority t, task_parameters t))
      (dict_values (wf_tasks w))
    = [ ("Analyze Goal", HIGH, [("goal", PyStr goal)]);
        ("Execute", HIGH, [("goal", PyStr goal)]);
        ("Validate Results", MEDIUM, [("goal", PyStr goal)]) ] /\
    wf_estimated_total_duration w = 45%Z /\
    get_ready_tasks w = Returned (dict_values (wf_tasks w)).
Proof.
  intros Hplain n.
  destruct (plan_workflow_shape E goal description context st)
    as (st' & w & tasks & Hplan & Hheap & _ & _ & _ & _ & _ & _ & _ & Hdecompose
        & _ & Htasks & _ & Hdur & _).
  rewrite decompose_plain_goal in Hdecompose by done.
  unfold _create_default_tasks, bind, new_task, bind, _next_task_id, now, ret
    in Hdecompose.
  cbn [snd fst _task_counter clock_reads set_task_counter set_clock_reads]
    in Hdecompose.
  fold n in Hdecompose.
  assert (Hnone : Forall (fun p => dict_get (task_action p) action_sequences = None)
                    tasks).
  { rewrite Hdecompose. by repeat constructor. }
  assert (Hsame : map (fun t => (task_id t, with_producers tasks t)) tasks
                  = map (fun t => (task_id t, t)) tasks).
  { apply map_ext_in. intros t Ht. f_equal. apply with_producers_none; [done|].
    rewrite Hdecompose in Ht.
    repeat (destruct Ht as [<-|Ht]; [done|]). done. }
  rewrite Hsame in Htasks.
  exists st', w. split; [done|].
  split; [rewrite Hheap; by apply list_lookup_middle|].
  unfold task_wiring, get_ready_tasks.
  rewrite Hdur, Htasks, dict_values_filed, map_id.
  rewrite collect_ready_all.
  2:{ rewrite Hdecompose. repeat constructor. }
  rewrite sorted_id.
  2:{ rewrite Hdecompose. repeat constructor; cbn; lia. }
  rewrite Hdecompose. by repeat split.
Qed.

(** ** A workflow that the planner does not hold *)

Lemma update_detached (E : Env) (st : Core) (wid tid : string) s r e :
  workflows st !! wid = None ->
  update_task_status E wid tid s r e st = (st, false).
Proof.
  intros Hnone. rewrite update_task_status_eq.
  by rewrite (find_workflow_None st wid Hnone).
Qed.

Lemma _execute_task_detached (E : Env) (st : Core) (l : loc) (w : Workflow)
    (task : Task) (result : ExecutionResult) :
  heap st !! l = Some w -> workflows st !! wf_id w = None ->
  exists st' result' success,
    _execute_task E st l task result = Some (st', result', success) /\
    heap st' = heap st /\ same_setup st st' /\
    dispatched st' = task_id task :: dispatched st /\
    same_tally result result'.
Proof.
  intros Hl Hnone. unfold _execute_task. rewrite Hl. cbn [mbind option_bind].
  set (st0 := set_dispatched (task_id task :: dispatched st) st).
  assert (Hnone0 : workflows st0 !! wf_id w = None) by done.
  rewrite (update_detached E st0) by done. cbn [fst].
  unfold try_task.
  destruct (default _default_handler (_action_handlers st0 !! task_action task)
              (task_parameters task)) as [task_result|e].
  - rewrite (update_detached E st0) by done. cbn [fst].
    set (result1 := set_er_results _ result).
    set (output := default PyNone (dict_get "output" task_result)).
    pose proof (review_output_frame E task output st0 result1) as Hrev.
    destruct (review_output E task output st0 result1) as [[st3 result3] raised3].
    destruct Hrev as (Hheap3 & Hsetup3 & Hdisp3 & Htally3 & _).
    assert (Hnone3 : workflows st3 !! wf_id w = None).
    { destruct Hsetup3 as (-> & _). done. }
    destruct raised3 as [e|].
    + rewrite (update_detached E st3) by done. cbn [fst].
      eexists _, _, false. split; [reflexivity|].
      split; [exact Hheap3|]. split; [exact Hsetup3|]. split; [exact Hdisp3|].
      exact Htally3.
    + pose proof (summarize_output_frame E task output st3 result3) as Hsum.
      destruct (summarize_output E task output st3 result3)
        as [[st5 result5] raised5].
      destruct Hsum as (Hheap5 & Hsetup5 & Hdisp5 & Htally5 & _).
      assert (Hnone5 : workflows st5 !! wf_id w = None).
      { destruct Hsetup5 as (-> & _). done. }
      assert (Hheap05 : heap st5 = heap st) by (by rewrite Hheap5).
      assert (Hsetup05 : same_setup st st5)
        by (eapply same_setup_trans; [exact Hsetup3|exact Hsetup5]).
      assert (Hdisp05 : dispatched st5 = task_id task :: dispatched st)
        by (by rewrite Hdisp5).
      assert (Htally05 : same_tally result result5)
        by (eapply same_tally_trans; [exact Htally3|exact Htally5]).
      destruct raised5 as [e|].
      * rewrite (update_detached E st5) by done. cbn [fst].
        eexists _, _, false. split; [reflexivity|].
        split; [exact Hheap05|]. split; [exact Hsetup05|].
        split; [exact Hdisp05|exact Htally05].
      * eexists _, _, true. split; [reflexivity|].
        split; [exact Hheap05|]. split; [exact Hsetup05|].
        split; [exact Hdisp05|exact Htally05].
  - rewrite (update_detached E st0) by done. cbn [fst].
    eexists _, _, false. split; [reflexivity|]. by repeat split.
Qed.

Lemma run_ready_detached (E : Env) (l : loc) (w : Workflow) (tasks : list Task) :
  forall st result executed,
  heap st !! l = Some w -> workflows st !! wf_id w = None ->
  exists st' result' executed',
    run_ready_sequential E st l tasks result executed
      = Some (st', result', executed') /\
    heap st' = heap st /\ same_setup st st' /\
    dispatched st' = rev (map task_id tasks) ++ dispatched st /\
    (forall k, k ∈ executed' <-> k ∈ map task_id tasks \/ k ∈ executed) /\
    er_tasks_completed result' + er_tasks_failed result'
      = er_tasks_completed result + er_tasks_failed result + length tasks.
Proof.
  induction tasks as [|task tasks IH]; intros st result executed Hl Hnone.
  { exists st, result, executed. split; [done|]. split; [done|]. split; [done|].
    split; [done|]. split; [|simpl; lia].
    intros k. split; [by right|]. intros [Hk|Hk]; [by apply elem_of_nil in Hk|done]. }
  destruct (_execute_task_detached E st l w task result Hl Hnone)
    as (st1 & result1 & success & Hrun & Hheap1 & Hsetup1 & Hdisp1 & Htally1).
  cbn [run_ready_sequential]. rewrite Hrun. cbn [mbind option_bind].
  set (result2 := if success
                  then set_er_tasks_completed (er_tasks_completed result1 + 1) result1
                  else set_er_tasks_failed (er_tasks_failed result1 + 1) result1).
  destruct (IH st1 result2 ({[task_id task]} ∪ executed))
    as (st' & result' & executed' & Hrun' & Hheap' & Hsetup' & Hdisp' & Hex' & Hsum').
  { by rewrite Hheap1. }
  { destruct Hsetup1 as (-> & _). done. }
  exists st', result', executed'. split; [exact Hrun'|].
  split; [congruence|]. split; [by eapply same_setup_trans|].
  split.
  { rewrite Hdisp', Hdisp1. cbn [map rev]. by rewrite <- app_assoc. }
  split.
  { intros k. rewrite Hex', elem_of_add. cbn [map]. rewrite elem_of_cons. tauto. }
  destruct Htally1 as (_ & _ & Hc & Hf & _).
  subst result2. destruct success; cbn in Hsum'; cbn [length]; lia.
Qed.

Lemma filter_unexecuted_all (executed : gset string) (ready : list Task) :
  (forall t, t ∈ ready -> task_id t ∉ executed) ->
  filter (fun t => task_id t ∉ executed) ready = ready.
Proof.
  induction ready as [|t ready IH]; intros Hall; [done|].
  rewrite filter_cons, decide_True by (apply Hall; left).
  f_equal. apply IH. intros t' Ht'. apply Hall. by right.
Qed.

Lemma filter_unexecuted_none (executed : gset string) (ready : list Task) :
  (forall t, t ∈ ready -> task_id t ∈ executed) ->
  filter (fun t => task_id t ∉ executed) ready = [].
Proof.
  induction ready as [|t ready IH]; intros Hall; [done|].
  rewrite filter_cons, decide_False.
  - apply IH. intros t' Ht'. apply Hall. by right.
  - intros Hnot. apply Hnot, Hall. left.
Qed.

(** A later round of the loop on a detached workflow: the ready tasks have
    all been executed, so the loop ends. *)
Lemma loop_detached_ends (E : Env) (l : loc) (w : Workflow) (ready : list Task)
    (fuel : nat) (st : Core) (result : ExecutionResult) (executed : gset string) :
  heap st !! l = Some w ->
  get_ready_tasks w = Returned ready ->
  (forall t, t ∈ ready -> task_id t ∈ executed) ->
  executed <> ∅ ->
  loop_sequential E (S fuel) st l result executed = Some (st, result, None).
Proof.
  intros Hl Hready Hall Hsome.
  cbn [loop_sequential]. rewrite Hl. cbn [mbind option_bind].
  destruct (size executed <? length (wf_tasks w))%nat; [|done].
  rewrite Hready, filter_unexecuted_none by done.
  by rewrite bool_decide_eq_false_2.
Qed.

(** The first round: every ready task is executed once, and the second
    round ends the loop. *)
Lemma loop_detached (E : Env) (l : loc) (w : Workflow) (ready : list Task)
    (fuel : nat) (st : Core) (result : ExecutionResult) :
  heap st !! l = Some w ->
  workflows st !! wf_id w = None ->
  get_ready_tasks w = Returned ready ->
  ready <> [] ->
  exists st' result',
    loop_sequential E (S (S fuel)) st l result ∅ = Some (st', result', None) /\
    heap st' = heap st /\ same_setup st st' /\
    dispatched st' = rev (map task_id ready) ++ dispatched st /\
    er_tasks_completed result' + er_tasks_failed result'
      = er_tasks_completed result + er_tasks_failed result + length ready.
Proof.
  intros Hl Hnone Hready Hne.
  destruct (run_ready_detached E l w ready st result ∅ Hl Hnone)
    as (st1 & result1 & executed1 & Hrun & Hheap1 & Hsetup1 & Hdisp1 & Hex1 & Hsum1).
  assert (Hl1 : heap st1 !! l = Some w) by (by rewrite Hheap1).
  assert (Hin : forall t, t ∈ ready -> task_id t ∈ executed1).
  { intros t Ht. apply Hex1. left. by apply list_elem_of_fmap_2. }
  assert (Hsome : executed1 <> ∅).
  { destruct ready as [|task rest]; [done|].
    intros Heq. specialize (Hin task ltac:(left)).
    rewrite Heq in Hin. by apply elem_of_empty in Hin. }
  pose proof (loop_detached_ends E l w ready fuel st1 result1 executed1
                Hl1 Hready Hin Hsome) as Hend.
  exists st1, result1. split; [|done].
  remember (S fuel) as fuel1 eqn:Hfuel.
  cbn [loop_sequential]. rewrite Hl. cbn [mbind option_bind].
  rewrite size_empty.
  assert (Hpos : (0 <? length (wf_tasks w))%nat = true).
  { apply Nat.ltb_lt. destruct (wf_tasks w) eqn:Htasks; [|simpl; lia].
    unfold get_ready_tasks in Hready. rewrite Htasks in Hready. cbn in Hready.
    congruence. }
  rewrite Hpos, Hready.
  rewrite filter_unexecuted_all by (intros t _; apply not_elem_of_empty).
  destruct ready as [|task rest]; [done|].
  rewrite Hrun. cbn [mbind option_bind]. exact Hend.
Qed.

(** X15. [_execute_workflow_tasks] on a workflow object whose id the
    orchestrator's planner does not hold, with at least one ready task: the
    call returns normally and counts every ready task as completed or
    failed, each handed to [_execute_task] once, in the order of
    [get_ready_tasks]; but no workflow object changes: every task keeps its
    status, so the same tasks are ready again afterwards. Nothing is
    recorded under the executions. *)
Theorem detached_workflow_is_not_updated (E : Env) (st : Core) (l : loc)
    (w : Workflow) (ready : list Task) :
  heap st !! l = Some w ->
  workflows st !! wf_id w = None ->
  get_ready_tasks w = Returned ready ->
  ready <> [] ->
  exists st' result,
    _execute_workflow_tasks E st l = Some (st', result) /\
    heap st' = heap st /\
    dispatched st' = rev (map task_id ready) ++ dispatched st /\
    er_tasks_completed result + er_tasks_failed result = length ready /\
    er_success result = (er_tasks_failed result =? 0)%nat /\
    er_status result
      = (if er_success result then "completed" else "completed_with_errors") /\
    executions st' = executions st.
Proof.
  intros Hl Hnone Hready Hne.
  unfold _execute_workflow_tasks. rewrite Hl. cbn [mbind option_bind].
  unfold now at 1.
  set (st0 := set_clock_reads (S (clock_reads st)) st).
  destruct (wf_tasks w) as [|kv tasks] eqn:Htasks.
  { unfold get_ready_tasks in Hready. rewrite Htasks in Hready.
    cbn in Hready. congruence. }
  set (result0 := mkResult _ _ _ _ _ _ _ _ _ _ _ _ _).
  rewrite run_strategy_eq. unfold _execute_sequential.
  assert (Hl0 : heap st0 !! l = Some w) by done.
  assert (Hnone0 : workflows st0 !! wf_id w = None) by done.
  rewrite Hl0. cbn [mbind option_bind]. rewrite Htasks. cbn [length].
  destruct (loop_detached E l w ready (length tasks) st0 result0 Hl0 Hnone0 Hready Hne)
    as (st1 & result1 & Hloop & Hheap1 & Hsetup1 & Hdisp1 & Hsum1).
  rewrite Hloop. cbn [mbind option_bind].
  unfold stamp, bind, ret, now. eexists _, _. split; [reflexivity|].
  cbn. cbn in Hsum1. destruct Hsetup1 as (_ & _ & _ & Hexec & _).
  repeat split; done.
Qed.

(** ** Status updates *)

(** X9. [update_task_status] on a task that the planner holds: it returns true
    and writes the status as given, whatever the status was before. The
    start is stamped only for IN_PROGRESS, the completion only for COMPLETED
    and FAILED; [result] is stored only with COMPLETED (and then also when
    it is [None]) and [error] only with FAILED; with every other status
    both arguments are dropped. The clock is read once in the three
    stamping cases and not at all otherwise. The other fields of the task,
    the other tasks, the other fields of the workflow and the other
    workflow objects are as before. *)
Theorem update_task_status_effect (E : Env) (st : Core) (wid tid : string)
    (s : TaskStatus) (r : option (Dict PyVal)) (e : option string)
    (l : loc) (w : Workflow) (t0 : Task) :
  find_workflow st wid = Some (l, w) ->
  dict_get tid (wf_tasks w) = Some t0 ->
  exists st' w' t',
    update_task_status E wid tid s r e st = (st', true) /\
    heap st' = <[l := w']> (heap st) /\
    same_but_tasks w w' /\
    dict_keys (wf_tasks w') = dict_keys (wf_tasks w) /\
    dict_get tid (wf_tasks w') = Some t' /\
    (forall k, k <> tid -> dict_get k (wf_tasks w') = dict_get k (wf_tasks w)) /\
    same_static t0 t' /\
    task_status t' = s /\
    task_started_at t'
      = (if bool_decide (s = IN_PROGRESS)
         then Some (wall_clock E (clock_reads st)) else task_started_at t0) /\
    task_completed_at t'
      = (if bool_decide (s = COMPLETED \/ s = FAILED)
         then Some (wall_clock E (clock_reads st)) else task_completed_at t0) /\
    task_result t' = (if bool_decide (s = COMPLETED) then r else task_result t0) /\
    task_error t' = (if bool_decide (s = FAILED) then e else task_error t0) /\
    clock_reads st'
      = (if reads_clock s then S (clock_reads st) else clock_reads st) /\
    same_setup st st'.
Proof.
  intros Hfind Hget. rewrite update_task_status_eq, Hfind, Hget.
  set (t' := stamp_status s r e (wall_clock E (clock_reads st)) t0).
  eexists _, (set_wf_tasks (dict_modify tid (fun _ => t') (wf_tasks w)) w), t'.
  split; [reflexivity|].
  unfold modify_task. rewrite (dict_modify_const tid _ t0) by done. fold t'.
  cbn [wf_tasks set_wf_tasks].
  split; [by destruct s|].
  split; [done|].
  split; [apply dict_keys_modify|].
  split; [by eapply dict_get_modify_const|].
  split; [intros k Hne; by apply dict_get_modify_ne|].
  split; [apply stamp_status_static|].
  subst t'. by destruct s.
Qed.

(** ** A review that fails *)

Lemma dict_get_set_eq {V} (k : string) (v : V) (d : Dict V) :
  dict_get k (dict_set k v d) = Some v.
Proof.
  induction d as [|[k' v'] d IH]; simpl.
  - by rewrite String.eqb_refl.
  - destruct (String.eqb k' k) eqn:Hk; simpl; rewrite Hk; done.
Qed.

(** X16. When the handler of a task returns and the critic then raises,
    [_execute_task] answers false and the task ends FAILED with the error
    message, yet it keeps the result of the handler: the task was marked
    COMPLETED first, the handler's answer stays in the task and in the
    results of the execution, and the failure is added to the errors. *)
Theorem failed_review_keeps_result (E : Env) (st : Core) (l : loc)
    (w : Workflow) (task t0 : Task) (result : ExecutionResult)
    (r : Dict PyVal) (e : Exn) :
  registered st l w ->
  dict_get (task_id task) (wf_tasks w) = Some t0 ->
  handler_for st (task_action task) (task_parameters task) = Returned r ->
  enable_criticism (config st) = true ->
  truthy (default PyNone (dict_get "output" r)) = true ->
  critic_review E (critic_calls st) (default PyNone (dict_get "output" r))
    (task_action task) (task_name task) = Raised e ->
  let msg := "Task " +:+ task_id task +:+ " failed: " +:+ exn_str e in
  exists st' result' w' t',
    _execute_task E st l task result = Some (st', result', false) /\
    heap st' !! l = Some w' /\
    dict_get (task_id task) (wf_tasks w') = Some t' /\
    task_status t' = FAILED /\
    task_result t' = Some r /\
    task_error t' = Some msg /\
    is_set (task_completed_at t') /\
    dict_get (task_id task) (er_results result') = Some r /\
    er_errors result' = er_errors result ++ [msg].
Proof.
  intros Hreg Hget Hrun Hcrit Htruthy Hraise msg. pose proof Hreg as [Hl Hwid].
  unfold _execute_task. rewrite Hl. cbn [mbind option_bind].
  set (st0 := set_dispatched (task_id task :: dispatched st) st).
  assert (Hreg0 : registered st0 l w) by done.
  destruct (update_registered E st0 l w (task_id task) t0 IN_PROGRESS None None
              Hreg0 Hget) as (Hheap1 & Hreg1 & Hget1 & Hsetup1 & _ & Hcalls1 & _).
  set (t1 := stamp_status IN_PROGRESS None None (wall_clock E (clock_reads st0)) t0) in *.
  set (w1 := set_wf_tasks (dict_modify (task_id task) (fun _ => t1) (wf_tasks w)) w) in *.
  set (st1 := fst (update_task_status E (wf_id w) (task_id task) IN_PROGRESS None None st0)) in *.
  unfold try_task.
  change (default _default_handler (_action_handlers st1 !! task_action task))
    with (handler_for st1 (task_action task)).
  assert (Hhandler : handler_for st1 (task_action task) = handler_for st (task_action task)).
  { unfold handler_for. destruct Hsetup1 as (_ & _ & _ & _ & ->). done. }
  rewrite Hhandler, Hrun.
  change (wf_id w) with (wf_id w1).
  destruct (update_registered E st1 l w1 (task_id task) t1 COMPLETED (Some r) None
              Hreg1 Hget1) as (Hheap2 & Hreg2 & Hget2 & Hsetup2 & _ & Hcalls2 & _).
  set (t2 := stamp_status COMPLETED (Some r) None (wall_clock E (clock_reads st1)) t1) in *.
  set (w2 := set_wf_tasks (dict_modify (task_id task) (fun _ => t2) (wf_tasks w1)) w1) in *.
  set (st2 := fst (update_task_status E (wf_id w1) (task_id task) COMPLETED (Some r) None st1)) in *.
  unfold review_output.
  assert (Hcfg : enable_criticism (config st2) = true).
  { destruct Hsetup2 as (_ & _ & -> & _). destruct Hsetup1 as (_ & _ & -> & _). done. }
  assert (Hcalls : critic_calls st2 = critic_calls st)
    by (etrans; [exact Hcalls2|exact Hcalls1]).
  rewrite Hcfg, Htruthy, Hcalls, Hraise. cbn [andb].
  set (st3 := set_critic_calls (S (critic_calls st)) st2).
  assert (Hreg3 : registered st3 l w2) by done.
  change (wf_id w) with (wf_id w2).
  destruct (update_registered E st3 l w2 (task_id task) t2 FAILED None (Some msg)
              Hreg3 Hget2) as (Hheap4 & Hreg4 & Hget4 & _).
  set (t4 := stamp_status FAILED None (Some msg) (wall_clock E (clock_reads st3)) t2) in *.
  eexists _, _, _, t4. split; [reflexivity|].
  split; [by destruct Hreg4|]. split; [exact Hget4|].
  split; [done|]. split; [done|]. split; [done|]. split; [done|].
  split; [apply dict_get_set_eq|done].
Qed.

(** ** A cancelled workflow *)

Lemma collect_ready_none (tasks : Dict Task) (vals : list Task) :
  Forall (fun t => task_status t <> READY /\ task_status t <> PENDING) vals ->
  collect_ready tasks vals = Returned [].
Proof.
  induction 1 as [|t vals [H1 H2] _ IH]; [done|].
  cbn [collect_ready].
  rewrite (bool_decide_eq_false_2 _ H1), (bool_decide_eq_false_2 _ H2). exact IH.
Qed.

Lemma cancel_task_twice (t : Task) : cancel_task (cancel_task t) = cancel_task t.
Proof.
  destruct t as [? ? ? ? ? ? ? ? s ? ? ? ? ? ?]. destruct s; reflexivity.
Qed.

Lemma cancel_task_not_ready (t : Task) :
  task_status (cancel_task t) <> READY /\ task_status (cancel_task t) <> PENDING.
Proof.
  destruct t as [? ? ? ? ? ? ? ? s ? ? ? ? ? ?].
  destruct s; split; vm_compute; discriminate.
Qed.

(** A run that finds no ready task at its first step counts nothing. *)
Lemma deadlock_counts (E : Env) (st st' : Core) (l : loc) (w : Workflow)
    (result : ExecutionResult) :
  heap st !! l = Some w -> wf_tasks w <> [] ->
  get_ready_tasks w = Returned [] ->
  _execute_workflow_tasks E st l = Some (st', result) ->
  er_tasks_completed result = 0 /\ er_tasks_failed result = 0 /\
  er_tasks_total result = length (wf_tasks w).
Proof.
  intros Hl Hne Hready Hrun.
  unfold _execute_workflow_tasks in Hrun. rewrite Hl in Hrun.
  cbn [mbind option_bind] in Hrun. unfold now at 1 in Hrun.
  destruct (wf_tasks w) as [|kv tasks] eqn:Htasks; [done|].
  rewrite run_strategy_eq in Hrun. unfold _execute_sequential in Hrun.
  cbn [heap set_clock_reads] in Hrun. rewrite Hl in Hrun.
  cbn [mbind option_bind] in Hrun.
  cbn [loop_sequential heap set_clock_reads] in Hrun. rewrite Hl in Hrun.
  cbn [mbind option_bind] in Hrun. rewrite size_empty, Htasks in Hrun.
  change (0 <? length (kv :: tasks))%nat with true in Hrun. cbv iota in Hrun.
  rewrite Hready, filter_nil in Hrun.
  rewrite bool_decide_eq_true_2 in Hrun by done.
  cbn [mbind option_bind] in Hrun. injection Hrun as _ <-. done.
Qed.

(** X17. After [cancel_workflow] no task of the workflow is ready:
    [get_next_tasks] returns the empty list, without raising even when a
    dependency names no task; a second [cancel_workflow] changes nothing;
    and when the workflow has tasks, [_execute_workflow_tasks] on it hands
    no task to a handler, changes no workflow object and returns the status
    "failed" with the error "No ready tasks and nothing executed". *)
Theorem cancelled_workflow_has_nothing_to_run (E : Env) (st : Core)
    (wid : string) (l : loc) (w : Workflow) :
  find_workflow st wid = Some (l, w) ->
  exists st1,
    cancel_workflow wid st = (st1, true) /\
    get_next_tasks st1 wid = Returned [] /\
    cancel_workflow wid st1 = (st1, true) /\
    (wf_tasks w <> [] ->
     exists st2 result,
       _execute_workflow_tasks E st1 l = Some (st2, result) /\
       er_status result = "failed" /\ er_success result = false /\
       er_tasks_completed result = 0 /\ er_tasks_failed result = 0 /\
       er_errors result = ["No ready tasks and nothing executed"] /\
       heap st2 = heap st1 /\ dispatched st2 = dispatched st1).
Proof.
  intros Hfind. pose proof (find_workflow_Some st wid l w Hfind) as [Hwid Hl].
  assert (Hlen : l < length (heap st)) by (by eapply lookup_lt_Some).
  unfold cancel_workflow at 1. rewrite Hfind.
  set (w1 := set_wf_tasks (map (fun kv => (fst kv, cancel_task (snd kv))) (wf_tasks w)) w).
  set (st1 := set_heap (<[l := w1]> (heap st)) st).
  assert (Hl1 : heap st1 !! l = Some w1) by (by apply list_lookup_insert_eq).
  assert (Hfind1 : find_workflow st1 wid = Some (l, w1))
    by (by apply find_workflow_intro).
  assert (Hready : get_ready_tasks w1 = Returned []).
  { unfold get_ready_tasks. rewrite collect_ready_none; [done|].
    unfold dict_values, w1. cbn [wf_tasks set_wf_tasks]. rewrite map_map.
    apply Forall_forall. intros t (kv & -> & _)%list_elem_of_fmap.
    apply cancel_task_not_ready. }
  exists st1. split; [done|].
  split; [unfold get_next_tasks; by rewrite Hfind1|].
  split.
  { unfold cancel_workflow. rewrite Hfind1. f_equal.
    assert (Hsame : set_wf_tasks
                      (map (fun kv => (fst kv, cancel_task (snd kv))) (wf_tasks w1)) w1
                    = w1).
    { unfold w1 at 1 3. cbn [wf_tasks set_wf_tasks]. rewrite map_map.
      unfold w1, set_wf_tasks. cbn. f_equal.
      apply map_ext. intros [k t]. cbn. by rewrite cancel_task_twice. }
    rewrite Hsame. unfold st1. cbn [heap set_heap].
    rewrite list_insert_insert_eq. done. }
  intros Hne.
  destruct (deadlock_is_reported E st1 l w1 Hl1) as (st2 & result & Hrun & Hheap
    & Hdisp & Hstatus & Hsuccess & Herrs & _); [|done|].
  { unfold w1. cbn [wf_tasks set_wf_tasks]. by destruct (wf_tasks w). }
  exists st2, result. split; [done|]. split; [done|]. split; [done|].
  assert (Hne1 : wf_tasks w1 <> []).
  { unfold w1. cbn [wf_tasks set_wf_tasks]. by destruct (wf_tasks w). }
  destruct (deadlock_counts E st1 st2 l w1 result Hl1 Hne1 Hready Hrun) as (Hc & Hf & _).
  assert (Hcount : er_tasks_completed result = 0 /\ er_tasks_failed result = 0) by done.
  destruct Hcount. done.
Qed.

(** ** A dependency that names no task *)

Lemma deps_met_raises (tasks : Dict Task) (deps : list string) (e : Exn) :
  deps_met tasks deps = Raised e ->
  exists dep_id, dep_id ∈ deps /\ dict_get dep_id tasks = None /\
                 e = KeyError dep_id.
Proof.
  induction deps as [|dep_id deps IH]; cbn [deps_met]; [done|].
  destruct (dict_get dep_id tasks) as [d|] eqn:Hd.
  - destruct (bool_decide (task_status d = COMPLETED)); [|done].
    intros (x & Hx & H)%IH. exists x. split; [by right|done].
  - intros [= <-]. exists dep_id. split; [left|done].
Qed.

Lemma collect_ready_raises (tasks : Dict Task) (vals : list Task) (e : Exn) :
  collect_ready tasks vals = Raised e ->
  exists t dep_id,
    t ∈ vals /\ (task_status t = READY \/ task_status t = PENDING) /\
    dep_id ∈ task_dependencies t /\ dict_get dep_id tasks = None /\
    e = KeyError dep_id.
Proof.
  induction vals as [|t vals IH]; cbn [collect_ready]; [done|].
  assert (Hrest : collect_ready tasks vals = Raised e ->
                  exists t0 dep_id,
                    t0 ∈ t :: vals /\
                    (task_status t0 = READY \/ task_status t0 = PENDING) /\
                    dep_id ∈ task_dependencies t0 /\
                    dict_get dep_id tasks = None /\ e = KeyError dep_id).
  { intros (t0 & dep_id & Hin & H)%IH. exists t0, dep_id. split; [by right|done]. }
  destruct (bool_decide (task_status t = READY) || bool_decide (task_status t = PENDING))
    eqn:Hs; [|done].
  destruct (deps_met tasks (task_dependencies t)) as [ok|e'] eqn:Hdeps.
  - destruct (collect_ready tasks vals) as [ready|e'']; [done|].
    intros [= ->]. by apply Hrest.
  - intros [= ->]. apply deps_met_raises in Hdeps as (dep_id & Hin & Hnone & ->).
    exists t, dep_id. split; [left|]. split; [|done].
    apply orb_true_iff in Hs as [H|H]; apply bool_decide_eq_true in H; tauto.
Qed.

(** X19. When [get_ready_tasks] raises, it raises the [KeyError] of an id that
    a PENDING or READY task lists as a dependency and that names no task of
    the workflow. [_execute_workflow_tasks] on such a workflow does not
    raise: it returns the status "failed" with the message of the
    [KeyError] as its only error; no task was handed to a handler and no
    workflow object has changed. *)
Theorem dangling_dependency_fails_the_run (E : Env) (st : Core) (l : loc)
    (w : Workflow) (e : Exn) :
  heap st !! l = Some w ->
  get_ready_tasks w = Raised e ->
  (exists k t dep_id,
     (k, t) ∈ wf_tasks w /\
     (task_status t = READY \/ task_status t = PENDING) /\
     dep_id ∈ task_dependencies t /\
     dict_get dep_id (wf_tasks w) = None /\
     e = KeyError dep_id) /\
  exists st' result,
    _execute_workflow_tasks E st l = Some (st', result) /\
    er_status result = "failed" /\ er_success result = false /\
    er_errors result = [exn_str e] /\
    er_tasks_completed result = 0 /\ er_tasks_failed result = 0 /\
    is_set (er_completed_at result) /\
    heap st' = heap st /\ dispatched st' = dispatched st.
Proof.
  intros Hl Hraise. split.
  - unfold get_ready_tasks in Hraise.
    destruct (collect_ready (wf_tasks w) (dict_values (wf_tasks w)))
      as [ready|e'] eqn:Hcollect; [done|].
    injection Hraise as ->.
    apply collect_ready_raises in Hcollect as (t & dep_id & Hin & Hs & Hdep & Hnone & ->).
    apply elem_of_dict_values in Hin as [k Hin].
    by exists k, t, dep_id.
  - unfold _execute_workflow_tasks. rewrite Hl. cbn [mbind option_bind].
    unfold now at 1.
    destruct (wf_tasks w) as [|kv tasks] eqn:Htasks.
    { unfold get_ready_tasks in Hraise. rewrite Htasks in Hraise. done. }
    rewrite run_strategy_eq. unfold _execute_sequential.
    cbn [heap set_clock_reads]. rewrite Hl. cbn [mbind option_bind].
    cbn [loop_sequential heap set_clock_reads]. rewrite Hl.
    cbn [mbind option_bind]. rewrite size_empty, Htasks.
    change (0 <? length (kv :: tasks))%nat with true. cbv iota.
    rewrite Hraise. cbn [mbind option_bind].
    eexists _, _. split; [reflexivity|]. by repeat split.
Qed.

(** ** What a run leaves alone *)

(** X20. [_execute_workflow_tasks] changes nothing but the tasks inside the
    workflow objects: every workflow object is still there with its keys
    and its other fields, the planner's map of workflows, its task counter,
    the configuration, the handlers and the recorded executions are as
    before. In particular the run itself records no execution:
    [get_execution] and [get_workflow_status] answer as they did. *)
Theorem run_leaves_setup_alone (E : Env) (st st' : Core) (l : loc)
    (result : ExecutionResult) :
  _execute_workflow_tasks E st l = Some (st', result) ->
  same_setup st st' /\
  length (heap st') = length (heap st) /\
  (forall l0 w0, heap st !! l0 = Some w0 ->
     exists w0', heap st' !! l0 = Some w0' /\ same_but_tasks w0 w0' /\
                 dict_keys (wf_tasks w0') = dict_keys (wf_tasks w0)) /\
  (forall wid, get_workflow st' wid = get_workflow st wid) /\
  (forall wid, get_execution st' wid = get_execution st wid) /\
  (forall wid, get_workflow_status st wid = None ->
               get_workflow_status st' wid = None).
Proof.
  intros Hrun.
  assert (Hl : exists w, heap st !! l = Some w).
  { unfold _execute_workflow_tasks in Hrun.
    destruct (heap st !! l) as [w|]; [by exists w|done]. }
  destruct Hl as [w Hl].
  destruct (_execute_workflow_tasks_spec E st l w Hl) as (st2 & result2 & Hrun2 & Hsteps).
  assert (st2 = st') as -> by congruence.
  pose proof (exec_steps_frame E st st' Hsteps)
    as ((Hlen & Hheap) & Hwfs & Hcnt & Hcfg & Hex & Hh).
  split; [done|]. split; [done|].
  split.
  { intros l0 w0 Hl0. destruct (Hheap l0 w0 Hl0) as (w0' & Hl0' & Hframe).
    exists w0'. split; [done|].
    split; [by apply workflow_frame_same_but_tasks|].
    destruct Hframe as (tasks' & -> & Hkeys). done. }
  split; [intros wid; unfold get_workflow; by rewrite Hwfs|].
  split; [intros wid; unfold get_execution; by rewrite Hex|].
  intros wid. unfold get_workflow_status. rewrite Hex.
  destruct (executions st !! wid) as [execution|]; [|done].
  unfold find_workflow, get_workflow. rewrite Hwfs.
  destruct (workflows st !! wid) as [l0|]; [|done].
  destruct (heap st !! l0) as [w0|] eqn:Hl0; [done|].
  intros _. destruct (heap st' !! l0) as [w0'|] eqn:Hl0'; [|done].
  apply lookup_lt_Some in Hl0'. apply lookup_ge_None in Hl0. lia.
Qed.

(** ** Retrying *)

(** X21. [retry_failed_task] puts a FAILED task whose dependencies are all
    COMPLETED back among the ready tasks: after the call [get_next_tasks]
    returns a list that contains the task, now PENDING. *)
Theorem retried_task_is_ready_again (st : Core) (wid tid : string) (l : loc)
    (w : Workflow) (t : Task) :
  find_workflow st wid = Some (l, w) ->
  deps_closed w ->
  dict_get tid (wf_tasks w) = Some t ->
  task_status t = FAILED ->
  (forall dep_id, dep_id ∈ task_dependencies t ->
                  dep_completed (wf_tasks w) dep_id = true) ->
  exists st' ready,
    retry_failed_task wid tid st = (st', true) /\
    get_next_tasks st' wid = Returned ready /\
    set_task_status PENDING t ∈ ready.
Proof.
  intros Hfind Hclosed Hget Hfailed Hdeps.
  pose proof (find_workflow_Some st wid l w Hfind) as [Hwid Hl].
  assert (Hlen : l < length (heap st)) by (by eapply lookup_lt_Some).
  unfold retry_failed_task, get_task. rewrite Hfind, Hget.
  rewrite bool_decide_eq_false_2 by (intros Hne; by apply Hne).
  unfold modify_task. rewrite (dict_modify_const tid _ t) by done.
  set (t' := set_task_status PENDING t).
  set (d' := dict_modify tid (fun _ => t') (wf_tasks w)).
  set (w' := set_wf_tasks d' w).
  set (st' := set_heap (<[l := w']> (heap st)) st).
  assert (Hfind' : find_workflow st' wid = Some (l, w')).
  { apply find_workflow_intro; [done|]. by apply list_lookup_insert_eq. }
  assert (Hget' : dict_get tid d' = Some t') by (by eapply dict_get_modify_const).
  assert (Hclosed' : deps_closed w').
  { intros k t1 dep_id Hin Hdep. cbn [wf_tasks set_wf_tasks w'] in *.
    apply dict_get_key. unfold d'. rewrite dict_keys_modify. apply dict_get_key.
    apply elem_of_dict_modify in Hin as [Hin|(t0 & Hin & ->)].
    - by apply (Hclosed k t1).
    - apply (Hclosed tid t); [by apply dict_get_Some_elem|done]. }
  destruct (get_ready_tasks w') as [ready|e] eqn:Hready.
  2:{ rewrite get_ready_tasks_closed in Hready by done. done. }
  exists st', ready. split; [done|].
  split; [unfold get_next_tasks; by rewrite Hfind'|].
  apply (elem_of_ready w' ready t' Hclosed' Hready).
  cbn [wf_tasks set_wf_tasks w']. split.
  - apply elem_of_dict_values. exists tid. by apply dict_get_Some_elem.
  - apply ready_by_spec_intro; [by left|].
    intros dep_id Hdep. eapply dep_completed_modify; [exact Hget| |by apply Hdeps].
    rewrite Hfailed. done.
Qed.

(** ** [execute_workflow] on any goal *)

(** X14. [execute_workflow] returns for every goal, whatever the handlers and
    the collaborators do, and its result never has the status "failed": a
    planned workflow has a ready task and closed dependencies, so at least
    one task is handed to a handler and the run ends normally. The status is
    "completed" with success true when no task failed and
    "completed_with_errors" with success false otherwise; there is one error
    message per failed task; the counters agree with the numbers of
    COMPLETED and FAILED tasks of the workflow; no task is ready at the
    end; and the result is stored under the id of the new workflow. *)
Theorem execute_workflow_always_runs (E : Env) (st : Core)
    (goal description : string) (context : option (Dict PyVal)) :
  exists st' result w',
    execute_workflow E st goal description context = Some (st', result) /\
    heap st' = heap st ++ [w'] /\
    er_workflow_id result = wf_id w' /\
    get_execution st' (wf_id w') = Some result /\
    (er_status result = "completed" /\ er_success result = true /\
     er_tasks_failed result = 0 \/
     er_status result = "completed_with_errors" /\ er_success result = false /\
     0 < er_tasks_failed result) /\
    1 <= er_tasks_completed result + er_tasks_failed result /\
    er_tasks_completed result + er_tasks_failed result <= er_tasks_total result /\
    er_tasks_total result = length (wf_tasks w') /\
    length (er_errors result) = er_tasks_failed result /\
    pr_completed (get_progress w') = er_tasks_completed result /\
    pr_failed (get_progress w') = er_tasks_failed result /\
    get_ready_tasks w' = Returned [].
Proof.
  destruct (plan_workflow_shape E goal description context st)
    as (st0 & w & tasks & Hplan & Hheap0 & Hwfs0 & _ & _ & _ & _ & _ & Hissued
        & _ & Hlen & Htasks & _).
  destruct Hissued as (_ & Hids & Hnew).
  cbn [_task_counter set_clock_reads] in Hids.
  assert (Hnd : NoDup (map task_id tasks)).
  { rewrite Hids. apply task_labels_NoDup. }
  destruct (planned_for_scheduler w tasks Htasks Hnd Hnew)
    as (Hkeyed & Hclosed & Hranked & Hpending).
  assert (Hne : wf_tasks w <> []).
  { intros Hnil. rewrite Htasks in Hnil. apply (f_equal length) in Hnil.
    rewrite length_map in Hnil. simpl in Hnil. lia. }
  set (l := length (heap st)) in *.
  assert (Hreg : registered st0 l w).
  { split; [rewrite Hheap0; by apply list_lookup_middle|].
    rewrite Hwfs0. apply lookup_insert_eq. }
  destruct (_execute_workflow_tasks_registered E False st0 l w Hreg Hkeyed Hclosed Hne)
    as (st1 & result & d & order & Hrun & Hheap1 & Hsetup1 & _ & Hord & Hrel & Hnone
        & Hid & Htotal & Hdone & Hfail & Hsum & _ & _ & Hsome & _); [done|].
  destruct (pending_acyclic_ready w (rank_in w) Hclosed Hranked Hpending Hne)
    as (ready & Hready & Hnonempty & _).
  assert (Horder : order <> []).
  { intros ->. cbn [list_to_set] in Hrel.
    assert (Hd : d = wf_tasks w).
    { eapply run_rel_nothing_executed; [|exact Hrel]. by destruct Hkeyed. }
    rewrite Hd in Hnone.
    assert (Hw : set_wf_tasks (wf_tasks w) w = w) by (by destruct w).
    rewrite Hw in Hnone. congruence. }
  destruct (Hsome Horder) as (Hsuccess & Hstatus & Herrs).
  pose proof Hrel as (Hkeys & Hsub & _).
  assert (Hlen1 : length d = length (wf_tasks w)).
  { apply (f_equal length) in Hkeys. unfold dict_keys in Hkeys.
    by rewrite !length_map in Hkeys. }
  assert (Hheap : heap st1 = heap st ++ [set_wf_tasks d w]).
  { rewrite Hheap1, Hheap0. subst l.
    rewrite insert_app_r_alt by lia. by rewrite Nat.sub_diag. }
  rewrite (count_in_none COMPLETED (wf_tasks w)) in Hdone
    by (intros k t Hin; by rewrite (Hpending k t Hin)).
  rewrite (count_in_none FAILED (wf_tasks w)) in Hfail
    by (intros k t Hin; by rewrite (Hpending k t Hin)).
  unfold execute_workflow. rewrite Hplan, Hrun. cbn [mbind option_bind].
  eexists _, result, (set_wf_tasks d w). split; [reflexivity|].
  cbn [heap set_executions wf_id wf_tasks set_wf_tasks].
  split; [done|]. split; [done|].
  split; [unfold get_execution; cbn [executions set_executions]; rewrite Hid;
          apply lookup_insert_eq|].
  split.
  { rewrite Hstatus, Hsuccess.
    destruct (er_tasks_failed result) as [|n]; cbn; [by left|right].
    repeat split; lia. }
  split; [destruct order; [done|]; cbn [length] in Hsum; lia|].
  split.
  { rewrite Htotal, Hsum. destruct Hkeyed as [Hnd' _].
    rewrite <- (length_map fst (wf_tasks w)).
    apply NoDup_length_le; [done|done|].
    intros k Hk. apply Hsub. by apply elem_of_list_to_set. }
  split; [by rewrite Hlen1|]. split; [done|].
  unfold get_progress. cbn [pr_completed pr_failed wf_tasks set_wf_tasks].
  change (count_status COMPLETED (set_wf_tasks d w)) with (count_in COMPLETED d).
  change (count_status FAILED (set_wf_tasks d w)) with (count_in FAILED d).
  split; [lia|]. split; [lia|done].
Qed.

(** ** A workflow with nothing left to do *)

(** X18. [_execute_workflow_tasks] on a workflow that has tasks, none of them
    PENDING or READY (all completed in an earlier run, say): the status is
    "failed" with the error "No ready tasks and nothing executed", success
    is false and both counters are 0, although the workflow may consist of
    COMPLETED tasks only; no task is handed to a handler and no workflow
    object changes. So running a workflow a second time after it completed
    reports a failure. *)
Theorem settled_workflow_cannot_run (E : Env) (st : Core) (l : loc)
    (w : Workflow) :
  heap st !! l = Some w ->
  wf_tasks w <> [] ->
  (forall k t, (k, t) ∈ wf_tasks w ->
     task_status t <> PENDING /\ task_status t <> READY) ->
  get_ready_tasks w = Returned [] /\
  exists st' result,
    _execute_workflow_tasks E st l = Some (st', result) /\
    er_status result = "failed" /\ er_success result = false /\
    er_errors result = ["No ready tasks and nothing executed"] /\
    er_tasks_completed result = 0 /\ er_tasks_failed result = 0 /\
    er_tasks_total result = length (wf_tasks w) /\
    heap st' = heap st /\ dispatched st' = dispatched st.
Proof.
  intros Hl Hne Hsettled.
  assert (Hready : get_ready_tasks w = Returned []).
  { unfold get_ready_tasks. rewrite collect_ready_none; [done|].
    apply Forall_forall. intros t [k Hin]%elem_of_dict_values.
    destruct (Hsettled k t Hin). done. }
  split; [done|].
  destruct (deadlock_is_reported E st l w Hl Hne Hready)
    as (st' & result & Hrun & Hheap & Hdisp & Hstatus & Hsuccess & Herrs & _).
  destruct (deadlock_counts E st st' l w result Hl Hne Hready Hrun) as (Hc & Hf & Ht).
  by exists st', result.
Qed.

(** ** Resolving dependencies twice *)

Lemma add_producers_static (ps : list Task) : forall o,
  task_id (foldl (fun o p => add_producer p o) o ps) = task_id o /\
  task_action (foldl (fun o p => add_producer p o) o ps) = task_action o.
Proof.
  induction ps as [|p ps IH]; intros o; cbn [foldl]; [done|].
  destruct (IH (add_producer p o)) as [-> ->]. apply add_producer_static.
Qed.

Lemma add_producer_grows (p o : Task) (k : string) :
  k ∈ task_dependencies o -> k ∈ task_dependencies (add_producer p o).
Proof.
  intros Hk. unfold add_producer. destruct (feeds p o); [|done].
  destruct (str_in _ _); [done|]. destruct o. cbn in *.
  apply elem_of_app. by left.
Qed.

Lemma add_producers_grow (ps : list Task) : forall o k,
  k ∈ task_dependencies o ->
  k ∈ task_dependencies (foldl (fun o p => add_producer p o) o ps).
Proof.
  induction ps as [|p ps IH]; intros o k Hk; cbn [foldl]; [done|].
  by apply IH, add_producer_grows.
Qed.

(** After the loop every task that feeds [o] is among its dependencies. *)
Lemma add_producers_complete (ps : list Task) : forall o p,
  p ∈ ps -> feeds p o = true ->
  task_id p ∈ task_dependencies (foldl (fun o p => add_producer p o) o ps).
Proof.
  induction ps as [|q ps IH]; intros o p Hin Hfeeds; [by apply elem_of_nil in Hin|].
  cbn [foldl]. apply elem_of_cons in Hin as [->|Hin].
  - apply add_producers_grow. unfold add_producer. rewrite Hfeeds.
    destruct (str_in (task_id q) (task_dependencies o)) eqn:Hs.
    + by apply str_in_elem.
    + destruct o. cbn. apply elem_of_app. right. left.
  - apply IH; [done|].
    destruct (add_producer_static q o) as [Hid Hact].
    by rewrite (feeds_static p o _ Hid Hact).
Qed.

(** A loop over producers that are all listed already changes nothing. *)
Lemma add_producers_listed (qs : list Task) (o : Task) :
  (forall q, q ∈ qs -> feeds q o = true -> task_id q ∈ task_dependencies o) ->
  foldl (fun o p => add_producer p o) o qs = o.
Proof.
  induction qs as [|q qs IH]; intros Hall; cbn [foldl]; [done|].
  assert (Hq : add_producer q o = o).
  { unfold add_producer. destruct (feeds q o) eqn:Hfeeds; [|done].
    assert (Hin : task_id q ∈ task_dependencies o) by (apply Hall; [left|done]).
    apply str_in_elem in Hin. by rewrite Hin. }
  rewrite Hq. apply IH. intros q' Hq'. apply Hall. by right.
Qed.

(** X8. [_resolve_dependencies] is idempotent: on a workflow whose dependencies
    it has resolved, a second call adds nothing. *)
Theorem resolve_dependencies_idempotent (w : Workflow) :
  _resolve_dependencies (_resolve_dependencies w) = _resolve_dependencies w.
Proof.
  unfold _resolve_dependencies. cbn [wf_tasks set_wf_tasks].
  set (ps := dict_values (wf_tasks w)).
  set (F := fun o => foldl (fun o p => add_producer p o) o ps).
  assert (Hfirst : foldl resolve_for (wf_tasks w) ps
                   = map (fun kv => (fst kv, F (snd kv))) (wf_tasks w))
    by apply resolve_fold.
  rewrite Hfirst.
  assert (Hvals : dict_values (map (fun kv => (fst kv, F (snd kv))) (wf_tasks w))
                  = map F ps).
  { unfold dict_values, ps, dict_values. by rewrite !map_map. }
  rewrite Hvals, resolve_fold, map_map. cbn [fst snd].
  assert (Hsame : map (fun kv : string * Task =>
                         (fst kv, foldl (fun o p => add_producer p o) (F (snd kv))
                                    (map F ps))) (wf_tasks w)
                  = map (fun kv => (fst kv, F (snd kv))) (wf_tasks w)).
  { apply map_ext. intros [k o]. cbn [fst snd]. f_equal.
    apply add_producers_listed.
    intros q (p & -> & Hp)%list_elem_of_fmap Hfeeds.
    destruct (add_producers_static ps p) as [Hpid Hpact].
    destruct (add_producers_static ps o) as [Hoid Hoact].
    fold (F p) in Hpid, Hpact. fold (F o) in Hoid, Hoact.
    rewrite (feeds_static_l p (F p) (F o) Hpid Hpact) in Hfeeds.
    rewrite (feeds_static p o (F o) Hoid Hoact) in Hfeeds.
    rewrite Hpid. by apply add_producers_complete. }
  rewrite Hsame. by destruct w.
Qed.

(** ** Workflow ids *)

Lemma has_underscore_pretty_N_go (x : N) : forall s,
  has_underscore (pretty_N_go x s) = has_underscore s.
Proof.
  induction (N.lt_wf_0 x) as [x _ IH]; intros s.
  destruct (decide (x = 0)%N) as [->|Hne]; [by rewrite pretty_N_go_0|].
  rewrite pretty_N_go_step by lia.
  rewrite IH by (apply N.div_lt; lia).
  cbn [has_underscore]. unfold pretty_N_char. by repeat case_match.
Qed.

Lemma has_underscore_pretty (n : nat) : has_underscore (pretty n) = false.
Proof.
  unfold pretty, pretty_nat, pretty, pretty_N.
  destruct (decide (N.of_nat n = 0)%N); [done|].
  by rewrite has_underscore_pretty_N_go.
Qed.

Lemma has_underscore_app (x y : string) :
  has_underscore (x +:+ y) = has_underscore x || has_underscore y.
Proof.
  induction x as [|c x IH]; [done|].
  change (String c x +:+ y) with (String c (x +:+ y)).
  cbn [has_underscore]. rewrite IH. by rewrite orb_assoc.
Qed.

Lemma last_field_app (x d : string) :
  has_underscore d = false -> last_field (x +:+ "_" +:+ d) = d.
Proof.
  intros Hd. induction x as [|c x IH].
  - change (last_field (String "_" d) = d). cbn [last_field]. by rewrite Hd.
  - assert (Hu : has_underscore (x +:+ "_" +:+ d) = true).
    { rewrite has_underscore_app. cbn. apply orb_true_r. }
    change (String c x +:+ "_" +:+ d) with (String c (x +:+ "_" +:+ d)).
    cbn [last_field]. by rewrite Hu.
Qed.

Lemma last_field_workflow_id (x d : string) :
  has_underscore d = false ->
  last_field ("workflow_" +:+ x +:+ "_" +:+ d) = d.
Proof.
  intros Hd. exact (last_field_app ("workflow_" +:+ x) d Hd).
Qed.

(** ** Frames that keep the static fields *)

Lemma static_frame_refl (w : Workflow) : static_frame w w.
Proof. split; [done|]. split; [done|]. intros k t Hin. by exists t. Qed.

Lemma static_frame_trans (w1 w2 w3 : Workflow) :
  static_frame w1 w2 -> static_frame w2 w3 -> static_frame w1 w3.
Proof.
  intros (Hs1 & Hk1 & Ht1) (Hs2 & Hk2 & Ht2).
  split.
  { destruct Hs1 as (?&?&?&?&?&?&?&?&?&?&?), Hs2 as (?&?&?&?&?&?&?&?&?&?&?).
    repeat split; congruence. }
  split; [congruence|].
  intros k t3 Hin3. destruct (Ht2 k t3 Hin3) as (t2 & Hin2 & Hst2).
  destruct (Ht1 k t2 Hin2) as (t1 & Hin1 & Hst1).
  exists t1. split; [done|]. by eapply same_static_trans.
Qed.

Lemma heap_static_refl (st : Core) : heap_static st st.
Proof.
  split; [done|]. intros l w Hl. exists w. split; [done|apply static_frame_refl].
Qed.

Lemma heap_static_trans (st1 st2 st3 : Core) :
  heap_static st1 st2 -> heap_static st2 st3 -> heap_static st1 st3.
Proof.
  intros [Hlen1 H1] [Hlen2 H2]. split; [congruence|].
  intros l w Hl. destruct (H1 l w Hl) as (w2 & Hl2 & Hf1).
  destruct (H2 l w2 Hl2) as (w3 & Hl3 & Hf2).
  exists w3. split; [done|]. by eapply static_frame_trans.
Qed.

Lemma heap_static_same_heap (st st' : Core) :
  heap st' = heap st -> heap_static st st'.
Proof.
  intros Hheap. split; [by rewrite Hheap|]. intros l w Hl.
  exists w. split; [by rewrite Hheap|apply static_frame_refl].
Qed.

(** Replacing one workflow object by a frame of itself. *)
Lemma heap_static_insert (st st' : Core) (l : loc) (w w' : Workflow) :
  heap st !! l = Some w -> static_frame w w' ->
  heap st' = <[l := w']> (heap st) ->
  heap_static st st'.
Proof.
  intros Hl Hframe Hheap. split; [by rewrite Hheap, length_insert|].
  intros l0 w0 Hl0. rewrite Hheap.
  destruct (decide (l0 = l)) as [->|Hne].
  - exists w'. split; [apply list_lookup_insert_eq; by eapply lookup_lt_Some|].
    congruence.
  - exists w0. split; [by rewrite list_lookup_insert_ne|apply static_frame_refl].
Qed.

Lemma static_frame_modify (w : Workflow) (tid : string) (f : Task -> Task) :
  (forall t, same_static t (f t)) ->
  static_frame w (set_wf_tasks (dict_modify tid f (wf_tasks w)) w).
Proof.
  intros Hf. split; [done|]. cbn [wf_tasks set_wf_tasks].
  split; [apply dict_keys_modify|].
  intros k t' [Hin|(t0 & Hin & ->)]%elem_of_dict_modify.
  - by exists t'.
  - by exists t0.
Qed.

Lemma heap_static_modify_task (st : Core) (l : loc) (w : Workflow)
    (tid : string) (f : Task -> Task) (st1 : Core) :
  heap st !! l = Some w -> heap st1 = heap st ->
  (forall t, same_static t (f t)) ->
  heap_static st (modify_task l w tid f st1).
Proof.
  intros Hl Hheap Hf.
  eapply heap_static_insert; [exact Hl|by apply static_frame_modify|].
  unfold modify_task. cbn [heap set_heap]. by rewrite Hheap.
Qed.

Lemma heap_static_update (E : Env) (wid tid : string) s r e (st : Core) :
  heap_static st (fst (update_task_status E wid tid s r e st)).
Proof.
  rewrite update_task_status_eq.
  destruct (find_workflow st wid) as [[l w]|] eqn:Hfind; [|apply heap_static_refl].
  apply find_workflow_Some in Hfind as [_ Hl].
  destruct (dict_get tid (wf_tasks w)); [|apply heap_static_refl].
  cbn [fst]. apply heap_static_modify_task; [done|by destruct (reads_clock s)|].
  intros t0. apply stamp_status_static.
Qed.

Lemma heap_static_exec_step (E : Env) (st st' : Core) :
  exec_step E st st' -> heap_static st st'.
Proof.
  destruct 1; try apply heap_static_update; by apply heap_static_same_heap.
Qed.

Lemma heap_static_exec_steps (E : Env) (st st' : Core) :
  rtc (exec_step E) st st' -> heap_static st st'.
Proof.
  induction 1 as [|st1 st2 st3 Hstep _ IH]; [apply heap_static_refl|].
  eapply heap_static_trans; [by eapply heap_static_exec_step|exact IH].
Qed.

Lemma cancel_task_static (t : Task) : same_static t (cancel_task t).
Proof. unfold cancel_task. by destruct (_ || _). Qed.

Lemma heap_static_cancel (wid : string) (st : Core) :
  heap_static st (fst (cancel_workflow wid st)).
Proof.
  unfold cancel_workflow.
  destruct (find_workflow st wid) as [[l w]|] eqn:Hfind; [|apply heap_static_refl].
  apply find_workflow_Some in Hfind as [_ Hl]. cbn [fst].
  eapply heap_static_insert; [exact Hl| |done].
  split; [done|]. cbn [wf_tasks set_wf_tasks].
  split; [unfold dict_keys; by rewrite map_map|].
  intros k t' ([k0 t0] & [= -> ->] & Hin)%list_elem_of_fmap.
  exists t0. split; [done|apply cancel_task_static].
Qed.

Lemma heap_static_retry (wid tid : string) (st : Core) :
  heap_static st (fst (retry_failed_task wid tid st)).
Proof.
  unfold retry_failed_task.
  destruct (find_workflow st wid) as [[l w]|] eqn:Hfind; [|apply heap_static_refl].
  apply find_workflow_Some in Hfind as [_ Hl].
  destruct (get_task w tid); [|apply heap_static_refl].
  destruct (bool_decide _); [apply heap_static_refl|]. cbn [fst].
  by apply heap_static_modify_task.
Qed.

(** ** The frame keeps the planner sound *)

Lemma static_frame_sound (w w' : Workflow) :
  static_frame w w' ->
  well_keyed w /\ deps_closed w /\ ranked (rank_in w) w ->
  well_keyed w' /\ deps_closed w' /\ ranked (rank_in w') w'.
Proof.
  intros (Hsame & Hkeys & Hall) ([Hnd Hown] & Hclosed & Hranked).
  assert (Hnd' : NoDup (dict_keys (wf_tasks w'))) by (by rewrite Hkeys).
  assert (Hrank : forall k, rank_in w' k = rank_in w k).
  { intros k. unfold rank_in.
    destruct (dict_get k (wf_tasks w')) as [t'|] eqn:Hget'.
    - apply dict_get_Some_elem in Hget'.
      destruct (Hall k t' Hget') as (t & Hin & Hst).
      rewrite (dict_get_NoDup k t _ Hnd Hin).
      by destruct Hst as (_ & _ & _ & _ & -> & _).
    - destruct (dict_get k (wf_tasks w)) as [t|] eqn:Hget; [|done].
      assert (Hk : k ∈ dict_keys (wf_tasks w)) by (apply dict_get_key; congruence).
      rewrite <- Hkeys in Hk. apply dict_get_key in Hk. done. }
  split; [split; [done|]|split].
  - intros k t' Hin'. destruct (Hall k t' Hin') as (t & Hin & Hst).
    destruct Hst as (-> & _). by apply (Hown k).
  - intros k t' dep_id Hin' Hdep. destruct (Hall k t' Hin') as (t & Hin & Hst).
    destruct Hst as (_ & _ & _ & _ & _ & _ & _ & Hdeps & _). rewrite Hdeps in Hdep.
    apply dict_get_key. rewrite Hkeys. apply dict_get_key.
    by apply (Hclosed k t).
  - intros k t' dep_id Hin' Hdep. destruct (Hall k t' Hin') as (t & Hin & Hst).
    destruct Hst as (_ & _ & _ & _ & _ & _ & _ & Hdeps & _). rewrite Hdeps in Hdep.
    rewrite !Hrank. by apply (Hranked k t).
Qed.

Lemma planner_sound_frame (st st' : Core) :
  planner_sound st -> heap_static st st' -> workflows st' = workflows st ->
  planner_sound st'.
Proof.
  intros (Hsize & Hmap & Hreg & Hids & Hsound) [Hlen Hframe] Hwfs.
  assert (Hback : forall l w', heap st' !! l = Some w' ->
            exists w, heap st !! l = Some w /\ static_frame w w').
  { intros l w' Hl'.
    destruct (heap st !! l) as [w|] eqn:Hl.
    - destruct (Hframe l w Hl) as (w2 & Hl2 & Hf). exists w. split; [done|].
      congruence.
    - apply lookup_lt_Some in Hl'. apply lookup_ge_None in Hl. lia. }
  split; [by rewrite Hlen, Hwfs|]. rewrite Hwfs.
  split; [|split; [|split; [done|]]].
  - intros wid l Hwid. destruct (Hmap wid l Hwid) as (w & Hl & Hid).
    destruct (Hframe l w Hl) as (w' & Hl' & (Hsame & _)).
    exists w'. split; [done|]. destruct Hsame as (-> & _). done.
  - intros l w' Hl'. destruct (Hback l w' Hl') as (w & Hl & (Hsame & _)).
    destruct Hsame as (-> & _). by apply Hreg.
  - intros l w' Hl'. destruct (Hback l w' Hl') as (w & Hl & Hf).
    eapply static_frame_sound; [exact Hf|by eapply Hsound].
Qed.

(** ** Planning keeps the planner sound *)

Lemma plan_workflow_sound (E : Env) (goal description : string)
    (context : option (Dict PyVal)) (st : Core) :
  planner_sound st ->
  exists st' w,
    plan_workflow E goal description context st = (st', length (heap st)) /\
    heap st' = heap st ++ [w] /\
    workflows st' = <[wf_id w := length (heap st)]> (workflows st) /\
    workflows st !! wf_id w = None /\
    planner_sound st'.
Proof.
  intros (Hsize & Hmap & Hreg & Hids & Hsound).
  destruct (plan_workflow_shape E goal description context st)
    as (st' & w & tasks & Hplan & Hheap & Hwfs & Hid & _ & _ & _ & _ & Hissued
        & _ & Hlen & Htasks & _).
  destruct Hissued as (_ & Hlabels & Hnew).
  cbn [_task_counter set_clock_reads] in Hlabels.
  assert (Hnd : NoDup (map task_id tasks)).
  { rewrite Hlabels. apply task_labels_NoDup. }
  destruct (planned_for_scheduler w tasks Htasks Hnd Hnew)
    as (Hkeyed & Hclosed & Hranked & _).
  assert (Hlast : last_field (wf_id w) = pretty (size (workflows st) + 1)).
  { rewrite Hid. apply last_field_workflow_id, has_underscore_pretty. }
  assert (Hfresh : workflows st !! wf_id w = None).
  { destruct (workflows st !! wf_id w) as [l|] eqn:Hl; [|done].
    destruct (Hids _ l Hl) as (j & Hj & Hfield).
    rewrite Hlast in Hfield. apply (inj pretty) in Hfield. lia. }
  assert (Hsize' : size (workflows st') = S (size (workflows st))).
  { rewrite Hwfs. by apply map_size_insert_None. }
  exists st', w. split; [done|]. split; [done|]. split; [done|]. split; [done|].
  split; [rewrite Hheap, length_app, Hsize'; cbn; lia|].
  split; [|split; [|split]].
  - intros wid l. rewrite Hwfs. intros Hl.
    apply lookup_insert_Some in Hl as [[<- <-]|[Hne Hl]].
    + exists w. split; [|done]. rewrite Hheap. by apply list_lookup_middle.
    + destruct (Hmap wid l Hl) as (w0 & Hl0 & Hid0). exists w0. split; [|done].
      rewrite Hheap. by apply lookup_app_l_Some.
  - intros l w0. rewrite Hheap, Hwfs. intros Hl.
    apply lookup_app_Some in Hl as [Hl|[Hge Hl]].
    + pose proof (Hreg l w0 Hl) as Hheld.
      rewrite lookup_insert_ne; [done|]. intros Heq. congruence.
    + destruct (l - length (heap st)) as [|n] eqn:Hdiff; [|by destruct n].
      injection Hl as <-. assert (l = length (heap st)) as -> by lia.
      apply lookup_insert_eq.
  - intros wid l. rewrite Hsize', Hwfs. intros Hl.
    apply lookup_insert_Some in Hl as [[<- <-]|[Hne Hl]].
    + exists (size (workflows st) + 1). split; [lia|done].
    + destruct (Hids wid l Hl) as (j & Hj & Hfield). exists j. split; [lia|done].
  - intros l w0. rewrite Hheap. intros Hl.
    apply lookup_app_Some in Hl as [Hl|[Hge Hl]]; [by eapply Hsound|].
    destruct (l - length (heap st)) as [|n]; [|by destruct n].
    injection Hl as <-. done.
Qed.

Lemma _execute_workflow_tasks_sound (E : Env) (st st' : Core) (l : loc)
    (result : ExecutionResult) :
  planner_sound st ->
  _execute_workflow_tasks E st l = Some (st', result) ->
  planner_sound st'.
Proof.
  intros Hsound Hrun.
  assert (Hl : exists w, heap st !! l = Some w).
  { unfold _execute_workflow_tasks in Hrun.
    destruct (heap st !! l) as [w|]; [by exists w|done]. }
  destruct Hl as [w Hl].
  destruct (_execute_workflow_tasks_spec E st l w Hl) as (st2 & result2 & Hrun2 & Hsteps).
  assert (st2 = st') as -> by congruence.
  eapply planner_sound_frame; [exact Hsound|by eapply heap_static_exec_steps|].
  by destruct (exec_steps_frame E st st' Hsteps) as (_ & -> & _).
Qed.

Lemma apply_op_sound (E : Env) (op : Op) (st st' : Core) :
  planner_sound st -> apply_op E op st = Some st' -> planner_sound st'.
Proof.
  intros Hsound. destruct op as [g d c|g d c|l|wid tid s r e|wid|wid tid];
    cbn [apply_op].
  - intros [= <-].
    destruct (plan_workflow_sound E g d c st Hsound) as (st1 & w & -> & _ & _ & _ & H).
    done.
  - unfold execute_workflow.
    destruct (plan_workflow_sound E g d c st Hsound) as (st1 & w & -> & _ & _ & _ & H1).
    destruct (_execute_workflow_tasks E st1 (length (heap st))) as [[st2 result]|]
      eqn:Hrun; [|done].
    cbn. intros [= <-].
    pose proof (_execute_workflow_tasks_sound E st1 st2 _ result H1 Hrun) as H2.
    eapply planner_sound_frame; [exact H2| |done].
    by apply heap_static_same_heap.
  - destruct (_execute_workflow_tasks E st l) as [[st1 result]|] eqn:Hrun; [|done].
    cbn. intros [= <-]. by eapply _execute_workflow_tasks_sound.
  - intros [= <-]. eapply planner_sound_frame; [done|apply heap_static_update|].
    rewrite update_task_status_eq.
    destruct (find_workflow st wid) as [[l w]|]; [|done].
    destruct (dict_get tid (wf_tasks w)); [|done].
    by destruct (reads_clock s).
  - intros [= <-]. eapply planner_sound_frame; [done|apply heap_static_cancel|].
    unfold cancel_workflow. by destruct (find_workflow st wid) as [[l w]|].
  - intros [= <-]. eapply planner_sound_frame; [done|apply heap_static_retry|].
    unfold retry_failed_task.
    destruct (find_workflow st wid) as [[l w]|]; [|done].
    destruct (get_task w tid); [|done]. by destruct (bool_decide _).
Qed.

Lemma run_ops_sound (E : Env) (ops : list Op) : forall st st',
  planner_sound st -> run_ops E ops st = Some st' -> planner_sound st'.
Proof.
  induction ops as [|op ops IH]; intros st st' Hsound; cbn [run_ops].
  - by intros [= <-].
  - destruct (apply_op E op st) as [st1|] eqn:Hop; [|done]. cbn.
    apply IH. by eapply apply_op_sound.
Qed.

Lemma new_orchestrator_sound cfg handlers clock :
  planner_sound (new_orchestrator cfg handlers clock).
Proof.
  split; [done|]. split; [by intros wid l H|]. split; [by intros [|l] w H|].
  split; [by intros wid l H|]. by intros [|l] w H.
Qed.

(** X22. In every state that an orchestrator reaches from its creation through
    [plan_workflow], [execute_workflow], [_execute_workflow_tasks],
    [update_task_status], [cancel_workflow] and [retry_failed_task], the
    planner holds every workflow object under the object's own id and holds
    as many ids as there are workflow objects; every workflow has one task
    per key, filed under the task's id, and its dependencies name tasks of
    the workflow and are acyclic. So in such a state [get_next_tasks] never
    raises, for any id. *)
Theorem reachable_states_are_sound (E : Env) (cfg : AgentExecutionConfig)
    (handlers : gmap string Handler) (clock : nat) (ops : list Op) (st : Core) :
  run_ops E ops (new_orchestrator cfg handlers clock) = Some st ->
  length (heap st) = size (workflows st) /\
  (forall l w, heap st !! l = Some w ->
     registered st l w /\ well_keyed w /\ deps_closed w /\
     exists rank, ranked rank w) /\
  (forall wid l, get_workflow st wid = Some l ->
     exists w, heap st !! l = Some w /\ wf_id w = wid) /\
  (forall wid, exists ready, get_next_tasks st wid = Returned ready).
Proof.
  intros Hrun.
  pose proof (run_ops_sound E ops _ st (new_orchestrator_sound cfg handlers clock) Hrun)
    as (Hsize & Hmap & Hreg & _ & Hsound).
  split; [done|]. split; [|split; [done|]].
  - intros l w Hl. destruct (Hsound l w Hl) as (Hk & Hc & Hr).
    split; [split; [done|by apply Hreg]|]. split; [done|]. split; [done|].
    by exists (rank_in w).
  - intros wid. unfold get_next_tasks.
    destruct (find_workflow st wid) as [[l w]|] eqn:Hfind; [|by exists []].
    apply find_workflow_Some in Hfind as [_ Hl].
    destruct (Hsound l w Hl) as (_ & Hc & _).
    rewrite get_ready_tasks_closed by done. by eexists.
Qed.

(** X23. In every such state [plan_workflow] files the new workflow under an
    id that the planner did not hold: no earlier workflow is replaced, every
    id that could be looked up before still leads to the same workflow
    object, and the planner holds one workflow more. *)
Theorem planning_never_replaces_a_workflow (E : Env) (cfg : AgentExecutionConfig)
    (handlers : gmap string Handler) (clock : nat) (ops : list Op) (st : Core)
    (goal description : string) (context : option (Dict PyVal)) :
  run_ops E ops (new_orchestrator cfg handlers clock) = Some st ->
  exists st' w,
    plan_workflow E goal description context st = (st', length (heap st)) /\
    heap st' = heap st ++ [w] /\
    get_workflow st (wf_id w) = None /\
    get_workflow st' (wf_id w) = Some (length (heap st)) /\
    (forall wid l, get_workflow st wid = Some l ->
       get_workflow st' wid = Some l /\ heap st' !! l = heap st !! l) /\
    size (workflows st') = S (size (workflows st)).
Proof.
  intros Hrun.
  pose proof (run_ops_sound E ops _ st (new_orchestrator_sound cfg handlers clock) Hrun)
    as Hsound.
  destruct (plan_workflow_sound E goal description context st Hsound)
    as (st' & w & Hplan & Hheap & Hwfs & Hfresh & _).
  destruct Hsound as (_ & Hmap & _).
  exists st', w. split; [done|]. split; [done|]. split; [done|].
  unfold get_workflow. rewrite Hwfs.
  split; [apply lookup_insert_eq|]. split.
  - intros wid l Hl. split.
    + rewrite lookup_insert_ne; [done|]. intros <-. congruence.
    + destruct (Hmap wid l Hl) as (w0 & Hl0 & _). rewrite Hheap, Hl0.
      by apply lookup_app_l_Some.
  - by apply map_size_insert_None.
Qed.

(** ** The theorems at sample inputs, continued *)

Lemma distinct_sound (keys : list string) : distinct keys = true -> NoDup keys.
Proof.
  induction keys as [|k keys IH]; cbn [distinct]; [constructor|].
  intros [Hk Hrest]%andb_true_iff. constructor; [|by apply IH].
  intros Hin%str_in_elem. by rewrite Hin in Hk.
Qed.

Lemma well_keyedb_sound (w : Workflow) : well_keyedb w = true -> well_keyed w.
Proof.
  unfold well_keyedb. intros [Hd Hown]%andb_true_iff.
  split; [by apply distinct_sound|].
  rewrite forallb_forall in Hown. intros k t Hin%list_elem_of_In.
  specialize (Hown (k, t) Hin). by apply String.eqb_eq in Hown.
Qed.

Lemma rankedb_sound (rank : string -> nat) (w : Workflow) :
  rankedb rank w = true -> ranked rank w.
Proof.
  unfold rankedb, ranked. rewrite forallb_forall.
  intros Hall k t dep_id Hin%list_elem_of_In Hdep%list_elem_of_In.
  specialize (Hall (k, t) Hin). cbn [fst snd] in Hall.
  rewrite forallb_forall in Hall. by apply Nat.ltb_lt, Hall.
Qed.

Lemma sample_env_returns : collaborators_return sample_env.
Proof. split; intros; eexists; reflexivity. Qed.

(** X10 at a sample input. *)
Lemma execution_respects_dependencies_sample :
  exists st' result w' order,
    _execute_workflow_tasks sample_env core_ab_stored 0 = Some (st', result) /\
    heap st' !! 0 = Some w' /\
    dispatched st' = order ++ dispatched core_ab_stored /\
    NoDup order /\
    get_ready_tasks w' = Returned [].
Proof.
  destruct (execution_respects_dependencies sample_env core_ab_stored 0 workflow_ab)
    as (st' & result & w' & order & Hrun & Hheap & _ & _ & Hdisp & Hnd & _ & _
        & Hready).
  - split; [reflexivity|vm_compute; reflexivity].
  - apply well_keyedb_sound; reflexivity.
  - apply deps_closedb_sound; reflexivity.
  - discriminate.
  - exists st', result, w', order. split; [exact Hrun|].
    split; [rewrite Hheap; reflexivity|]. split; [exact Hdisp|].
    split; [exact Hnd|exact Hready].
Defined.

(** X11 at a sample input. *)
Lemma execution_counts_match_statuses_sample :
  exists st' result w',
    _execute_workflow_tasks sample_env core_ab_stored 0 = Some (st', result) /\
    heap st' !! 0 = Some w' /\
    pr_failed (get_progress w') = er_tasks_failed result /\
    pr_completed (get_progress w') = er_tasks_completed result.
Proof.
  destruct (execution_counts_match_statuses sample_env core_ab_stored 0 workflow_ab)
    as (st' & result & w' & order & Hrun & Hl & _ & Hc & Hf & _).
  - split; [reflexivity|vm_compute; reflexivity].
  - apply well_keyedb_sound; reflexivity.
  - apply deps_closedb_sound; reflexivity.
  - discriminate.
  - exists st', result, w'. split; [exact Hrun|]. split; [exact Hl|].
    split; [exact Hf|exact Hc].
Defined.

(** X12 at a sample input. *)
Lemma acyclic_workflow_completes_sample :
  exists st' result w',
    _execute_workflow_tasks sample_env core_cd 0 = Some (st', result) /\
    heap st' !! 0 = Some w' /\
    er_success result = true /\
    er_tasks_completed result = 1 /\
    forall k t, (k, t) ∈ wf_tasks w' -> task_status t = COMPLETED.
Proof.
  destruct (acyclic_workflow_completes sample_env core_cd 0 workflow_cd rank_cd)
    as (st' & result & w' & Hrun & Hl & Hall & Hs & _ & _ & _ & Hc & _).
  - split; [reflexivity|vm_compute; reflexivity].
  - apply well_keyedb_sound; reflexivity.
  - apply deps_closedb_sound; reflexivity.
  - apply rankedb_sound; reflexivity.
  - intros k t Hin.
    apply elem_of_cons in Hin as [Hin|Hin]; [injection Hin as -> ->; tauto|].
    apply elem_of_cons in Hin as [Hin|Hin]; [injection Hin as -> ->; tauto|].
    apply elem_of_nil in Hin; contradiction.
  - exists "d", (sample_task "d" "format" MEDIUM ["c"] PENDING).
    split; [right; left|discriminate].
  - exact sample_env_returns.
  - apply default_handlers_return; reflexivity.
  - exists st', result, w'. split; [exact Hrun|]. split; [exact Hl|].
    split; [exact Hs|]. split; [exact Hc|exact Hall].
Defined.

(** X13 at a sample input. *)
Lemma execute_workflow_succeeds_sample :
  exists st' result,
    execute_workflow sample_env (AgentOrchestrator default_config 0)
      "Tidy the archive" "description" None = Some (st', result) /\
    er_success result = true /\
    er_tasks_completed result = er_tasks_total result /\
    get_execution st' (er_workflow_id result) = Some result.
Proof.
  destruct (execute_workflow_succeeds sample_env (AgentOrchestrator default_config 0)
              "Tidy the archive" "description" None)
    as (st' & result & w' & Hrun & _ & _ & Hid & _ & Hs & _ & Ht & Hc & _ & _ & Hex & _).
  - reflexivity.
  - exact sample_env_returns.
  - exists st', result. split; [exact Hrun|]. split; [exact Hs|].
    split; [rewrite Hc, Ht; reflexivity|]. rewrite Hid. exact Hex.
Defined.

(** X7 at a sample input. *)
Lemma plain_goal_gets_default_plan_sample :
  plain_goal "Tidy the archive" /\
  exists st' w,
    plan_workflow sample_env "Tidy the archive" "description" None
      (AgentOrchestrator default_config 0) = (st', 0) /\
    heap st' !! 0 = Some w /\
    map (fun x => snd (fst x)) (task_wiring w) = ["analyze"; "execute"; "validate"] /\
    wf_estimated_total_duration w = 45%Z.
Proof.
  assert (Hplain : plain_goal "Tidy the archive") by (vm_compute; repeat split).
  split; [exact Hplain|].
  destruct (plain_goal_gets_default_plan sample_env "Tidy the archive" "description"
              None (AgentOrchestrator default_config 0) Hplain)
    as (st' & w & Hplan & Hl & Hwire & _ & Hdur & _).
  exists st', w. split; [exact Hplan|]. split; [exact Hl|].
  split; [rewrite Hwire; reflexivity|exact Hdur].
Defined.

(** X15 at a sample input. *)
Lemma detached_workflow_is_not_updated_sample :
  exists st' result,
    _execute_workflow_tasks sample_env core_ab_detached 0 = Some (st', result) /\
    heap st' = heap core_ab_detached /\
    dispatched st' = ["a"] /\
    er_tasks_completed result + er_tasks_failed result = 1.
Proof.
  destruct (detached_workflow_is_not_updated sample_env core_ab_detached 0 workflow_ab
              [sample_task "a" "explode" MEDIUM [] PENDING])
    as (st' & result & Hrun & Hheap & Hdisp & Hsum & _).
  - reflexivity.
  - vm_compute; reflexivity.
  - vm_compute; reflexivity.
  - discriminate.
  - exists st', result. split; [exact Hrun|]. split; [exact Hheap|].
    split; [exact Hdisp|exact Hsum].
Defined.

(** X9 at a sample input. *)
Lemma update_task_status_effect_sample :
  exists st' w' t',
    update_task_status sample_env "wf_cd" "d" IN_PROGRESS
      (Some [("output", PyStr "ignored")]) (Some "ignored") core_cd = (st', true) /\
    heap st' = [w'] /\
    dict_get "d" (wf_tasks w') = Some t' /\
    task_status t' = IN_PROGRESS /\
    task_started_at t' = Some 0%Z /\
    task_result t' = None /\ task_error t' = None.
Proof.
  destruct (update_task_status_effect sample_env core_cd "wf_cd" "d" IN_PROGRESS
              (Some [("output", PyStr "ignored")]) (Some "ignored") 0 workflow_cd
              (sample_task "d" "format" MEDIUM ["c"] PENDING))
    as (st' & w' & t' & Hrun & Hheap & _ & _ & Hget & _ & _ & Hs & Hstart & _ & Hres
        & Herr & _).
  - vm_compute; reflexivity.
  - reflexivity.
  - exists st', w', t'. split; [exact Hrun|]. split; [exact Hheap|].
    split; [exact Hget|]. split; [exact Hs|]. split; [exact Hstart|].
    split; [exact Hres|exact Herr].
Defined.

(** X16 at a sample input. *)
Lemma failed_review_keeps_result_sample :
  exists st' result' w' t',
    _execute_task strict_env core_cd 0
      (sample_task "d" "format" MEDIUM ["c"] PENDING)
      (mkResult "wf_cd" false "running" 0 None 0 0 0 2 [] [] [] [])
      = Some (st', result', false) /\
    heap st' !! 0 = Some w' /\
    dict_get "d" (wf_tasks w') = Some t' /\
    task_status t' = FAILED /\
    is_set (task_result t') /\
    er_errors result' = ["Task d failed: critic unavailable"].
Proof.
  destruct (failed_review_keeps_result strict_env core_cd 0 workflow_cd
              (sample_task "d" "format" MEDIUM ["c"] PENDING)
              (sample_task "d" "format" MEDIUM ["c"] PENDING)
              (mkResult "wf_cd" false "running" 0 None 0 0 0 2 [] [] [] [])
              [("action", PyStr "format"); ("output", PyStr "Formatted content");
               ("format", PyStr "text")]
              (RuntimeError "critic unavailable"))
    as (st' & result' & w' & t' & Hrun & Hl & Hget & Hs & Hres & _ & _ & _ & Herrs).
  - split; [reflexivity|vm_compute; reflexivity].
  - reflexivity.
  - vm_compute; reflexivity.
  - reflexivity.
  - reflexivity.
  - reflexivity.
  - exists st', result', w', t'. split; [exact Hrun|]. split; [exact Hl|].
    split; [exact Hget|]. split; [exact Hs|].
    split; [rewrite Hres; discriminate|exact Herrs].
Defined.

(** X17 at a sample input. *)
Lemma cancelled_workflow_has_nothing_to_run_sample :
  exists st1,
    cancel_workflow "wf_cd" core_cd = (st1, true) /\
    get_next_tasks st1 "wf_cd" = Returned [] /\
    exists st2 result,
      _execute_workflow_tasks sample_env st1 0 = Some (st2, result) /\
      er_status result = "failed".
Proof.
  destruct (cancelled_workflow_has_nothing_to_run sample_env core_cd "wf_cd" 0
              workflow_cd)
    as (st1 & Hcancel & Hnext & _ & Hrun).
  - vm_compute; reflexivity.
  - exists st1. split; [exact Hcancel|]. split; [exact Hnext|].
    destruct Hrun as (st2 & result & Hrun & Hs & _); [discriminate|].
    exists st2, result. split; [exact Hrun|exact Hs].
Defined.

(** X19 at a sample input. *)
Lemma dangling_dependency_fails_the_run_sample :
  get_ready_tasks workflow_dangling = Raised (KeyError "ghost") /\
  exists st' result,
    _execute_workflow_tasks sample_env core_dangling 0 = Some (st', result) /\
    er_status result = "failed" /\
    er_errors result = ["'ghost'"] /\
    dispatched st' = [].
Proof.
  assert (Hraise : get_ready_tasks workflow_dangling = Raised (KeyError "ghost"))
    by reflexivity.
  split; [exact Hraise|].
  destruct (dangling_dependency_fails_the_run sample_env core_dangling 0
              workflow_dangling (KeyError "ghost") eq_refl Hraise)
    as (_ & st' & result & Hrun & Hs & _ & Herrs & _ & _ & _ & _ & Hdisp).
  exists st', result. split; [exact Hrun|]. split; [exact Hs|].
  split; [exact Herrs|exact Hdisp].
Defined.

(** X20 at a sample input. *)
Lemma run_leaves_setup_alone_sample :
  exists st' result,
    _execute_workflow_tasks sample_env core_cd 0 = Some (st', result) /\
    get_execution st' "wf_cd" = None /\
    get_workflow_status st' "wf_cd" = None.
Proof.
  destruct (_execute_workflow_tasks sample_env core_cd 0) as [[st' result]|] eqn:Hrun;
    [|vm_compute in Hrun; discriminate Hrun].
  exists st', result. split; [reflexivity|].
  destruct (run_leaves_setup_alone sample_env core_cd st' 0 result Hrun)
    as (_ & _ & _ & _ & Hex & Hstatus).
  split; [rewrite Hex; reflexivity|]. apply Hstatus. reflexivity.
Defined.

(** X21 at a sample input. *)
Lemma retried_task_is_ready_again_sample :
  exists st' ready,
    retry_failed_task "wf_f" "f" core_failed = (st', true) /\
    get_next_tasks st' "wf_f" = Returned ready /\
    exists t, t ∈ ready /\ task_id t = "f" /\ task_status t = PENDING.
Proof.
  destruct (retried_task_is_ready_again core_failed "wf_f" "f" 0 workflow_failed
              (mkTask "f" "f" "description" "objective" "explode" [] MEDIUM []
                 FAILED 30 0 (Some 1%Z) (Some 2%Z) None
                 (Some "Task f failed: handler failed")))
    as (st' & ready & Hrun & Hnext & Hin).
  - vm_compute; reflexivity.
  - apply deps_closedb_sound; reflexivity.
  - reflexivity.
  - reflexivity.
  - intros dep_id Hdep. apply elem_of_nil in Hdep. contradiction.
  - exists st', ready. split; [exact Hrun|]. split; [exact Hnext|].
    eexists. split; [exact Hin|]. split; reflexivity.
Defined.

(** X18 at a sample input. *)
Lemma settled_workflow_cannot_run_sample :
  exists st' result,
    _execute_workflow_tasks sample_env core_done 0 = Some (st', result) /\
    er_status result = "failed" /\
    er_tasks_completed result = 0 /\
    heap st' = heap core_done.
Proof.
  destruct (settled_workflow_cannot_run sample_env core_done 0 workflow_done)
    as (_ & st' & result & Hrun & Hs & _ & _ & Hc & _ & _ & Hheap & _).
  - reflexivity.
  - discriminate.
  - intros k t Hin.
    apply elem_of_cons in Hin as [Hin|Hin];
      [injection Hin as -> ->; split; discriminate|].
    apply elem_of_nil in Hin; contradiction.
  - exists st', result. split; [exact Hrun|]. split; [exact Hs|].
    split; [exact Hc|exact Hheap].
Defined.

(** X22 at a sample input. *)
Lemma reachable_states_are_sound_sample :
  exists st,
    run_ops sample_env
      [OpExecute "Tidy the archive" "description" None;
       OpPlan "Summarize the reports" "description" None;
       OpCancel "workflow_20240101120000_2"]
      (new_orchestrator default_config ∅ 0) = Some st /\
    length (heap st) = size (workflows st) /\
    exists ready, get_next_tasks st "workflow_20240101120000_2" = Returned ready.
Proof.
  destruct (run_ops sample_env
              [OpExecute "Tidy the archive" "description" None;
               OpPlan "Summarize the reports" "description" None;
               OpCancel "workflow_20240101120000_2"]
              (new_orchestrator default_config ∅ 0)) as [st|] eqn:Hrun;
    [|vm_compute in Hrun; discriminate Hrun].
  exists st. split; [reflexivity|].
  destruct (reachable_states_are_sound sample_env default_config ∅ 0 _ st Hrun)
    as (Hsize & _ & _ & Hnext).
  split; [exact Hsize|apply Hnext].
Defined.

(** X23 at a sample input. *)
Lemma planning_never_replaces_a_workflow_sample :
  exists st st' w,
    run_ops sample_env
      [OpPlan "Tidy the archive" "description" None;
       OpPlan "Tidy the archive" "description" None]
      (new_orchestrator default_config ∅ 0) = Some st /\
    plan_workflow sample_env "Tidy the archive" "description" None st
      = (st', length (heap st)) /\
    heap st' = heap st ++ [w] /\
    get_workflow st (wf_id w) = None /\
    size (workflows st') = S (size (workflows st)).
Proof.
  destruct (run_ops sample_env
              [OpPlan "Tidy the archive" "description" None;
               OpPlan "Tidy the archive" "description" None]
              (new_orchestrator default_config ∅ 0)) as [st|] eqn:Hrun;
    [|vm_compute in Hrun; discriminate Hrun].
  destruct (planning_never_replaces_a_workflow sample_env default_config ∅ 0 _ st
              "Tidy the archive" "description" None Hrun)
    as (st' & w & Hplan & Hheap & Hfresh & _ & _ & Hsize).
  exists st, st', w. split; [reflexivity|]. split; [exact Hplan|].
  split; [exact Hheap|]. split; [exact Hfresh|exact Hsize].
Defined.
